(** * Zero2One: the progression and rules engine

    A shallow embedding of the rules engine of the Zero2One habit tracker
    (app/models/tasks.py, app/models/jobs.py,
    app/models/achievement_chains.py, app/services/progress_tracker.py,
    app/services/data_manager.py) together with the properties checked
    against it.

    Modelling conventions.
    - Python numbers.  The program mixes [int] and [float] freely
      (attribute values start as the integer 0 and become floats as soon as
      a job multiplier is applied).  Both are modelled by exact rationals
      [Q]; binary rounding of floats is outside the model.  Every concrete
      value evaluated below (2, 1.5, 2.0, 3.0, 6.0, 50, 595, ...) except the
      decimal literals of the job catalogue is exactly representable in
      binary64.
    - Dictionaries keyed by strings whose iteration order is irrelevant
      (attributes, multipliers, task collections) are [gmap string _];
      dictionaries that are literally written in the source and iterated in
      order (rank thresholds, severity levels, job catalogue, requirements,
      rewards, chains) are association lists in source order.  Where the
      insertion order of an attribute dictionary decides a result (the
      first of several greatest values), the order is an argument.
    - A key that may be missing from a dictionary is an [option] field; a
      Python exception is an explicit error value, and a function whose
      [except] handler answers after part of the work was done returns
      the state with that part done.
    - Functions of the task ledger, the penalties, the jobs and the chains
      are state passing.  Export and import hand the session's own
      dictionaries around, so there the dictionaries are objects in a
      heap and the session state holds references to them.
    - [datetime] values are naive timestamps; ISO strings stored in the state
      are modelled by the timestamp they denote. *)

From Stdlib Require Import ZArith QArith Qminmax Lqa.
From stdpp Require Import gmap strings list fin_maps.

Open Scope string_scope.
Open Scope list_scope.

(** ** Python primitives *)

Module Py.

(** Exceptions that the modelled code can raise. *)
Inductive exn :=
| KeyError (key : string)
| IndexError
| ZeroDivisionError
| ValueError
| AttributeError (name : string).

(** [d.get(k, default)] on a dictionary of numbers. *)
Definition get (d : gmap string Q) (k : string) (dflt : Q) : Q :=
  default dflt (d !! k).

(** [max(a, b)] and [min(a, b)] on numbers: the first argument wins ties. *)
Definition max (a b : Q) : Q := Qmax a b.
Definition min (a b : Q) : Q := Qmin a b.

(** [a >= b] on numbers. *)
Definition ge (a b : Q) : bool := Qle_bool b a.

(** [a < b] on numbers. *)
Definition lt (a b : Q) : bool := negb (Qle_bool b a).

(** Lookup in a dictionary literal kept in source order. *)
Fixpoint assoc {V : Type} (k : string) (d : list (string * V)) : option V :=
  match d with
  | [] => None
  | (k', v) :: d' => if String.eqb k k' then Some v else assoc k d'
  end.

End Py.

(** ** app/services/progress_tracker.py : rank calculator *)

Module ProgressTracker.

(** [self.rank_thresholds], in insertion order. *)
Definition rank_thresholds : list (string * Q) :=
  [ ("E", 0%Q); ("D", 85%Q); ("C", 170%Q); ("B", 255%Q);
    ("A", 340%Q); ("S", 425%Q); ("SS", 510%Q); ("SSS", 595%Q) ].

(** The body of the [for i, (rank, threshold) in enumerate(ranks)] loop:
    the pair (current_rank, next_rank) after visiting entry [i]. *)
Definition rank_step (ranks : list (string * Q)) (value : Q)
    (acc : string * string) (i : nat) (entry : string * Q) : string * string :=
  let '(rank, threshold) := entry in
  if Py.ge value threshold then
    (rank,
     if (i <? length ranks - 1)%nat
     then match ranks !! S i with
          | Some (r, _) => r
          | None => rank
          end
     else rank)
  else acc.

Fixpoint rank_loop (ranks : list (string * Q)) (value : Q)
    (acc : string * string) (i : nat) (rest : list (string * Q))
    : string * string :=
  match rest with
  | [] => acc
  | entry :: rest' =>
      rank_loop ranks value (rank_step ranks value acc i entry) (S i) rest'
  end.

(** [calculate_rank(value)]: (current_rank, next_rank, progress).  A
    missing key or a zero denominator raises. *)
Definition calculate_rank (value : Q) : Py.exn + (string * string * Q) :=
  let ranks := rank_thresholds in
  let '(current_rank, next_rank) := rank_loop ranks value ("E", "D") 0 ranks in
  if negb (String.eqb current_rank "SSS") then
    match Py.assoc current_rank rank_thresholds with
    | None => inl (Py.KeyError current_rank)
    | Some current_threshold =>
        match Py.assoc next_rank rank_thresholds with
        | None => inl (Py.KeyError next_rank)
        | Some next_threshold =>
            if Qeq_bool (next_threshold - current_threshold) 0
            then inl Py.ZeroDivisionError
            else
              let progress :=
                ((value - current_threshold)
                 / (next_threshold - current_threshold))%Q in
              inr (current_rank, next_rank, Py.max 0 (Py.min 1 progress))
        end
    end
  else inr (current_rank, next_rank, 1%Q).

End ProgressTracker.

(** ** Time *)

Module DateTime.

(** A naive [datetime]: microseconds since 2000-01-01T00:00:00, the
    instant the source uses as the makeup deadline of a state that never
    had one. *)
Definition datetime : Type := Z.

Definition usec_per_hour : Z := 3600 * 1000000.
Definition usec_per_day : Z := 24 * usec_per_hour.

(** ["2000-01-01T00:00:00"]. *)
Definition y2000 : datetime := 0%Z.

(** [t.date()], as a day number. *)
Definition date (t : datetime) : Z := (t / usec_per_day)%Z.

(** [t + timedelta(hours=h)]. *)
Definition add_hours (t : datetime) (h : Z) : datetime :=
  (t + h * usec_per_hour)%Z.

(** [(a.date() - b.date()).days]. *)
Definition days_between (a b : datetime) : Z := (date a - date b)%Z.

End DateTime.

(** ** Randomness

    The three draws [update_tasks] makes from the [random] module, supplied
    by the caller as raw values. *)

Module Random.

Record draws := Draws {
  raw_int : Z;      (* entropy behind random.randint *)
  unit_draw : Q;     (* the value of random.random() *)
  raw_choice : nat  (* entropy behind random.choice *)
}.

(** [random.randint(a, b)]: an integer N with a <= N <= b; raises
    ValueError on an empty range. *)
Definition randint (a b : Z) (r : draws) : Py.exn + Z :=
  if (b <? a)%Z then inl Py.ValueError
  else inr (a + raw_int r mod (b - a + 1))%Z.

(** [random.choice(seq)]: raises IndexError on an empty sequence. *)
Definition choice {A : Type} (seq : list A) (r : draws) : Py.exn + A :=
  match seq with
  | [] => inl Py.IndexError
  | _ => match seq !! (raw_choice r mod length seq)%nat with
         | Some x => inr x
         | None => inl Py.IndexError
         end
  end.

End Random.

(** ** Session state *)

(** A task record (a dictionary in the source).  [points] and [completed]
    are read with [.get] and a default, [name] and [attribute] by
    subscript inside a [try] block whose handler answers False: each of
    the four keys may be missing.  The keys that no function below reads
    (id, description, type, created_at) are always there, so a record is
    never the empty dictionary. *)
Record Task := mkTask {
  task_id : string;
  task_name : option string;
  task_description : string;
  task_type : string;
  task_attribute : option string;
  task_points : option Q;
  task_completed : option bool;
  task_completed_at : option DateTime.datetime;
  task_created_at : DateTime.datetime
}.

(** [st.session_state.tasks]: category -> id -> task. *)
Abbreviation TaskStore := (gmap string (gmap string Task)).

(** [st.session_state.user_data].  Keys that the code tests for or reads
    with a default are options. *)
Record UserData := mkUserData {
  attributes : gmap string Q;
  streak : Z;
  last_active : option DateTime.datetime;
  makeup_deadline : option DateTime.datetime;
  multipliers : option (gmap string Q);
  current_job : option string;
  job_history : option (list (string * DateTime.datetime));
  ud_tasks : option TaskStore     (* user_data["tasks"], never set by the engine *)
}.

(** The part of [st.session_state] the task ledger works on. *)
Record Session := mkSession {
  user_data : UserData;
  tasks : TaskStore
}.

Definition set_attributes (a : gmap string Q) (u : UserData) : UserData :=
  mkUserData a (streak u) (last_active u) (makeup_deadline u) (multipliers u)
             (current_job u) (job_history u) (ud_tasks u).

Definition set_last_active (t : DateTime.datetime) (u : UserData) : UserData :=
  mkUserData (attributes u) (streak u) (Some t) (makeup_deadline u)
             (multipliers u) (current_job u) (job_history u) (ud_tasks u).

Definition set_makeup_deadline (t : DateTime.datetime) (u : UserData) : UserData :=
  mkUserData (attributes u) (streak u) (last_active u) (Some t)
             (multipliers u) (current_job u) (job_history u) (ud_tasks u).

Definition set_multipliers (m : gmap string Q) (u : UserData) : UserData :=
  mkUserData (attributes u) (streak u) (last_active u) (makeup_deadline u)
             (Some m) (current_job u) (job_history u) (ud_tasks u).

Definition set_current_job (j : string) (u : UserData) : UserData :=
  mkUserData (attributes u) (streak u) (last_active u) (makeup_deadline u)
             (multipliers u) (Some j) (job_history u) (ud_tasks u).

Definition set_job_history (h : list (string * DateTime.datetime)) (u : UserData)
    : UserData :=
  mkUserData (attributes u) (streak u) (last_active u) (makeup_deadline u)
             (multipliers u) (current_job u) (Some h) (ud_tasks u).

(** [list(user_data["attributes"].keys())].  The enumeration order of the
    finite map stands for the insertion order of the dictionary; the order
    is only ever used through a uniform random choice and through loops
    that treat every key alike. *)
Definition attribute_names (attrs : gmap string Q) : list string :=
  fst <$> map_to_list attrs.

(** [DataManager.initialize_new_state]: the fresh user data. *)
Module DataManager.

Definition initial_attributes : gmap string Q :=
  <["Health" := 0%Q]> (<["Physical" := 0%Q]> (<["Intelligence" := 0%Q]>
  (<["Spiritual" := 0%Q]> (<["Creativity" := 0%Q]>
  (<["Resilience" := 0%Q]> ∅))))).

Definition initial_multipliers : gmap string Q :=
  <["streak" := 1%Q]> (<["event" := 1%Q]> (<["job" := 1%Q]> ∅)).

Definition initialize_new_state (now : DateTime.datetime) : Session :=
  mkSession
    (mkUserData initial_attributes 0 (Some now) None
                (Some initial_multipliers) None (Some []) None)
    (<["daily" := ∅]> (<["weekly" := ∅]> (<["special" := ∅]>
     (<["penalty" := ∅]> ∅)))).

End DataManager.

(** ** app/models/tasks.py : task ledger and inactivity penalties *)

Module TaskManager.

(** Upper end of a severity range: a day count or [float('inf')]. *)
Inductive bound := Fin (n : Z) | Inf.

Definition le_bound (d : Z) (b : bound) : bool :=
  match b with
  | Fin n => (d <=? n)%Z
  | Inf => true
  end.

(** An entry of [self.severity_levels]: keys range, penalty, message. *)
Record level_data := LevelData {
  range : Z * bound;
  penalty : Z * Z;
  message : string
}.

Definition severity_levels : list (Z * level_data) :=
  [ (1%Z, LevelData (1%Z, Fin 3) (1%Z, 2%Z) "Minor Setback");
    (2%Z, LevelData (4%Z, Fin 7) (3%Z, 5%Z) "Significant Decline");
    (3%Z, LevelData (8%Z, Inf) (6%Z, 8%Z) "Critical Failure") ].

(** The record built inside the loop of [determine_severity]: keys
    level, penalty_range, message. *)
Record severity := Severity {
  level : Z;
  penalty_range : Z * Z;
  severity_message : string
}.

(** What [determine_severity] returns: the record built in the loop, or
    the raw table entry returned by the fallback after the loop. *)
Inductive severity_result :=
| Classified (s : severity)
| RawLevel (d : level_data).

Fixpoint find_level (levels : list (Z * level_data)) (missed_days : Z)
    : option severity :=
  match levels with
  | [] => None
  | (lvl, data) :: rest =>
      if ((fst (range data) <=? missed_days)%Z
          && le_bound missed_days (snd (range data)))%bool
      then Some (Severity lvl (penalty data) (message data))
      else find_level rest missed_days
  end.

Fixpoint level_entry (k : Z) (levels : list (Z * level_data))
    : option level_data :=
  match levels with
  | [] => None
  | (lvl, data) :: rest =>
      if (lvl =? k)%Z then Some data else level_entry k rest
  end.

Definition determine_severity (missed_days : Z) : Py.exn + severity_result :=
  match find_level severity_levels missed_days with
  | Some s => inr (Classified s)
  | None =>
      match level_entry 3 severity_levels with
      | Some d => inr (RawLevel d)
      | None => inl (Py.KeyError "3")
      end
  end.

(** [task.get("completed", False)]. *)
Definition is_completed (t : Task) : bool := default false (task_completed t).

(** The incomplete tasks of every category. *)
Definition incomplete_tasks (ts : TaskStore) : list Task :=
  flat_map
    (fun cat : string * gmap string Task =>
       List.filter (fun t => negb (is_completed t))
                   (map snd (map_to_list (snd cat))))
    (map_to_list ts).

(** Messages shown by [update_tasks] through [st.warning] / [st.error]. *)
Inductive notice :=
| MakeupOpportunity (remaining : nat)
| SinglePenalty (msg : string) (inactive_days : Z) (penalty_points : Z)
                (attribute : string) (incomplete : nat)
| DistributedPenalty (msg : string) (inactive_days : Z)
                     (per_attribute_penalty : Q) (incomplete : nat).

(** The single-attribute branch. *)
Definition penalise_one (attrs : gmap string Q) (attribute : string)
    (penalty_points : Z) : gmap string Q :=
  let current_value := Py.get attrs attribute 0 in
  <[attribute := Py.max 0 (current_value - inject_Z penalty_points)]> attrs.

(** The [for attr in attributes] loop of the distributed branch. *)
Definition penalise_all (attrs : gmap string Q) (names : list string)
    (per_attribute_penalty : Q) : gmap string Q :=
  foldl
    (fun (acc : gmap string Q) (attr : string) =>
       let current_value := Py.get acc attr 0 in
       <[attr := Py.max 0 (current_value - per_attribute_penalty)]> acc)
    attrs names.

(** The block guarded by [current_time > makeup_deadline]. *)
Definition apply_penalties (r : Random.draws) (sev : severity_result)
    (inactive_days : Z) (incomplete : nat) (u : UserData)
    : UserData * option notice * option Py.exn :=
  match sev with
  | RawLevel _ => (u, None, Some (Py.KeyError "penalty_range"))
  | Classified s =>
      match Random.randint (fst (penalty_range s)) (snd (penalty_range s)) r with
      | inl e => (u, None, Some e)
      | inr penalty_points =>
          if Py.lt (Random.unit_draw r) 0.7 then
            match Random.choice (attribute_names (attributes u)) r with
            | inl e => (u, None, Some e)
            | inr attribute =>
                (set_attributes
                   (penalise_one (attributes u) attribute penalty_points) u,
                 Some (SinglePenalty (severity_message s) inactive_days
                                     penalty_points attribute incomplete),
                 None)
            end
          else
            let names := attribute_names (attributes u) in
            match names with
            | [] => (u, None, Some Py.ZeroDivisionError)
            | _ =>
                let per_attribute_penalty :=
                  (inject_Z penalty_points
                   / inject_Z (Z.of_nat (length names)))%Q in
                (set_attributes
                   (penalise_all (attributes u) names per_attribute_penalty) u,
                 Some (DistributedPenalty (severity_message s) inactive_days
                                          per_attribute_penalty incomplete),
                 None)
            end
      end
  end.

(** The block guarded by [if incomplete_tasks:]. *)
Definition missed_tasks_block (current_time : DateTime.datetime)
    (r : Random.draws) (inactive_days : Z) (incomplete : nat) (u : UserData)
    : UserData * option notice * option Py.exn :=
  match determine_severity inactive_days with
  | inl e => (u, None, Some e)
  | inr sev =>
      if (inactive_days =? 1)%Z then
        (set_makeup_deadline (DateTime.add_hours current_time 12) u,
         Some (MakeupOpportunity incomplete), None)
      else
        let deadline := default DateTime.y2000 (makeup_deadline u) in
        if (deadline <? current_time)%Z
        then apply_penalties r sev inactive_days incomplete u
        else (u, None, None)
  end.

Record update_result := UpdateResult {
  updated : Session;
  shown : option notice;
  raised : option Py.exn        (* caught and reported by the handler *)
}.

(** [update_tasks(user_data)] at wall-clock time [current_time].  The
    class has no method [reset_periodic_tasks], so the call at the end of
    the inactive branch raises AttributeError; the handler reports it and
    the function returns without stamping [last_active].  Mutations made
    before an exception stay. *)
Definition update_tasks (current_time : DateTime.datetime) (r : Random.draws)
    (s : Session) : update_result :=
  let u := user_data s in
  let last := default current_time (last_active u) in
  let inactive_days := DateTime.days_between current_time last in
  if (0 <? inactive_days)%Z then
    let incomplete := incomplete_tasks (tasks s) in
    let '(u1, note, err) :=
      match incomplete with
      | [] => (u, None, None)
      | _ => missed_tasks_block current_time r inactive_days
                                (length incomplete) u
      end in
    match err with
    | Some e => UpdateResult (mkSession u1 (tasks s)) note (Some e)
    | None =>
        UpdateResult (mkSession u1 (tasks s)) note
                     (Some (Py.AttributeError "reset_periodic_tasks"))
    end
  else
    UpdateResult (mkSession (set_last_active current_time u) (tasks s))
                 None None.

(** How [complete_task] ended. *)
Inductive complete_outcome :=
| Awarded (final_points : Q) (attribute : string)  (* returns True *)
| UnknownCategory                                  (* returns False *)
| UnknownTask                                      (* returns False *)
| AlreadyCompleted    (* st.warning("Task already completed!"); False *)
| CompleteError (e : Py.exn).
    (* the handler: st.error("Error completing task: ..."); False *)

Definition returned (o : complete_outcome) : bool :=
  match o with
  | Awarded _ _ => true
  | _ => false
  end.

Definition mark_completed (now : DateTime.datetime) (t : Task) : Task :=
  mkTask (task_id t) (task_name t) (task_description t) (task_type t)
         (task_attribute t) (task_points t) (Some true) (Some now)
         (task_created_at t).

(** [complete_task(task_id, task, task_type)]; the [task] argument is
    not used by the source.  The stored task is marked completed before
    its attribute is read, so when [stored_task["attribute"]] raises
    KeyError the handler answers False with the mark already made. *)
Definition complete_task (now : DateTime.datetime) (id : string) (task : Task)
    (category : string) (s : Session) : complete_outcome * Session :=
  match tasks s !! category with
  | None => (UnknownCategory, s)
  | Some stored =>
      match stored !! id with
      | None => (UnknownTask, s)
      | Some stored_task =>
          if is_completed stored_task then (AlreadyCompleted, s)
          else
            let stored_task' := mark_completed now stored_task in
            let tasks' :=
              <[category := <[id := stored_task']> stored]> (tasks s) in
            let job_multiplier :=
              Py.get (default ∅ (multipliers (user_data s))) "job" 1 in
            let base_points := default 1%Q (task_points stored_task) in
            let final_points := (base_points * job_multiplier)%Q in
            match task_attribute stored_task with
            | None =>
                (CompleteError (Py.KeyError "attribute"),
                 mkSession (user_data s) tasks')
            | Some attribute =>
                let current_value :=
                  Py.get (attributes (user_data s)) attribute 0 in
                (Awarded final_points attribute,
                 mkSession
                   (set_attributes
                      (<[attribute := (current_value + final_points)%Q]>
                         (attributes (user_data s)))
                      (user_data s))
                   tasks')
            end
      end
  end.

(** How [remove_task] ended: it reruns the script, or the handler
    reports the exception through [st.error]. *)
Inductive remove_outcome :=
| Rerun
| RemoveError (e : Py.exn).

(** [remove_task(task_id, task_type)]: [del d[k]] raises KeyError when the
    key is missing. *)
Definition remove_task (id : string) (category : string) (s : Session)
    : remove_outcome * Session :=
  match tasks s !! category with
  | Some stored =>
      match stored !! id with
      | Some _ =>
          (Rerun,
           mkSession (user_data s)
                     (<[category := delete id stored]> (tasks s)))
      | None => (RemoveError (Py.KeyError id), s)
      end
  | None => (Rerun, s)
  end.

End TaskManager.

(** ** app/models/jobs.py : job gate *)

Module JobSystem.

(** A catalogue entry (description and icon are presentation only). *)
Record Job := mkJob {
  rank_requirement : string;
  attribute_requirements : list (string * Q);
  perk : string;
  perk_multiplier : Q;
  tier : string
}.

(** [self.jobs], in source order. *)
Definition jobs : list (string * Job) :=
  [
    ("Master of None", mkJob "E" []
       "No perks yet..." 1.0%Q "low");
    ("Stray Dog", mkJob "E" [("resilience", 50%Q)]
       "Resilience tasks give +10% more points." 1.1%Q "low");
    ("Pugilist", mkJob "D" [("physical", 85%Q); ("resilience", 50%Q)]
       "Physical tasks give +15% more points." 1.15%Q "low");
    ("Swindler", mkJob "D" [("intelligence", 85%Q); ("creativity", 50%Q)]
       "Intelligence tasks give +15% more points." 1.15%Q "low");
    ("Apprentice", mkJob "D" [("intelligence", 85%Q)]
       "Learning tasks give +15% more points." 1.15%Q "low");
    ("Duelist", mkJob "C" [("physical", 170%Q); ("resilience", 85%Q)]
       "Combat tasks give +20% more points." 1.2%Q "mid");
    ("Phantom Jester", mkJob "C" [("creativity", 170%Q); ("spiritual", 85%Q)]
       "Creative tasks give +20% more points." 1.2%Q "mid");
    ("Marksman", mkJob "C" [("physical", 170%Q); ("intelligence", 85%Q)]
       "Precision tasks give +20% more points." 1.2%Q "mid");
    ("Nomad", mkJob "C" [("resilience", 170%Q); ("spiritual", 85%Q)]
       "Exploration tasks give +20% more points." 1.2%Q "mid");
    ("Shaman", mkJob "C" [("spiritual", 170%Q); ("intelligence", 85%Q)]
       "Spiritual tasks give +25% more points." 1.25%Q "mid");
    ("Iron Sentinel", mkJob "B" [("physical", 255%Q); ("resilience", 170%Q)]
       "Defense tasks give +30% more points." 1.3%Q "advanced");
    ("Shade Operative", mkJob "B" [("intelligence", 255%Q); ("physical", 170%Q)]
       "Stealth tasks give +30% more points." 1.3%Q "advanced");
    ("Revenant", mkJob "B" [("spiritual", 255%Q); ("resilience", 170%Q)]
       "Recovery tasks give +30% more points." 1.3%Q "advanced");
    ("Battle Hound", mkJob "B" [("physical", 255%Q); ("spiritual", 170%Q)]
       "Combat tasks give +35% more points." 1.35%Q "advanced");
    ("Order Member", mkJob "A" [("intelligence", 340%Q); ("spiritual", 255%Q); ("resilience", 170%Q)]
       "All attributes gain +40% more points." 1.4%Q "elite");
    ("Elite Assassin", mkJob "A" [("physical", 340%Q); ("intelligence", 255%Q); ("resilience", 170%Q)]
       "Assassination tasks give +45% more points." 1.45%Q "elite");
    ("Shadow Puppeteer", mkJob "A" [("creativity", 340%Q); ("spiritual", 255%Q); ("intelligence", 170%Q)]
       "Control tasks give +45% more points." 1.45%Q "elite");
    ("The Glitch", mkJob "S" [("intelligence", 425%Q); ("creativity", 425%Q); ("spiritual", 340%Q)]
       "All tasks give +50% more points." 1.5%Q "special");
    ("Enigma", mkJob "S" [("spiritual", 425%Q); ("intelligence", 425%Q); ("resilience", 340%Q); ("creativity", 340%Q)]
       "All attributes gain +60% more points." 1.6%Q "special")
  ].

(** [check_job_requirements(job, user_data)]. *)
Definition check_job_requirements (job : Job) (u : UserData) : bool :=
  forallb
    (fun req : string * Q =>
       Py.ge (Py.get (attributes u) (fst req) 0) (snd req))
    (attribute_requirements job).

(** [get_available_jobs(user_data)]. *)
Definition get_available_jobs (u : UserData) : list string :=
  map fst
      (List.filter (fun entry : string * Job =>
                      check_job_requirements (snd entry) u)
                   jobs).

(** [accept_job(job_name, user_data)] at time [now].  The assignments
    made before a KeyError stay; the handler reports the exception. *)
Definition accept_job (now : DateTime.datetime) (job_name : string) (u : UserData)
    : option Py.exn * UserData :=
  let u1 := set_current_job job_name u in
  let u2 :=
    set_job_history (default [] (job_history u1) ++ [(job_name, now)]) u1 in
  match Py.assoc job_name jobs with
  | None => (Some (Py.KeyError job_name), u2)
  | Some job =>
      match multipliers u2 with
      | None => (Some (Py.KeyError "multipliers"), u2)
      | Some m =>
          (None, set_multipliers (<["job" := perk_multiplier job]> m) u2)
      end
  end.

End JobSystem.

(** ** app/models/achievement_chains.py : achievement chains *)

Module AchievementChainSystem.

(** A stage of a chain.  The requirement is a Python closure over the
    user data; evaluating it may raise. *)
Record Stage := mkStage {
  stage_name : string;
  requirement : UserData -> Py.exn + bool;
  reward : list (string * Q);
  stage_description : string
}.

(** class AchievementChain. *)
Record AchievementChain := mkChain {
  chain_id : string;
  name : string;
  stages : list Stage;
  rarity : string;
  current_stage : nat;
  completed : bool;
  started_at : option DateTime.datetime;
  completed_at : option DateTime.datetime
}.

(** [a and b] when evaluating an operand may raise. *)
Definition py_and (a b : Py.exn + bool) : Py.exn + bool :=
  match a with
  | inl e => inl e
  | inr false => inr false
  | inr true => b
  end.

(** [user_data["attributes"][attr] >= v]. *)
Definition attribute_at_least (attr : string) (v : Q) (u : UserData)
    : Py.exn + bool :=
  match attributes u !! attr with
  | None => inl (Py.KeyError attr)
  | Some x => inr (Py.ge x v)
  end.

(** [user_data["streak"] >= n]. *)
Definition streak_at_least (n : Z) (u : UserData) : Py.exn + bool :=
  inr (n <=? streak u)%Z.

Definition count_tasks (d : gmap string Task) : nat * nat :=
  let ts := map snd (map_to_list d) in
  (length ts, length (List.filter TaskManager.is_completed ts)).

(** [check_task_completion_rate(user_data, required_rate)], reading
    [user_data["tasks"]["daily"]] and [user_data["tasks"]["weekly"]]. *)
Definition check_task_completion_rate (required_rate : Q) (u : UserData)
    : Py.exn + bool :=
  match ud_tasks u with
  | None => inl (Py.KeyError "tasks")
  | Some ts =>
      match ts !! "daily" with
      | None => inl (Py.KeyError "daily")
      | Some daily =>
          match ts !! "weekly" with
          | None => inl (Py.KeyError "weekly")
          | Some weekly =>
              let total_tasks := (fst (count_tasks daily)
                                  + fst (count_tasks weekly))%nat in
              let completed_tasks := (snd (count_tasks daily)
                                      + snd (count_tasks weekly))%nat in
              if (0 <? total_tasks)%nat
              then inr (Py.ge (inject_Z (Z.of_nat completed_tasks)
                               / inject_Z (Z.of_nat total_tasks))%Q
                              required_rate)
              else inr false
          end
      end
  end.

(** [self.chains], in source order, as the chain objects built by
    [load_chain_progress] (current_stage = 0, not completed). *)
Definition new_chain (cid nm rar : string) (sts : list Stage)
    : string * AchievementChain :=
  (cid, mkChain cid nm sts rar 0 false None None).

Definition physical_mastery : string * AchievementChain :=
  new_chain "physical_mastery" "Physical Mastery" "Legendary"
    [ mkStage "Beginner Athlete" (attribute_at_least "Physical" 100)
              [("Physical", 10%Q)] "Reach 100 Physical points";
      mkStage "Intermediate Athlete" (attribute_at_least "Physical" 250)
              [("Physical", 25%Q); ("Health", 10%Q)]
              "Reach 250 Physical points";
      mkStage "Advanced Athlete" (attribute_at_least "Physical" 500)
              [("all_attributes", 20%Q)] "Reach 500 Physical points" ].

Definition mind_master : string * AchievementChain :=
  new_chain "mind_master" "Mind Master" "Epic"
    [ mkStage "Knowledge Seeker" (attribute_at_least "Intelligence" 100)
              [("Intelligence", 10%Q)] "Reach 100 Intelligence points";
      mkStage "Scholar"
              (fun u => py_and (attribute_at_least "Intelligence" 200 u)
                               (attribute_at_least "Creativity" 100 u))
              [("Intelligence", 20%Q); ("Creativity", 10%Q)]
              "Reach 200 Intelligence and 100 Creativity points";
      mkStage "Sage"
              (fun u => py_and (py_and (attribute_at_least "Intelligence" 400 u)
                                       (attribute_at_least "Creativity" 200 u))
                               (attribute_at_least "Spiritual" 100 u))
              [("all_attributes", 25%Q)]
              "Master multiple mental attributes" ].

Definition living_legend : Stage :=
  mkStage "Living Legend"
          (fun u => py_and (streak_at_least 100 u)
                           (check_task_completion_rate 0.9 u))
          [("streak_multiplier", 1.5%Q); ("all_attributes", 50%Q)]
          "100-day streak with 90% task completion".

Definition consistency_king : string * AchievementChain :=
  new_chain "consistency_king" "Consistency King" "Mythical"
    [ mkStage "Habit Former" (streak_at_least 7)
              [("streak_multiplier", 1.1%Q)] "Maintain a 7-day streak";
      mkStage "Routine Master"
              (fun u => py_and (streak_at_least 30 u)
                               (check_task_completion_rate 0.8 u))
              [("streak_multiplier", 1.2%Q)]
              "30-day streak with 80% task completion";
      living_legend ].

(** [load_chain_progress] on a session without chains. *)
Definition load_chain_progress : list (string * AchievementChain) :=
  [ physical_mastery; mind_master; consistency_king ].

(** The [all_attributes] branch:
    [for attr in user_data["attributes"]: attributes[attr] += amount]. *)
Definition add_to_all (amount : Q) (attrs : gmap string Q) : gmap string Q :=
  foldl (fun (acc : gmap string Q) (attr : string) =>
           alter (fun v => (v + amount)%Q) attr acc)
        attrs (attribute_names attrs).

(** One iteration of [for attr, value in rewards.items()]. *)
Definition grant_one (u : UserData) (item : string * Q) : UserData :=
  let '(attr, value) := item in
  match attributes u !! attr with
  | Some v => set_attributes (<[attr := (v + value)%Q]> (attributes u)) u
  | None =>
      if String.eqb attr "streak_multiplier"
      then set_multipliers
             (<["streak" := value]> (default ∅ (multipliers u))) u
      else u
  end.

(** [grant_stage_rewards(rewards, user_data)]. *)
Definition grant_stage_rewards (rewards : list (string * Q)) (u : UserData)
    : UserData :=
  match Py.assoc "all_attributes" rewards with
  | Some amount => set_attributes (add_to_all amount (attributes u)) u
  | None => foldl grant_one u rewards
  end.

(** What one evaluation of a chain did: the requirement of stage [k] was
    called, stage [k] was rewarded (and its notification shown), the
    chain-completion notification was shown. *)
Inductive chain_event :=
| StageChecked (k : nat)
| StageRewarded (k : nat)
| ChainCompleted.

Definition start (now : DateTime.datetime) (c : AchievementChain)
    : AchievementChain :=
  match started_at c with
  | Some _ => c
  | None => mkChain (chain_id c) (name c) (stages c) (rarity c)
                    (current_stage c) (completed c) (Some now)
                    (completed_at c)
  end.

Definition advance (c : AchievementChain) : AchievementChain :=
  mkChain (chain_id c) (name c) (stages c) (rarity c)
          (S (current_stage c)) (completed c) (started_at c)
          (completed_at c).

Definition finish (now : DateTime.datetime) (c : AchievementChain)
    : AchievementChain :=
  mkChain (chain_id c) (name c) (stages c) (rarity c)
          (current_stage c) true (started_at c) (Some now).

Record progress := Progress {
  chain_after : AchievementChain;
  user_after : UserData;
  events : list chain_event;
  raised : option Py.exn
}.

(** [check_chain_progress(chain, user_data)]; the clock reads of one call
    are the single instant [now]. *)
Definition check_chain_progress (now : DateTime.datetime)
    (chain : AchievementChain) (u : UserData) : progress :=
  let chain1 := start now chain in
  let k := current_stage chain1 in
  match stages chain1 !! k with
  | None => Progress chain1 u [] (Some Py.IndexError)
  | Some stage =>
      match requirement stage u with
      | inl e => Progress chain1 u [StageChecked k] (Some e)
      | inr false => Progress chain1 u [StageChecked k] None
      | inr true =>
          let u' := grant_stage_rewards (reward stage) u in
          let chain2 := advance chain1 in
          if (length (stages chain2) <=? current_stage chain2)%nat
          then Progress (finish now chain2) u'
                        [StageChecked k; StageRewarded k; ChainCompleted]
                        None
          else Progress chain2 u' [StageChecked k; StageRewarded k] None
      end
  end.

Record evaluation := Evaluation {
  chains_after : list (string * AchievementChain);
  data_after : UserData;
  trace : list (string * chain_event);
  failure : option Py.exn    (* propagates to the caller of check_chains *)
}.

(** [check_chains(user_data)] over [st.session_state.achievement_chains]:
    an exception raised while a chain is evaluated leaves the loop. *)
Fixpoint check_chains (now : DateTime.datetime)
    (chains : list (string * AchievementChain)) (u : UserData) : evaluation :=
  match chains with
  | [] => Evaluation [] u [] None
  | (cid, chain) :: rest =>
      if completed chain then
        let r := check_chains now rest u in
        Evaluation ((cid, chain) :: chains_after r) (data_after r)
                   (trace r) (failure r)
      else
        let p := check_chain_progress now chain u in
        match raised p with
        | Some e =>
            Evaluation ((cid, chain_after p) :: rest) (user_after p)
                       (map (pair cid) (events p)) (Some e)
        | None =>
            let r := check_chains now rest (user_after p) in
            Evaluation ((cid, chain_after p) :: chains_after r)
                       (data_after r)
                       (map (pair cid) (events p) ++ trace r) (failure r)
        end
  end.

End AchievementChainSystem.

(** ** Auxiliary definitions used by the statements below *)

(** The (current, next) pairs the rank loop can end with. *)
Definition rank_pairs : list (string * string) :=
  [ ("E", "D"); ("D", "C"); ("C", "B"); ("B", "A");
    ("A", "S"); ("S", "SS"); ("SS", "SSS"); ("SSS", "SSS") ].

(** No attribute is negative. *)
Definition nonnegative (attrs : gmap string Q) : Prop :=
  map_Forall (fun (_ : string) (v : Q) => (0 <= v)%Q) attrs.

(** A user-data value whose attributes are the six of a fresh state, with
    [Resilience] set to [r]. *)
Definition user_with_resilience (r : Q) : UserData :=
  set_attributes (<["Resilience" := r]> DataManager.initial_attributes)
                 (user_data (DataManager.initialize_new_state 0%Z)).

(** A weekly task worth two points on [Physical]. *)
Definition two_point_task : Task :=
  mkTask "weekly_1" (Some "Run") EmptyString "weekly" (Some "Physical")
         (Some 2%Q) (Some false) None 0%Z.

(** A session with that task, job multiplier 1.5 and event multiplier 2.0. *)
Definition boosted_session : Session :=
  mkSession
    (set_multipliers
       (<["job" := 1.5%Q]> (<["event" := 2.0%Q]> DataManager.initial_multipliers))
       (user_data (DataManager.initialize_new_state 0%Z)))
    (<["weekly" := {["weekly_1" := two_point_task]}]>
       (tasks (DataManager.initialize_new_state 0%Z))).

(** A daily task worth one point on [Physical], not completed. *)
Definition run_task : Task :=
  mkTask "daily_1" (Some "Run") EmptyString "daily" (Some "Physical")
         (Some 1%Q) (Some false) None 0%Z.

(** A fresh session holding only [run_task]. *)
Definition one_task_session : Session :=
  mkSession (user_data (DataManager.initialize_new_state 0%Z))
            (<["daily" := {["daily_1" := run_task]}]>
               (tasks (DataManager.initialize_new_state 0%Z))).

(** [one_task_session] with the last activity stamped at [last]. *)
Definition idle_session (last : DateTime.datetime) : Session :=
  mkSession (set_last_active last (user_data one_task_session))
            (tasks one_task_session).

(** Two days and one hour, in microseconds. *)
Definition two_days_later : DateTime.datetime :=
  (2 * DateTime.usec_per_day + DateTime.usec_per_hour)%Z.

(** *** Reading the trace of chain evaluations *)

(** The events of the chain stored under key [cid]. *)
Definition events_of (cid : string)
    (tr : list (string * AchievementChainSystem.chain_event))
    : list AchievementChainSystem.chain_event :=
  omap (fun x : string * AchievementChainSystem.chain_event =>
          if String.eqb (fst x) cid then Some (snd x) else None) tr.

(** The stage indices rewarded, in order. *)
Definition rewarded (evs : list AchievementChainSystem.chain_event) : list nat :=
  omap (fun e => match e with
                 | AchievementChainSystem.StageRewarded k => Some k
                 | _ => None
                 end) evs.

(** The stage indices whose requirement was called, in order. *)
Definition checked (evs : list AchievementChainSystem.chain_event) : list nat :=
  omap (fun e => match e with
                 | AchievementChainSystem.StageChecked k => Some k
                 | _ => None
                 end) evs.

(** What one call of [check_chains] may do to one chain, [evs] being the
    events of that chain in the call. *)
Record one_evaluation (c : AchievementChainSystem.AchievementChain)
    (evs : list AchievementChainSystem.chain_event)
    (c' : AchievementChainSystem.AchievementChain) : Prop := OneEvaluation {
  step_stages :
    AchievementChainSystem.stages c' = AchievementChainSystem.stages c;
  step_monotone :
    (AchievementChainSystem.current_stage c
     <= AchievementChainSystem.current_stage c')%nat;
  step_at_most_one :
    (AchievementChainSystem.current_stage c'
     <= S (AchievementChainSystem.current_stage c))%nat;
  step_checked :
    Forall (fun k => k = AchievementChainSystem.current_stage c) (checked evs);
  step_rewarded :
    rewarded evs
    = seq (AchievementChainSystem.current_stage c)
          (AchievementChainSystem.current_stage c'
           - AchievementChainSystem.current_stage c);
  step_frozen :
    AchievementChainSystem.completed c = true → c' = c ∧ evs = []
}.

(** What any number of calls may do to one chain. *)
Record many_evaluations (c : AchievementChainSystem.AchievementChain)
    (evs : list AchievementChainSystem.chain_event)
    (c' : AchievementChainSystem.AchievementChain) : Prop := ManyEvaluations {
  run_stages :
    AchievementChainSystem.stages c' = AchievementChainSystem.stages c;
  run_monotone :
    (AchievementChainSystem.current_stage c
     <= AchievementChainSystem.current_stage c')%nat;
  run_checked :
    Forall (fun k => (AchievementChainSystem.current_stage c <= k
                      <= AchievementChainSystem.current_stage c')%nat)
           (checked evs);
  run_rewarded :
    rewarded evs
    = seq (AchievementChainSystem.current_stage c)
          (AchievementChainSystem.current_stage c'
           - AchievementChainSystem.current_stage c);
  run_frozen :
    AchievementChainSystem.completed c = true → c' = c ∧ evs = []
}.

(** A sequence of [check_chains] calls on the stored chains; between two
    calls the user data may have been changed by any other operation, so
    each call sees arbitrary user data. *)
Inductive evaluations :
    list (string * AchievementChainSystem.AchievementChain) →
    list (string * AchievementChainSystem.chain_event) →
    list (string * AchievementChainSystem.AchievementChain) → Prop :=
| evaluations_done cs : evaluations cs [] cs
| evaluations_next cs now u tr cs' :
    evaluations
      (AchievementChainSystem.chains_after
         (AchievementChainSystem.check_chains now cs u)) tr cs' →
    evaluations cs
      (AchievementChainSystem.trace
         (AchievementChainSystem.check_chains now cs u) ++ tr) cs'.

(** A user with 600 Physical points and nothing else. *)
Definition athlete : UserData :=
  set_attributes (<["Physical" := 600%Q]> DataManager.initial_attributes)
                 (user_data (DataManager.initialize_new_state 0%Z)).

(** *** Reading the rewards of chain evaluations *)

(** The reward due when an evaluation takes a chain from [c] to [c']: the
    reward of the stage that [c] was at when [c'] is further on, nothing
    otherwise. *)
Definition stage_reward_due (c c' : AchievementChainSystem.AchievementChain)
    (u : UserData) : UserData :=
  if (AchievementChainSystem.current_stage c
      <? AchievementChainSystem.current_stage c')%nat
  then
    match AchievementChainSystem.stages c
          !! AchievementChainSystem.current_stage c with
    | Some stage =>
        AchievementChainSystem.grant_stage_rewards
          (AchievementChainSystem.reward stage) u
    | None => u
    end
  else u.

(** The user data as the chain at position [i] finds it in a call that
    takes the chains [cs] to [cs']: the data the call started with, after
    the rewards due for the chains before position [i], in their order. *)
Definition data_seen
    (cs cs' : list (string * AchievementChainSystem.AchievementChain))
    (u : UserData) (i : nat) : UserData :=
  foldl (fun (acc : UserData)
             (xy : (string * AchievementChainSystem.AchievementChain)
                   * (string * AchievementChainSystem.AchievementChain)) =>
           stage_reward_due (snd (fst xy)) (snd (snd xy)) acc)
        u (take i (zip cs cs')).

(** Two chains with the same progress: they agree on everything but the
    contents of their stage lists, which have the same length. *)
Definition same_progress (c1 c2 : AchievementChainSystem.AchievementChain)
    : Prop :=
  AchievementChainSystem.chain_id c1 = AchievementChainSystem.chain_id c2 ∧
  AchievementChainSystem.name c1 = AchievementChainSystem.name c2 ∧
  AchievementChainSystem.rarity c1 = AchievementChainSystem.rarity c2 ∧
  AchievementChainSystem.current_stage c1
  = AchievementChainSystem.current_stage c2 ∧
  AchievementChainSystem.completed c1 = AchievementChainSystem.completed c2 ∧
  AchievementChainSystem.started_at c1
  = AchievementChainSystem.started_at c2 ∧
  AchievementChainSystem.completed_at c1
  = AchievementChainSystem.completed_at c2 ∧
  length (AchievementChainSystem.stages c1)
  = length (AchievementChainSystem.stages c2).

(** Two chains with the same progress and the same stage at their current
    index: they may differ in every other stage. *)
Definition same_current_stage
    (c1 c2 : AchievementChainSystem.AchievementChain) : Prop :=
  same_progress c1 c2 ∧
  AchievementChainSystem.stages c1 !! AchievementChainSystem.current_stage c1
  = AchievementChainSystem.stages c2 !! AchievementChainSystem.current_stage c2.

(** The stored chains with the stages after the first of Physical Mastery
    replaced: their requirements raise and their rewards are different. *)
Definition trapped_chains
    : list (string * AchievementChainSystem.AchievementChain) :=
  [ AchievementChainSystem.new_chain "physical_mastery" "Physical Mastery"
      "Legendary"
      [ AchievementChainSystem.mkStage "Beginner Athlete"
          (AchievementChainSystem.attribute_at_least "Physical" 100)
          [("Physical", 10%Q)] "Reach 100 Physical points";
        AchievementChainSystem.mkStage "Trap"
          (fun _ => inl Py.ValueError) [("Physical", 1000%Q)] "Raises";
        AchievementChainSystem.mkStage "Trap"
          (fun _ => inl Py.ValueError) [("all_attributes", 1000%Q)] "Raises" ];
    AchievementChainSystem.mind_master;
    AchievementChainSystem.consistency_king ].

(** ** app/models/tasks.py : task creation *)

Module TaskCreation.

Section WithPython.

(** [str.lower], the case folding of the host language. *)
Variable lower : string → string.

(** [str(datetime.timestamp())], the rendering of an instant inside a task
    id. *)
Variable timestamp : DateTime.datetime → string.

(** The list comprehension [[task["name"].lower() for task in ...]]:
    [None] when a task has no name and the subscript raises KeyError. *)
Definition existing_names (stored : gmap string Task) : option (list string) :=
  mapM (fun t : Task => lower <$> task_name t) (map snd (map_to_list stored)).

(** [check_duplicate_task(task_name, task_type)].  A KeyError raised by
    the comprehension reaches the handler, which reports it and answers
    False. *)
Definition check_duplicate_task (name category : string) (ts : TaskStore)
    : bool :=
  match ts !! category with
  | Some stored =>
      let task_name_lower := lower name in
      match existing_names stored with
      | Some existing_tasks =>
          existsb (String.eqb task_name_lower) existing_tasks
      | None => false
      end
  | None => false
  end.

(** How [create_task] ended. *)
Inductive create_outcome :=
| Created (unique_id : string)   (* returns True *)
| MissingName                    (* "Please enter a task name"; False *)
| DuplicateName.                 (* "This task already exists!"; False *)

Definition created (o : create_outcome) : bool :=
  match o with
  | Created _ => true
  | _ => false
  end.

(** The id given to a task created in [category] at [now]. *)
Definition unique_id (category : string) (now : DateTime.datetime) : string :=
  String.append category (String.append "_" (timestamp now)).

(** The dictionary [task] built by [create_task]. *)
Definition new_task (now : DateTime.datetime)
    (name description category attribute : string) (frequency : Z) : Task :=
  let points :=
    if String.eqb category "weekly" then inject_Z frequency else 1%Q in
  mkTask (unique_id category now) (Some name) description category
         (Some attribute) (Some points) (Some false) None now.

(** [create_task(task_name, description, task_type, attribute, frequency)];
    the clock reads of one call are the single instant [now]. *)
Definition create_task (now : DateTime.datetime)
    (name description category attribute : string) (frequency : Z)
    (s : Session) : create_outcome * Session :=
  if String.eqb name EmptyString then (MissingName, s)
  else if check_duplicate_task name category (tasks s) then (DuplicateName, s)
  else
    let ts :=
      match tasks s !! category with
      | Some _ => tasks s
      | None => <[category := ∅]> (tasks s)
      end in
    let uid := unique_id category now in
    let task := new_task now name description category attribute frequency in
    (Created uid,
     mkSession (user_data s)
               (<[category := <[uid := task]> (default ∅ (ts !! category))]> ts)).

End WithPython.

End TaskCreation.

(** ASCII case folding, one instance of [str.lower]. *)
Definition ascii_lower_char (c : Ascii.ascii) : Ascii.ascii :=
  let n := Ascii.nat_of_ascii c in
  if ((65 <=? n) && (n <=? 90))%nat then Ascii.ascii_of_nat (n + 32) else c.

Fixpoint ascii_lower (s : string) : string :=
  match s with
  | EmptyString => EmptyString
  | String c rest => String (ascii_lower_char c) (ascii_lower rest)
  end.

(** A rendering of instants used to instantiate task ids. *)
Definition demo_timestamp (t : DateTime.datetime) : string :=
  if (t =? 10)%Z then "10.0" else "20.0".

(** *** Reading the result of the inactivity evaluation *)

(** The user-data fields that [update_tasks] has no assignment for. *)
Definition untouched_fields (u u' : UserData) : Prop :=
  streak u' = streak u ∧
  multipliers u' = multipliers u ∧
  current_job u' = current_job u ∧
  job_history u' = job_history u ∧
  ud_tasks u' = ud_tasks u.

(** The penalty range of the tier that [missed_days] falls in. *)
Definition tier_range (missed_days : Z) : Z * Z :=
  if (missed_days <=? 3)%Z then (1, 2)%Z
  else if (missed_days <=? 7)%Z then (3, 5)%Z
  else (6, 8)%Z.

(** [idle_session] with a makeup deadline. *)
Definition graced_session (last deadline : DateTime.datetime) : Session :=
  mkSession (set_makeup_deadline deadline (user_data (idle_session last)))
            (tasks (idle_session last)).

(** What a penalty does to one attribute. *)
Definition lowered_by_at_most_eight (attrs attrs' : gmap string Q) : Prop :=
  ∀ a : string,
    match attrs !! a with
    | Some v => ∃ v' : Q, attrs' !! a = Some v' ∧ (v - 8 <= v' <= v)%Q
    | None => attrs' !! a = None
    end.


(** [idle_session] with every attribute at [v]. *)
Definition trained_session (last : DateTime.datetime) (v : Q) : Session :=
  mkSession
    (set_attributes ((fun _ : Q => v) <$> DataManager.initial_attributes)
                    (user_data (idle_session last)))
    (tasks (idle_session last)).

(** Five days and one hour, in microseconds. *)
Definition five_days_later : DateTime.datetime :=
  (5 * DateTime.usec_per_day + DateTime.usec_per_hour)%Z.

(** *** Reading the job catalogue *)

(** The requirement keys of the catalogue, as it spells them. *)
Definition requirement_keys : list string :=
  ["physical"; "resilience"; "intelligence"; "creativity"; "spiritual"].

(** A catalogue entry without requirements. *)
Definition no_requirements (entry : string * JobSystem.Job) : bool :=
  match JobSystem.attribute_requirements (snd entry) with
  | [] => true
  | _ => false
  end.

(** A fresh user with one extra attribute key. *)
Definition user_with_key (k : string) (v : Q) : UserData :=
  set_attributes (<[k := v]> DataManager.initial_attributes)
                 (user_data (DataManager.initialize_new_state 0%Z)).

(** *** Reading chains and rewards *)

(** No attribute name appears or disappears and no value gets smaller. *)
Definition raised_pointwise (attrs attrs' : gmap string Q) : Prop :=
  ∀ a : string,
    match attrs !! a with
    | Some v => ∃ v' : Q, attrs' !! a = Some v' ∧ (v <= v')%Q
    | None => attrs' !! a = None
    end.

(** The stage index is within the stage list, and the chain is marked
    completed exactly when the index has passed the last stage. *)
Definition chain_consistent (c : AchievementChainSystem.AchievementChain)
    : Prop :=
  (AchievementChainSystem.current_stage c
   <= length (AchievementChainSystem.stages c))%nat ∧
  (AchievementChainSystem.completed c = true ↔
   AchievementChainSystem.current_stage c
   = length (AchievementChainSystem.stages c)).

(** The Consistency King chain after its first stage. *)
Definition consistency_king_at_stage_one
    : AchievementChainSystem.AchievementChain :=
  AchievementChainSystem.advance
    (snd AchievementChainSystem.consistency_king).

(** A fresh user with a streak of [n] days. *)
Definition user_with_streak (n : Z) : UserData :=
  mkUserData DataManager.initial_attributes n (Some 0%Z) None
             (Some DataManager.initial_multipliers) None (Some []) None.

(** A user data value that carries the task store under ["tasks"], as an
    imported state may. *)
Definition user_with_tasks (ts : TaskStore) : UserData :=
  mkUserData DataManager.initial_attributes 0 (Some 0%Z) None
             (Some DataManager.initial_multipliers) None (Some []) (Some ts).

(** A store with one completed and one open daily task and no weekly one. *)
Definition half_done_store : TaskStore :=
  <["daily" :=
      <["daily_1" := TaskManager.mark_completed 5%Z run_task]>
        {["daily_2" := run_task]}]>
    (<["weekly" := ∅]> ∅).

(** *** Reading the task store *)

(** Every task of the dictionary has a name. *)
Definition all_named (stored : gmap string Task) : Prop :=
  ∀ (j : string) (t : Task), stored !! j = Some t → is_Some (task_name t).

(** A daily task stored without its attribute key. *)
Definition stray_task : Task :=
  mkTask "daily_9" (Some "Walk") EmptyString "daily" None (Some 1%Q)
         (Some false) None 0%Z.

(** A daily task stored without its name key. *)
Definition nameless_task : Task :=
  mkTask "daily_8" None EmptyString "daily" (Some "Health") (Some 1%Q)
         (Some false) None 0%Z.

(** [one_task_session] with one more daily task under its id. *)
Definition with_daily_task (t : Task) : Session :=
  mkSession (user_data one_task_session)
            (<["daily" := <[task_id t := t]> {["daily_1" := run_task]}]>
               (tasks one_task_session)).

(** The task stored under [id] in [category], if any. *)
Definition task_at (category id : string) (s : Session) : option Task :=
  match tasks s !! category with
  | Some stored => stored !! id
  | None => None
  end.

(** ** app/services/progress_tracker.py : statistics *)

Module ProgressStats.

(** [rank_values] of [create_radar_chart]. *)
Definition rank_values : list (string * Z) :=
  [ ("E", 1%Z); ("D", 2%Z); ("C", 3%Z); ("B", 4%Z);
    ("A", 5%Z); ("S", 6%Z); ("SS", 7%Z); ("SSS", 8%Z) ].

(** [rank_values.get(rank, 0)]. *)
Definition rank_value (rank : string) : Z :=
  default 0%Z (Py.assoc rank rank_values).

(** The radar value of an attribute value: the rank value of its current
    rank. *)
Definition radar_value (attr_value : Q) : Py.exn + Z :=
  match ProgressTracker.calculate_rank attr_value with
  | inl e => inl e
  | inr (rank, _, _) => inr (rank_value rank)
  end.

(** The counters of [get_task_stats] while it loops. *)
Record counters := Counters {
  total : nat;
  completed : nat;
  daily_completed : nat;
  weekly_completed : nat
}.

(** The body of [for task in tasks.values()]. *)
Definition count_task (task_type : string) (acc : counters) (task : Task)
    : counters :=
  if TaskManager.is_completed task then
    Counters (S (total acc)) (S (completed acc))
             (if String.eqb task_type "daily"
              then S (daily_completed acc) else daily_completed acc)
             (if String.eqb task_type "daily" then weekly_completed acc
              else if String.eqb task_type "weekly"
                   then S (weekly_completed acc) else weekly_completed acc)
  else
    Counters (S (total acc)) (completed acc) (daily_completed acc)
             (weekly_completed acc).

(** The body of [for task_type, tasks in user_data["tasks"].items()]. *)
Definition count_category (acc : counters)
    (entry : string * gmap string Task) : counters :=
  foldl (count_task (fst entry)) acc (map snd (map_to_list (snd entry))).

(** The dictionary returned by [get_task_stats]. *)
Record task_stats := TaskStats {
  counts : counters;
  stats_streak : Z;
  completion_rate : Q
}.

(** [get_task_stats(user_data)]. *)
Definition get_task_stats (u : UserData) : Py.exn + task_stats :=
  match ud_tasks u with
  | None => inl (Py.KeyError "tasks")
  | Some ts =>
      let c := foldl count_category (Counters 0 0 0 0) (map_to_list ts) in
      inr (TaskStats c (streak u)
             (if (0 <? total c)%nat
              then (inject_Z (Z.of_nat (completed c))
                    / inject_Z (Z.of_nat (total c)))%Q
              else 0%Q))
  end.

(** [max(items, key=lambda x: x[1])] after the first item: a later item
    replaces the best one only when its value is strictly greater. *)
Fixpoint max_item (best : string * Q) (rest : list (string * Q))
    : string * Q :=
  match rest with
  | [] => best
  | x :: rest' =>
      if Py.lt (snd best) (snd x) then max_item x rest'
      else max_item best rest'
  end.

(** [sum(values)]. *)
Definition py_sum (values : list Q) : Q := foldl Qplus 0%Q values.

(** [{attr: self.calculate_rank(val)[0] for attr, val in items}]. *)
Fixpoint rank_names (items : list (string * Q))
    : Py.exn + list (string * string) :=
  match items with
  | [] => inr []
  | (attr, val) :: rest =>
      match ProgressTracker.calculate_rank val with
      | inl e => inl e
      | inr (rank, _, _) =>
          match rank_names rest with
          | inl e => inl e
          | inr ranks => inr ((attr, rank) :: ranks)
          end
      end
  end.

(** The dictionary returned by [get_attribute_stats]. *)
Record attribute_stats := AttributeStats {
  highest_attribute : string;
  highest_value : Q;
  total_points : Q;
  average_points : Q;
  ranks : list (string * string)
}.

(** [attributes.items()]: the pairs of the dictionary in the order [keys]
    in which its keys were inserted. *)
Definition items_in_order (keys : list string) (attrs : gmap string Q)
    : list (string * Q) :=
  omap (fun k : string => (fun v : Q => (k, v)) <$> attrs !! k) keys.

(** [get_attribute_stats(user_data)], [keys] being the insertion order of
    [user_data["attributes"]]: [max] returns the first of the items with
    the greatest value, and raises ValueError on an empty sequence. *)
Definition get_attribute_stats (keys : list string) (u : UserData)
    : Py.exn + attribute_stats :=
  let items := items_in_order keys (attributes u) in
  match items with
  | [] => inl Py.ValueError
  | first :: rest =>
      let highest_attr := max_item first rest in
      let values := map snd items in
      match rank_names items with
      | inl e => inl e
      | inr rs =>
          inr (AttributeStats (fst highest_attr) (snd highest_attr)
                 (py_sum values)
                 (py_sum values / inject_Z (Z.of_nat (length items)))%Q
                 rs)
      end
  end.

End ProgressStats.

(** The order in which [initialize_new_state] inserts the attribute
    names. *)
Definition attribute_order : list string :=
  ["Health"; "Physical"; "Intelligence"; "Spiritual"; "Creativity";
   "Resilience"].

(** [keys] lists the keys of the dictionary, each once. *)
Definition insertion_order (keys : list string) (attrs : gmap string Q)
    : Prop :=
  NoDup keys ∧ ∀ k : string, k ∈ keys ↔ is_Some (attrs !! k).

(** The thresholds above the lowest rank. *)
Definition upper_thresholds : list Q :=
  [85%Q; 170%Q; 255%Q; 340%Q; 425%Q; 510%Q; 595%Q].

(** How many of them a value has reached. *)
Definition thresholds_reached (v : Q) : nat :=
  length (List.filter (fun t => Py.ge v t) upper_thresholds).


(** ** app/services/data_manager.py : export and import *)

Module DataExchange.

Section WithStores.

(** The values kept under [locked_attributes] and [penalty_history]; the
    engine only moves them around. *)
Variable Locked History : Type.

(** The defaults [{}] and [[]] of [st.session_state.get]. *)
Variable no_locks : Locked.
Variable no_history : History.

(** The dictionaries and the list that the session state refers to are
    objects: several names may refer to one of them, and a change made in
    place is seen through every name. *)
Inductive object :=
| UserObject (u : UserData)
| TasksObject (t : TaskStore)
| LockedObject (l : Locked)
| HistoryObject (p : History).

(** The heap gives the current value of every object; a reference is the
    position of the object. *)
Definition heap : Type := list object.

(** A new object. *)
Definition alloc (o : object) (h : heap) : nat * heap := (length h, h ++ [o]).

(** The keys of [st.session_state] that are saved, exported and imported,
    each bound to an object; the last two keys may be missing. *)
Record session_state := SessionState {
  ss_user_data : nat;
  ss_tasks : nat;
  ss_locked_attributes : option nat;
  ss_penalty_history : option nat
}.

(** A dictionary as [export_data] returns it and [import_data] takes it:
    the values under the first four keys are references to objects; any
    key may be missing. *)
Record export_dict := ExportDict {
  d_user_data : option nat;
  d_tasks : option nat;
  d_locked_attributes : option nat;
  d_penalty_history : option nat;
  d_exported_at : option DateTime.datetime;
  d_version : option string
}.

(** [d.get(key, default)] where the default is a fresh [{}] or [[]]. *)
Definition get_or_new (r : option nat) (dflt : object) (h : heap)
    : nat * heap :=
  match r with
  | Some x => (x, h)
  | None => alloc dflt h
  end.

(** [export_data()] at time [now]: the dictionary holds the session's own
    objects, not copies of them. *)
Definition export_data (now : DateTime.datetime) (ss : session_state)
    (h : heap) : export_dict * heap :=
  let '(l, h1) :=
    get_or_new (ss_locked_attributes ss) (LockedObject no_locks) h in
  let '(p, h2) :=
    get_or_new (ss_penalty_history ss) (HistoryObject no_history) h1 in
  (ExportDict (Some (ss_user_data ss)) (Some (ss_tasks ss)) (Some l) (Some p)
              (Some now) (Some "1.0"),
   h2).

(** The task store [import_data] falls back to. *)
Definition empty_tasks : TaskStore :=
  <["daily" := ∅]> (<["weekly" := ∅]> (<["special" := ∅]>
  (<["penalty" := ∅]> ∅))).

(** [all(key in data for key in required_keys)]. *)
Definition has_required_keys (data : export_dict) : bool :=
  match d_user_data data, d_tasks data, d_exported_at data, d_version data with
  | Some _, Some _, Some _, Some _ => true
  | _, _, _, _ => false
  end.

(** [import_data(data)]: the returned boolean, the session state and the
    heap.  The session keys are bound to the objects of the dictionary.
    The two [save_state] calls around the assignments write files and
    leave the session state alone. *)
Definition import_data (data : export_dict) (ss : session_state) (h : heap)
    : bool * session_state * heap :=
  if has_required_keys data then
    match d_user_data data with
    | Some u =>
        let '(t, h1) := get_or_new (d_tasks data) (TasksObject empty_tasks) h in
        let '(l, h2) :=
          get_or_new (d_locked_attributes data) (LockedObject no_locks) h1 in
        let '(p, h3) :=
          get_or_new (d_penalty_history data) (HistoryObject no_history) h2 in
        (true, SessionState u t (Some l) (Some p), h3)
    | None => (false, ss, h)
    end
  else (false, ss, h).

(** *** The JSON file between export and import *)

(** The contents of an exported file: values, not references. *)
Record json_file := JsonFile {
  x_user_data : option UserData;
  x_tasks : option TaskStore;
  x_locked_attributes : option Locked;
  x_penalty_history : option History;
  x_exported_at : option DateTime.datetime;
  x_version : option string
}.

Definition read_user (h : heap) (r : nat) : option UserData :=
  match h !! r with Some (UserObject u) => Some u | _ => None end.

Definition read_tasks (h : heap) (r : nat) : option TaskStore :=
  match h !! r with Some (TasksObject t) => Some t | _ => None end.

Definition read_locked (h : heap) (r : nat) : option Locked :=
  match h !! r with Some (LockedObject l) => Some l | _ => None end.

Definition read_history (h : heap) (r : nat) : option History :=
  match h !! r with Some (HistoryObject p) => Some p | _ => None end.

(** The value written for a key: nothing for a missing key, the current
    value of the object for a present one; [None] when the reference does
    not lead to an object of the right kind. *)
Definition dump_key {A : Type} (read : heap → nat → option A)
    (h : heap) (r : option nat) : option (option A) :=
  match r with
  | None => Some None
  | Some x =>
      match read h x with
      | Some v => Some (Some v)
      | None => None
      end
  end.

(** [json.dumps(export_data)]: the values the objects have at that
    moment. *)
Definition dumps (data : export_dict) (h : heap) : option json_file :=
  match dump_key read_user h (d_user_data data),
        dump_key read_tasks h (d_tasks data),
        dump_key read_locked h (d_locked_attributes data),
        dump_key read_history h (d_penalty_history data) with
  | Some u, Some t, Some l, Some p =>
      Some (JsonFile u t l p (d_exported_at data) (d_version data))
  | _, _, _, _ => None
  end.

(** A new object for the value of a key that is present. *)
Definition load_key {A : Type} (wrap : A → object) (v : option A) (h : heap)
    : option nat * heap :=
  match v with
  | None => (None, h)
  | Some a => let '(r, h') := alloc (wrap a) h in (Some r, h')
  end.

(** [json.load(uploaded_file)]: new objects holding the values of the
    file. *)
Definition loads (f : json_file) (h : heap) : export_dict * heap :=
  let '(u, h1) := load_key UserObject (x_user_data f) h in
  let '(t, h2) := load_key TasksObject (x_tasks f) h1 in
  let '(l, h3) := load_key LockedObject (x_locked_attributes f) h2 in
  let '(p, h4) := load_key HistoryObject (x_penalty_history f) h3 in
  (ExportDict u t l p (x_exported_at f) (x_version f), h4).

(** *** Reading the session state *)

(** The values the session state holds. *)
Record app_state := AppState {
  session : Session;
  locked_attributes : option Locked;
  penalty_history : option History
}.

(** The values behind the references of the session state. *)
Definition view (ss : session_state) (h : heap) : option app_state :=
  match read_user h (ss_user_data ss), read_tasks h (ss_tasks ss),
        dump_key read_locked h (ss_locked_attributes ss),
        dump_key read_history h (ss_penalty_history ss) with
  | Some u, Some t, Some l, Some p => Some (AppState (mkSession u t) l p)
  | _, _, _, _ => None
  end.

(** The state with the optional keys filled with their defaults. *)
Definition with_defaults (st : app_state) : app_state :=
  AppState (session st)
           (Some (default no_locks (locked_attributes st)))
           (Some (default no_history (penalty_history st))).

End WithStores.

Arguments alloc {Locked History} o h.
Arguments get_or_new {Locked History} r dflt h.
Arguments export_data {Locked History} no_locks no_history now ss h.
Arguments import_data {Locked History} no_locks no_history data ss h.
Arguments read_user {Locked History} h r.
Arguments read_tasks {Locked History} h r.
Arguments read_locked {Locked History} h r.
Arguments read_history {Locked History} h r.
Arguments dump_key {Locked History A} read h r.
Arguments dumps {Locked History} data h.
Arguments load_key {Locked History A} wrap v h.
Arguments loads {Locked History} f h.
Arguments view {Locked History} ss h.
Arguments with_defaults {Locked History} no_locks no_history st.
Arguments session {Locked History} a.
Arguments locked_attributes {Locked History} a.
Arguments penalty_history {Locked History} a.

End DataExchange.

(** A heap with the four objects of [one_task_session]. *)
Definition saved_heap : DataExchange.heap (gmap string Q) (list Z) :=
  [ DataExchange.UserObject _ _ (user_data one_task_session);
    DataExchange.TasksObject _ _ (tasks one_task_session);
    DataExchange.LockedObject _ _ ∅;
    DataExchange.HistoryObject _ _ [3%Z] ].

(** The session state that refers to them. *)
Definition saved_refs : DataExchange.session_state :=
  DataExchange.SessionState 0 1 (Some 2%nat) (Some 3%nat).

(** The values it holds. *)
Definition saved_state : DataExchange.app_state (gmap string Q) (list Z) :=
  DataExchange.AppState (gmap string Q) (list Z) one_task_session
                        (Some ∅) (Some [3%Z]).
(** * Properties *)

(** ** Rank calculator *)

Section RankCalculator.
Import ProgressTracker.

Lemma clamp_unit (x : Q) : (0 <= Py.max 0 (Py.min 1 x) <= 1)%Q.
Proof.
  unfold Py.max, Py.min. split.
  - apply Q.le_max_l.
  - apply Q.max_lub; [lra | apply Q.le_min_l].
Qed.

Lemma rank_loop_pairs (v : Q) :
  In (rank_loop rank_thresholds v ("E", "D") 0 rank_thresholds) rank_pairs.
Proof.
  unfold rank_thresholds, rank_loop, rank_step, Py.ge.
  repeat match goal with
         | |- context [Qle_bool ?t v] => destruct (Qle_bool t v)
         end;
    vm_compute; tauto.
Qed.

(** The calculator never raises and its progress is a fraction. *)
Lemma calculate_rank_total (v : Q) :
  ∃ cur nxt p, calculate_rank v = inr (cur, nxt, p) ∧ (0 <= p <= 1)%Q.
Proof.
  unfold calculate_rank.
  pose proof (rank_loop_pairs v) as Hin.
  destruct (rank_loop rank_thresholds v ("E", "D") 0 rank_thresholds)
    as [cur nxt].
  unfold rank_pairs in Hin. cbn [In] in Hin.
  repeat (destruct Hin as [Hin | Hin];
          [ injection Hin as <- <-; cbn;
            eexists _, _, _; split;
            [ reflexivity | first [ apply clamp_unit | lra ] ] | ]).
  destruct Hin.
Qed.

(** From the SSS threshold on, the last loop iteration decides. *)
Lemma calculate_rank_top (v : Q) :
  (595 <= v)%Q → calculate_rank v = inr ("SSS", "SSS", 1%Q).
Proof.
  intros Hv. apply Qle_bool_iff in Hv.
  unfold calculate_rank, rank_thresholds, rank_loop, rank_step, Py.ge.
  rewrite Hv. reflexivity.
Qed.

(** Below the top rank, a rank's own threshold is the start of its band. *)
Lemma calculate_rank_at_threshold (rank : string) (t : Q) :
  In (rank, t) rank_thresholds → rank ≠ "SSS" →
  ∃ nxt p, calculate_rank t = inr (rank, nxt, p) ∧ (p == 0)%Q.
Proof.
  intros Hin Hne. unfold rank_thresholds in Hin. cbn [In] in Hin.
  repeat (destruct Hin as [Hin | Hin];
          [ injection Hin as <- <-;
            first [ congruence
                  | eexists _, _; split; vm_compute; reflexivity ] | ]).
  destruct Hin.
Qed.

(** C7, counterexample: SSS is a rank, 595 is its lower threshold, and
    the progress computed there is 1, not 0. *)
Lemma progress_at_SSS_threshold_not_zero :
  In ("SSS", 595%Q) rank_thresholds ∧
  ∃ cur nxt p, calculate_rank 595 = inr (cur, nxt, p) ∧ ¬ (p == 0)%Q.
Proof.
  split.
  - unfold rank_thresholds. cbn [In]. tauto.
  - exists "SSS", "SSS", 1%Q. split; [reflexivity | intros H; discriminate H].
Qed.

(** C7, amended: for every value the rank calculator returns a progress in
    [0,1]; for every rank below the top rank SSS, evaluating it at that
    rank's lower threshold returns that rank with progress 0; and from the
    SSS threshold on it returns SSS as both current and next rank with
    progress 1 (so at the SSS threshold itself the progress is 1). *)
Theorem calculate_rank_progress :
  (∀ v : Q, ∃ cur nxt p,
      calculate_rank v = inr (cur, nxt, p) ∧ (0 <= p <= 1)%Q) ∧
  (∀ (rank : string) (t : Q),
      In (rank, t) rank_thresholds → rank ≠ "SSS" →
      ∃ nxt p, calculate_rank t = inr (rank, nxt, p) ∧ (p == 0)%Q) ∧
  (∀ v : Q, (595 <= v)%Q → calculate_rank v = inr ("SSS", "SSS", 1%Q)).
Proof.
  split; [exact calculate_rank_total |].
  split; [exact calculate_rank_at_threshold | exact calculate_rank_top].
Qed.

Lemma calculate_rank_progress_witness :
  (∃ nxt p, calculate_rank 85 = inr ("D", nxt, p) ∧ (p == 0)%Q) ∧
  calculate_rank 600 = inr ("SSS", "SSS", 1%Q).
Proof.
  destruct calculate_rank_progress as (_ & Hthr & Htop). split.
  - apply (Hthr "D" 85%Q).
    + unfold rank_thresholds. cbn [In]. tauto.
    + discriminate.
  - apply (Htop 600%Q). unfold Qle. simpl. lia.
Defined.

End RankCalculator.

(** ** Severity tiers *)

Section Severity.
Import TaskManager.

(** C9: for every missed_days >= 1, determine_severity returns the record
    built in the loop (keys level, penalty_range, message), with a level in
    {1,2,3} and the penalty range of the tier table; the fallback return,
    which yields the raw table entry, is not reached. *)
Theorem determine_severity_classified (missed_days : Z) :
  (1 <= missed_days)%Z →
  ∃ s : severity,
    determine_severity missed_days = inr (Classified s) ∧
    (level s = 1 ∨ level s = 2 ∨ level s = 3)%Z ∧
    ((missed_days <= 3)%Z → level s = 1%Z ∧ penalty_range s = (1, 2)%Z) ∧
    ((4 <= missed_days <= 7)%Z →
       level s = 2%Z ∧ penalty_range s = (3, 5)%Z) ∧
    ((8 <= missed_days)%Z → level s = 3%Z ∧ penalty_range s = (6, 8)%Z).
Proof.
  intros Hd.
  unfold determine_severity, severity_levels, find_level, le_bound.
  cbn [range penalty message fst snd].
  destruct (Z.leb_spec 1 missed_days) as [_ | ?]; [| lia].
  destruct (Z.leb_spec missed_days 3) as [H3 | H3]; cbn [andb].
  { eexists; split; [reflexivity |]. cbn. repeat split; (lia || auto). }
  destruct (Z.leb_spec 4 missed_days) as [_ | ?]; [| lia].
  destruct (Z.leb_spec missed_days 7) as [H7 | H7]; cbn [andb].
  { eexists; split; [reflexivity |]. cbn. repeat split; (lia || auto). }
  destruct (Z.leb_spec 8 missed_days) as [_ | ?]; [| lia].
  cbn [andb].
  eexists; split; [reflexivity |]. cbn. repeat split; (lia || auto).
Qed.

Lemma determine_severity_classified_witness :
  ∃ s : severity,
    determine_severity 5 = inr (Classified s) ∧
    (level s = 1 ∨ level s = 2 ∨ level s = 3)%Z ∧
    ((5 <= 3)%Z → level s = 1%Z ∧ penalty_range s = (1, 2)%Z) ∧
    ((4 <= 5 <= 7)%Z → level s = 2%Z ∧ penalty_range s = (3, 5)%Z) ∧
    ((8 <= 5)%Z → level s = 3%Z ∧ penalty_range s = (6, 8)%Z).
Proof. apply (determine_severity_classified 5). lia. Defined.

(** Outside the precondition the fallback is what answers. *)
Example determine_severity_zero_days :
  determine_severity 0 =
  inr (RawLevel (LevelData (8%Z, Inf) (6%Z, 8%Z) "Critical Failure")).
Proof. reflexivity. Qed.

End Severity.

(** ** Task ledger *)

Section TaskLedger.
Import TaskManager.

(** A stored task that is already completed is rejected and nothing
    changes. *)
Lemma complete_task_already_completed
    (now : DateTime.datetime) (id category : string) (task stored_task : Task)
    (stored : gmap string Task) (s : Session) :
  tasks s !! category = Some stored →
  stored !! id = Some stored_task →
  is_completed stored_task = true →
  complete_task now id task category s = (AlreadyCompleted, s).
Proof.
  intros Hc Ht Hdone. unfold complete_task. rewrite Hc, Ht, Hdone.
  reflexivity.
Qed.

(** What a successful completion does to the state: the stored task is
    marked completed and base points times the job multiplier are added
    to the task's attribute. *)
Lemma complete_task_awarded
    (now : DateTime.datetime) (id category : string) (task : Task)
    (s s' : Session) (pts : Q) (attr : string) :
  complete_task now id task category s = (Awarded pts attr, s') →
  ∃ stored stored_task,
    tasks s !! category = Some stored ∧
    stored !! id = Some stored_task ∧
    is_completed stored_task = false ∧
    task_attribute stored_task = Some attr ∧
    pts = (default 1%Q (task_points stored_task)
           * Py.get (default ∅ (multipliers (user_data s))) "job" 1)%Q ∧
    tasks s' = <[category := <[id := mark_completed now stored_task]> stored]>
                 (tasks s) ∧
    attributes (user_data s') =
      <[attr := (Py.get (attributes (user_data s)) attr 0 + pts)%Q]>
        (attributes (user_data s)).
Proof.
  unfold complete_task. intros H.
  destruct (tasks s !! category) as [stored |] eqn:Hc; [| discriminate].
  destruct (stored !! id) as [stored_task |] eqn:Ht; [| discriminate].
  destruct (is_completed stored_task) eqn:Hdone; [discriminate |].
  destruct (task_attribute stored_task) as [a |] eqn:Ha; [| discriminate].
  injection H as <- <- <-.
  exists stored, stored_task. repeat split; auto.
Qed.

(** C3: completing the same task twice never double-awards points: after
    a successful completion, a second complete_task on the same id and
    category is rejected as AlreadyCompleted (it returns False) and the
    whole session -- every attribute value, the task record and the rest
    of the user state -- is left as it was. *)
Theorem complete_task_twice_no_double_award
    (now1 now2 : DateTime.datetime) (id category : string) (task1 task2 : Task)
    (s s1 : Session) (pts : Q) (attr : string) :
  complete_task now1 id task1 category s = (Awarded pts attr, s1) →
  complete_task now2 id task2 category s1 = (AlreadyCompleted, s1) ∧
  returned AlreadyCompleted = false.
Proof.
  intros H1.
  destruct (complete_task_awarded _ _ _ _ _ _ _ _ H1)
    as (stored & stored_task & Hc & Ht & _ & _ & _ & Htasks & _).
  split; [| reflexivity].
  eapply complete_task_already_completed.
  - rewrite Htasks. apply lookup_insert_eq.
  - apply lookup_insert_eq.
  - reflexivity.
Qed.

Lemma complete_task_twice_no_double_award_witness :
  let s1 := snd (complete_task 10%Z "daily_1" run_task "daily"
                               one_task_session) in
  complete_task 20%Z "daily_1" run_task "daily" s1 = (AlreadyCompleted, s1) ∧
  returned AlreadyCompleted = false.
Proof.
  intros s1.
  apply (complete_task_twice_no_double_award
           10%Z 20%Z "daily_1" "daily" run_task run_task
           one_task_session s1 (1 * 1)%Q "Physical").
  subst s1. vm_compute. reflexivity.
Defined.

(** The points posted by a completion do not depend on the event or
    streak multiplier slots. *)
Lemma complete_task_ignores_event_and_streak
    (now : DateTime.datetime) (id category : string) (task : Task)
    (s : Session) (m : gmap string Q) (e k : Q) :
  multipliers (user_data s) = Some m →
  fst (complete_task now id task category
         (mkSession
            (set_multipliers (<["event" := e]> (<["streak" := k]> m))
                             (user_data s))
            (tasks s)))
  = fst (complete_task now id task category s).
Proof.
  intros Hm. unfold complete_task. cbn [tasks user_data].
  destruct (tasks s !! category) as [stored |]; [| reflexivity].
  destruct (stored !! id) as [stored_task |]; [| reflexivity].
  destruct (is_completed stored_task); [reflexivity |].
  destruct (task_attribute stored_task); [| reflexivity].
  cbn [fst multipliers set_multipliers]. rewrite Hm. cbn [default].
  unfold Py.get, Datatypes.id.
  rewrite lookup_insert_ne by discriminate.
  rewrite lookup_insert_ne by discriminate.
  reflexivity.
Qed.

(** C1, the code at the failing input: base points 2, job multiplier 1.5
    and event multiplier 2.0 post 3 points (2 x 1.5) to the attribute,
    not 6. *)
Theorem complete_task_posts_three_not_six :
  ∃ s' : Session,
    complete_task 10%Z "weekly_1" two_point_task "weekly" boosted_session
    = (Awarded (2 * 1.5)%Q "Physical", s') ∧
    Py.get (default ∅ (multipliers (user_data boosted_session))) "event" 1
    = 2.0%Q ∧
    attributes (user_data boosted_session) !! "Physical" = Some 0%Q ∧
    attributes (user_data s') !! "Physical" = Some (0 + 2 * 1.5)%Q ∧
    ¬ (0 + 2 * 1.5 == 6)%Q.
Proof.
  eexists. split; [vm_compute; reflexivity |].
  split; [vm_compute; reflexivity |].
  split; [vm_compute; reflexivity |].
  split; [vm_compute; reflexivity |].
  intros H. vm_compute in H. discriminate H.
Qed.

(** Deleting an id that the category does not hold: the KeyError of
    [del] reaches the handler and the session is left as it was. *)
Lemma remove_task_absent_id
    (id category : string) (stored : gmap string Task) (s : Session) :
  tasks s !! category = Some stored →
  stored !! id = None →
  remove_task id category s = (RemoveError (Py.KeyError id), s).
Proof.
  intros Hc Ht. unfold remove_task. rewrite Hc, Ht. reflexivity.
Qed.

(** C8, the code at the failing input: the first remove_task deletes the
    task; the second call on the same id leaves the session unchanged but
    ends in the error handler with KeyError. *)
Theorem remove_task_twice_reports_key_error :
  let s1 := snd (remove_task "daily_1" "daily" one_task_session) in
  fst (remove_task "daily_1" "daily" one_task_session) = Rerun ∧
  tasks s1 !! "daily" = Some ∅ ∧
  remove_task "daily_1" "daily" s1
  = (RemoveError (Py.KeyError "daily_1"), s1).
Proof.
  intros s1. split; [reflexivity |].
  assert (Hd : tasks s1 !! "daily" = Some ∅) by (vm_compute; reflexivity).
  split; [exact Hd |].
  apply (remove_task_absent_id _ _ ∅ s1 Hd). apply lookup_empty.
Qed.

End TaskLedger.

(** ** Job gate *)

Section JobGate.
Import JobSystem.

(** Stray Dog is listed only when the attribute dictionary has a key
    spelled [resilience]. *)
Lemma stray_dog_needs_lowercase_key (u : UserData) :
  attributes u !! "resilience" = None →
  ¬ In "Stray Dog" (get_available_jobs u).
Proof.
  intros Hnone Hin. unfold get_available_jobs in Hin.
  apply in_map_iff in Hin as ((n & j) & Hn & Hin).
  cbn [fst] in Hn. subst n.
  apply filter_In in Hin as [Hin Hchk]. cbn [snd] in Hchk.
  unfold jobs in Hin. cbn [In] in Hin.
  repeat (destruct Hin as [Hin | Hin];
          [ first [ discriminate Hin | injection Hin as <- ] | ]);
    [| destruct Hin].
  unfold check_job_requirements in Hchk.
  cbn [attribute_requirements forallb fst snd] in Hchk.
  unfold Py.get in Hchk. rewrite Hnone in Hchk.
  discriminate Hchk.
Qed.

(** C2, the code at the failing input: the catalogue spells the
    requirement key [resilience], the state spells the attribute
    [Resilience]; so Stray Dog is absent at Resilience = 49 and still
    absent at Resilience = 50, although it is listed as soon as a key
    [resilience] holds 50.  Accepting it installs job multiplier 1.1. *)
Theorem stray_dog_absent_at_resilience_50 :
  attributes (user_with_resilience 49) !! "Resilience" = Some 49%Q ∧
  ¬ In "Stray Dog" (get_available_jobs (user_with_resilience 49)) ∧
  attributes (user_with_resilience 50) !! "Resilience" = Some 50%Q ∧
  ¬ In "Stray Dog" (get_available_jobs (user_with_resilience 50)) ∧
  In "Stray Dog"
     (get_available_jobs
        (set_attributes
           (<["resilience" := 50%Q]> (attributes (user_with_resilience 50)))
           (user_with_resilience 50))) ∧
  ∃ u' m,
    accept_job 10%Z "Stray Dog" (user_with_resilience 50) = (None, u') ∧
    multipliers u' = Some m ∧ m !! "job" = Some 1.1%Q.
Proof.
  split; [vm_compute; reflexivity |].
  split; [apply stray_dog_needs_lowercase_key; vm_compute; reflexivity |].
  split; [vm_compute; reflexivity |].
  split; [apply stray_dog_needs_lowercase_key; vm_compute; reflexivity |].
  split.
  { assert (H : get_available_jobs
        (set_attributes
           (<["resilience" := 50%Q]> (attributes (user_with_resilience 50)))
           (user_with_resilience 50)) = ["Master of None"; "Stray Dog"])
      by (vm_compute; reflexivity).
    rewrite H. right. left. reflexivity. }
  eexists _, _. split; [vm_compute; reflexivity |].
  split; [reflexivity | vm_compute; reflexivity].
Qed.

End JobGate.

(** ** Inactivity penalties *)

Section InactivityPenalty.
Import TaskManager.

Lemma penalise_one_nonnegative
    (attrs : gmap string Q) (attribute : string) (penalty_points : Z) :
  nonnegative attrs → nonnegative (penalise_one attrs attribute penalty_points).
Proof.
  intros H. unfold penalise_one, nonnegative.
  apply map_Forall_insert_2; [apply Q.le_max_l | exact H].
Qed.

Lemma penalise_all_nonnegative
    (names : list string) (per_attribute_penalty : Q) (attrs : gmap string Q) :
  nonnegative attrs →
  nonnegative (penalise_all attrs names per_attribute_penalty).
Proof.
  unfold penalise_all. revert attrs.
  induction names as [| attr names IH]; intros attrs H; cbn [foldl].
  - exact H.
  - apply IH. apply map_Forall_insert_2; [apply Q.le_max_l | exact H].
Qed.

Lemma apply_penalties_nonnegative
    (r : Random.draws) (sev : severity_result) (d : Z) (n : nat)
    (u : UserData) :
  nonnegative (attributes u) →
  nonnegative (attributes (fst (fst (apply_penalties r sev d n u)))).
Proof.
  intros H. unfold apply_penalties.
  destruct sev as [s | raw]; [| exact H].
  destruct (Random.randint _ _ r) as [e | p]; [exact H |].
  destruct (Py.lt (Random.unit_draw r) 0.7).
  - destruct (Random.choice _ r) as [e | a]; [exact H |].
    apply penalise_one_nonnegative, H.
  - destruct (attribute_names (attributes u)) eqn:Hn; [exact H |].
    apply penalise_all_nonnegative, H.
Qed.

Lemma missed_tasks_block_nonnegative
    (now : DateTime.datetime) (r : Random.draws) (d : Z) (n : nat)
    (u : UserData) :
  nonnegative (attributes u) →
  nonnegative (attributes (fst (fst (missed_tasks_block now r d n u)))).
Proof.
  intros H. unfold missed_tasks_block.
  destruct (determine_severity d) as [e | sev]; [exact H |].
  destruct (d =? 1)%Z; [exact H |].
  destruct (_ <? now)%Z; [| exact H].
  apply apply_penalties_nonnegative, H.
Qed.

Lemma update_tasks_nonnegative
    (now : DateTime.datetime) (r : Random.draws) (s : Session) :
  nonnegative (attributes (user_data s)) →
  nonnegative (attributes (user_data (updated (update_tasks now r s)))).
Proof.
  intros H. unfold update_tasks.
  destruct (0 <? _)%Z; [| exact H].
  destruct (incomplete_tasks (tasks s)) as [| t ts] eqn:Hinc.
  - exact H.
  - pose proof (missed_tasks_block_nonnegative now r
                  (DateTime.days_between now
                     (default now (last_active (user_data s))))
                  (length (t :: ts)) (user_data s) H) as Hb.
    destruct (missed_tasks_block _ _ _ _ _) as [[u1 note] err].
    cbn [fst] in Hb. destruct err; exact Hb.
Qed.

(** C5: from any state whose attribute values are all >= 0, after the
    inactivity evaluation every attribute value is still >= 0, whatever
    the clock and the random draws; and each distribution branch keeps
    the values >= 0 for every penalty magnitude. *)
Theorem penalties_clamp_at_zero :
  (∀ (now : DateTime.datetime) (r : Random.draws) (s : Session),
      nonnegative (attributes (user_data s)) →
      nonnegative (attributes (user_data (updated (update_tasks now r s))))) ∧
  (∀ (attrs : gmap string Q) (attribute : string) (penalty_points : Z),
      nonnegative attrs →
      nonnegative (penalise_one attrs attribute penalty_points)) ∧
  (∀ (attrs : gmap string Q) (names : list string) (per : Q),
      nonnegative attrs → nonnegative (penalise_all attrs names per)).
Proof.
  split; [exact update_tasks_nonnegative |].
  split; [exact penalise_one_nonnegative |].
  intros attrs names per. apply penalise_all_nonnegative.
Qed.

Lemma initial_attributes_nonnegative :
  nonnegative DataManager.initial_attributes.
Proof.
  unfold nonnegative, DataManager.initial_attributes.
  repeat (apply map_Forall_insert_2; [apply Qle_refl |]).
  apply map_Forall_empty.
Defined.

Lemma penalties_clamp_at_zero_witness :
  nonnegative
    (attributes
       (user_data
          (updated (update_tasks two_days_later (Random.Draws 1 0 0)
                                 (idle_session 0%Z))))) ∧
  nonnegative (penalise_one DataManager.initial_attributes "Health" 8) ∧
  nonnegative (penalise_all DataManager.initial_attributes
                            ["Health"; "Physical"] 4).
Proof.
  destruct penalties_clamp_at_zero as (Hrun & Hone & Hall).
  split; [| split].
  - apply (Hrun two_days_later (Random.Draws 1 0 0) (idle_session 0%Z)).
    exact initial_attributes_nonnegative.
  - apply (Hone DataManager.initial_attributes "Health" 8%Z).
    exact initial_attributes_nonnegative.
  - apply (Hall DataManager.initial_attributes ["Health"; "Physical"] 4%Q).
    exact initial_attributes_nonnegative.
Defined.

(** The clamp is what keeps the value at zero: an 8-point penalty on an
    attribute worth 0 leaves 0. *)
Example penalise_one_clamps :
  penalise_one DataManager.initial_attributes "Health" 8 !! "Health"
  = Some 0%Q.
Proof. vm_compute. reflexivity. Qed.

Lemma randint_in_range (a b : Z) (r : Random.draws) :
  (a <= b)%Z →
  ∃ p : Z, Random.randint a b r = inr p ∧ (a <= p <= b)%Z.
Proof.
  intros Hab. unfold Random.randint.
  destruct (Z.ltb_spec b a) as [? | _]; [lia |].
  eexists. split; [reflexivity |].
  pose proof (Z.mod_pos_bound (Random.raw_int r) (b - a + 1)). lia.
Qed.

Lemma choice_nonempty {A : Type} (seq : list A) (r : Random.draws) :
  seq ≠ [] → ∃ x : A, Random.choice seq r = inr x ∧ x ∈ seq.
Proof.
  intros Hne. unfold Random.choice.
  destruct seq as [| y seq']; [congruence |].
  set (l := y :: seq') in *.
  assert (Hlt : (Random.raw_choice r mod length l < length l)%nat)
    by (apply Nat.mod_upper_bound; subst l; discriminate).
  apply lookup_lt_is_Some in Hlt as [x Hx].
  rewrite Hx. exists x. split; [reflexivity |].
  eapply list_elem_of_lookup_2, Hx.
Qed.

Lemma attribute_names_nonempty (attrs : gmap string Q) :
  attrs ≠ ∅ → attribute_names attrs ≠ [].
Proof.
  intros Hne Hnil. apply Hne. unfold attribute_names in Hnil.
  apply fmap_nil_inv in Hnil. apply map_to_list_empty_iff, Hnil.
Qed.

Lemma fold_insert_lookup (f : Q → Q) (l : list string) (a : string) :
  ∀ m : gmap string Q,
    NoDup l →
    foldl (fun (acc : gmap string Q) (k : string) =>
             <[k := f (Py.get acc k 0)]> acc) m l !! a
    = if decide (a ∈ l) then Some (f (Py.get m a 0)) else m !! a.
Proof.
  induction l as [| k l IH]; intros m Hnd; cbn [foldl].
  - rewrite decide_False; [reflexivity | apply not_elem_of_nil].
  - apply NoDup_cons in Hnd as [Hk Hnd]. rewrite IH by exact Hnd.
    destruct (decide (a = k)) as [-> | Hne].
    + rewrite decide_False by exact Hk.
      rewrite decide_True by (apply elem_of_cons; auto).
      apply lookup_insert_eq.
    + unfold Py.get. rewrite lookup_insert_ne by congruence.
      destruct (decide (a ∈ l)) as [Hin | Hin].
      * rewrite decide_True by (apply elem_of_cons; auto). reflexivity.
      * rewrite decide_False; [reflexivity |].
        intros [? | ?]%elem_of_cons; auto.
Qed.

(** The distributed branch subtracts the share from every attribute. *)
Lemma penalise_all_lookup (attrs : gmap string Q) (per : Q) (a : string) :
  penalise_all attrs (attribute_names attrs) per !! a
  = (fun v => Py.max 0 (v - per)) <$> attrs !! a.
Proof.
  unfold penalise_all, attribute_names.
  rewrite (fold_insert_lookup (fun v => Py.max 0 (v - per)))
    by apply NoDup_fst_map_to_list.
  destruct (attrs !! a) as [v |] eqn:Hv.
  - rewrite decide_True.
    + unfold Py.get. rewrite Hv. reflexivity.
    + apply list_elem_of_fmap. exists (a, v). split; [reflexivity |].
      apply elem_of_map_to_list, Hv.
  - rewrite decide_False; [reflexivity |].
    intros Hin. apply list_elem_of_fmap in Hin as ((k & v) & Hk & Hin).
    cbn in Hk. subst k. apply elem_of_map_to_list in Hin. congruence.
Qed.

Lemma attribute_names_key (attrs : gmap string Q) (a : string) :
  a ∈ attribute_names attrs → ∃ v : Q, attrs !! a = Some v.
Proof.
  intros Hin. apply list_elem_of_fmap in Hin as ((k & v) & Hk & Hin).
  cbn in Hk. subst k. exists v. apply elem_of_map_to_list, Hin.
Qed.

Lemma attribute_names_size (attrs : gmap string Q) :
  length (attribute_names attrs) = size attrs.
Proof.
  unfold attribute_names. rewrite length_fmap. apply length_map_to_list.
Qed.

(** What the penalty block does to the attributes, by lookup: a
    magnitude p of the range is drawn; either the chosen attribute loses
    p points, not below zero, and the others keep their values, or every
    attribute loses p divided by the number of attributes, not below
    zero. *)
Lemma apply_penalties_effect
    (r : Random.draws) (lvl lo hi : Z) (msg : string) (d : Z) (n : nat)
    (u : UserData) :
  (lo <= hi)%Z →
  attributes u ≠ ∅ →
  ∃ (p : Z) (u' : UserData) (note : notice),
    (lo <= p <= hi)%Z ∧
    apply_penalties r (Classified (Severity lvl (lo, hi) msg)) d n u
    = (u', Some note, None) ∧
    makeup_deadline u' = makeup_deadline u ∧
    ((∃ (a : string) (v : Q),
        attributes u !! a = Some v ∧
        note = SinglePenalty msg d p a n ∧
        attributes u' !! a = Some (Qmax 0 (v - inject_Z p)) ∧
        (∀ b : string, b ≠ a → attributes u' !! b = attributes u !! b))
     ∨
     (note = DistributedPenalty msg d
               (inject_Z p / inject_Z (Z.of_nat (size (attributes u)))) n ∧
      ∀ b : string,
        attributes u' !! b
        = (fun v => Qmax 0 (v - inject_Z p
                                / inject_Z (Z.of_nat (size (attributes u)))))
            <$> attributes u !! b)).
Proof.
  intros Hrange Hattrs. unfold apply_penalties.
  cbn [penalty_range severity_message fst snd].
  destruct (randint_in_range lo hi r Hrange) as (p & Hp & Hin).
  rewrite Hp.
  destruct (Py.lt (Random.unit_draw r) 0.7).
  - destruct (choice_nonempty (attribute_names (attributes u)) r)
      as (a & Ha & Hel); [apply attribute_names_nonempty, Hattrs |].
    rewrite Ha. destruct (attribute_names_key _ _ Hel) as [v Hv].
    eexists p, _, _. split; [exact Hin |]. split; [reflexivity |].
    split; [reflexivity |]. left. exists a, v.
    split; [exact Hv |]. split; [reflexivity |].
    cbn [attributes set_attributes]. unfold penalise_one, Py.get, Py.max.
    rewrite Hv. cbn [default]. unfold Datatypes.id.
    split; [apply lookup_insert_eq |].
    intros b Hne. apply lookup_insert_ne. congruence.
  - pose proof (attribute_names_nonempty _ Hattrs) as Hne.
    destruct (attribute_names (attributes u)) as [| n0 ns] eqn:En;
      [congruence |].
    rewrite <- En. rewrite attribute_names_size.
    eexists p, _, _. split; [exact Hin |]. split; [reflexivity |].
    split; [reflexivity |]. right. split; [reflexivity |].
    intros b. cbn [attributes set_attributes].
    rewrite penalise_all_lookup. reflexivity.
Qed.

(** C4: with the last activity two calendar days back, at least one
    incomplete task, no makeup deadline in the state, a clock later than
    2000-01-01 and at least one attribute, the evaluation grants no grace
    window (the makeup deadline stays unset) and applies a penalty whose
    magnitude p is drawn from the tier-1 range [1,2]: either one
    attribute loses p points (its new value is max(0, v - p)) and every
    other attribute keeps its value, or every attribute loses p divided
    by the number of attributes (its new value is max(0, v - p/n)). *)
Theorem two_days_inactive_penalised
    (now last : DateTime.datetime) (r : Random.draws) (s : Session) :
  last_active (user_data s) = Some last →
  DateTime.days_between now last = 2%Z →
  incomplete_tasks (tasks s) ≠ [] →
  makeup_deadline (user_data s) = None →
  (DateTime.y2000 < now)%Z →
  attributes (user_data s) ≠ ∅ →
  let attrs := attributes (user_data s) in
  let res := update_tasks now r s in
  let attrs' := attributes (user_data (updated res)) in
  makeup_deadline (user_data (updated res)) = None ∧
  ∃ p : Z, (1 <= p <= 2)%Z ∧
    ((∃ (a : string) (v : Q),
        attrs !! a = Some v ∧
        shown res
        = Some (SinglePenalty "Minor Setback" 2 p a
                              (length (incomplete_tasks (tasks s)))) ∧
        attrs' !! a = Some (Qmax 0 (v - inject_Z p)) ∧
        (∀ b : string, b ≠ a → attrs' !! b = attrs !! b))
     ∨
     (shown res
      = Some (DistributedPenalty "Minor Setback" 2
                (inject_Z p / inject_Z (Z.of_nat (size attrs)))
                (length (incomplete_tasks (tasks s)))) ∧
      ∀ b : string,
        attrs' !! b
        = (fun v => Qmax 0 (v - inject_Z p / inject_Z (Z.of_nat (size attrs))))
            <$> attrs !! b)).
Proof.
  intros Hlast Hdays Hinc Hdl Hnow Hattrs. cbv zeta.
  unfold update_tasks. rewrite Hlast. cbn [default]. unfold Datatypes.id.
  rewrite Hdays. cbn [Z.ltb Z.compare].
  destruct (incomplete_tasks (tasks s)) as [| t ts] eqn:Einc; [congruence |].
  unfold missed_tasks_block.
  replace (determine_severity 2)
    with (inr (A := Py.exn)
            (Classified (Severity 1 (1, 2)%Z "Minor Setback")))
    by reflexivity.
  cbn [Z.eqb]. rewrite Hdl. cbn [default]. unfold Datatypes.id.
  destruct (Z.ltb_spec DateTime.y2000 now) as [_ | ?]; [| lia].
  destruct (apply_penalties_effect r 1 1 2 "Minor Setback" 2
              (length (t :: ts)) (user_data s))
    as (p & u' & note & Hp & Hrun & Hkeep & Heffect); [lia | exact Hattrs |].
  rewrite Hrun. cbn [Pos.eqb updated shown user_data].
  split; [rewrite Hkeep; exact Hdl |].
  exists p. split; [exact Hp |].
  destruct Heffect as [(a & v & Hv & -> & Ha & Hothers) | [-> Hall]].
  - left. exists a, v. auto.
  - right. auto.
Qed.

End InactivityPenalty.

Lemma two_days_inactive_penalised_witness :
  let s := trained_session 0%Z 10 in
  let now := two_days_later in
  let r := Random.Draws 1 0 0 in
  let attrs := attributes (user_data s) in
  let res := TaskManager.update_tasks now r s in
  let attrs' := attributes (user_data (TaskManager.updated res)) in
  makeup_deadline (user_data (TaskManager.updated res)) = None ∧
  ∃ p : Z, (1 <= p <= 2)%Z ∧
    ((∃ (a : string) (v : Q),
        attrs !! a = Some v ∧
        TaskManager.shown res
        = Some (TaskManager.SinglePenalty "Minor Setback" 2 p a
                  (length (TaskManager.incomplete_tasks (tasks s)))) ∧
        attrs' !! a = Some (Qmax 0 (v - inject_Z p)) ∧
        (∀ b : string, b ≠ a → attrs' !! b = attrs !! b))
     ∨
     (TaskManager.shown res
      = Some (TaskManager.DistributedPenalty "Minor Setback" 2
                (inject_Z p / inject_Z (Z.of_nat (size attrs)))
                (length (TaskManager.incomplete_tasks (tasks s)))) ∧
      ∀ b : string,
        attrs' !! b
        = (fun v => Qmax 0 (v - inject_Z p / inject_Z (Z.of_nat (size attrs))))
            <$> attrs !! b)).
Proof.
  intros s now r.
  apply (two_days_inactive_penalised now 0%Z r s).
  - reflexivity.
  - vm_compute. reflexivity.
  - vm_compute. discriminate.
  - reflexivity.
  - vm_compute. reflexivity.
  - intros H. apply (f_equal (fun m : gmap string Q => m !! "Health")) in H.
    vm_compute in H. discriminate H.
Defined.

(** The penalty at its numbers, every attribute being at 10 before.  With
    a draw that selects the single-attribute branch, 2 points are taken
    from one attribute, which is left at 8, and the others stay at 10;
    with a draw that selects the distributed branch, each of the six
    attributes loses 2/6 and is left at 29/3. *)
Example two_days_inactive_numbers :
  let s := trained_session 0%Z 10 in
  let one := TaskManager.update_tasks two_days_later (Random.Draws 1 0 0) s in
  let all := TaskManager.update_tasks two_days_later (Random.Draws 1 1 0) s in
  TaskManager.shown one
  = Some (TaskManager.SinglePenalty "Minor Setback" 2 2 "Spiritual" 1) ∧
  attributes (user_data (TaskManager.updated one)) !! "Spiritual" = Some 8%Q ∧
  attributes (user_data (TaskManager.updated one)) !! "Health" = Some 10%Q ∧
  TaskManager.shown all
  = Some (TaskManager.DistributedPenalty "Minor Setback" 2 (2 / 6) 1) ∧
  (∀ a : string,
      a ∈ attribute_names (attributes (user_data s)) →
      ∃ v : Q,
        attributes (user_data (TaskManager.updated all)) !! a = Some v ∧
        (v == 29 / 3)%Q ∧ (v < 10)%Q).
Proof.
  cbv zeta.
  split; [vm_compute; reflexivity |].
  split; [vm_compute; reflexivity |].
  split; [vm_compute; reflexivity |].
  split; [vm_compute; reflexivity |].
  intros a Ha.
  assert (Hnames : attribute_names
                     (attributes (user_data (trained_session 0%Z 10)))
                   = ["Spiritual"; "Creativity"; "Intelligence"; "Resilience";
                      "Health"; "Physical"]) by (vm_compute; reflexivity).
  rewrite Hnames in Ha.
  repeat (apply elem_of_cons in Ha as [-> | Ha];
          [eexists; split; [vm_compute; reflexivity |];
           split; reflexivity |]).
  inversion Ha.
Qed.

(** The same state one calendar day after the last activity: a grace
    window of twelve hours is granted and no attribute changes. *)
Example one_day_inactive_grace :
  let res := TaskManager.update_tasks
               (DateTime.usec_per_day + DateTime.usec_per_hour)%Z
               (Random.Draws 1 0 0) (idle_session 0%Z) in
  makeup_deadline (user_data (TaskManager.updated res))
  = Some (DateTime.usec_per_day + 13 * DateTime.usec_per_hour)%Z ∧
  TaskManager.shown res = Some (TaskManager.MakeupOpportunity 1) ∧
  attributes (user_data (TaskManager.updated res))
  = attributes (user_data (idle_session 0%Z)).
Proof.
  intros res. subst res.
  split; [vm_compute; reflexivity |].
  split; vm_compute; reflexivity.
Qed.

(** ** Stage rewards *)

Section StageRewards.
Import AchievementChainSystem.

Lemma foldl_alter_lookup (f : Q → Q) (l : list string) (a : string) :
  ∀ m : gmap string Q,
    NoDup l →
    foldl (fun (acc : gmap string Q) (k : string) => alter f k acc) m l !! a
    = if decide (a ∈ l) then f <$> m !! a else m !! a.
Proof.
  induction l as [| k l IH]; intros m Hnd; cbn [foldl].
  - rewrite decide_False by set_solver. reflexivity.
  - apply NoDup_cons in Hnd as [Hk Hnd]. rewrite IH by exact Hnd.
    destruct (decide (a = k)) as [-> | Hne].
    + rewrite decide_False by exact Hk.
      rewrite decide_True by set_solver. apply lookup_alter_eq.
    + rewrite lookup_alter_ne by congruence.
      destruct (decide (a ∈ l)) as [Hin | Hin].
      * rewrite decide_True by (apply elem_of_cons; auto). reflexivity.
      * rewrite decide_False; [reflexivity |].
        intros [? | ?]%elem_of_cons; auto.
Qed.

(** The [all_attributes] loop adds the amount to every attribute. *)
Lemma add_to_all_lookup (amount : Q) (attrs : gmap string Q) (a : string) :
  add_to_all amount attrs !! a = (fun v => (v + amount)%Q) <$> attrs !! a.
Proof.
  unfold add_to_all, attribute_names.
  rewrite foldl_alter_lookup by apply NoDup_fst_map_to_list.
  destruct (decide (a ∈ (map_to_list attrs).*1)) as [Hin | Hin];
    [reflexivity |].
  destruct (attrs !! a) as [v |] eqn:Hv; [| reflexivity].
  exfalso. apply Hin. apply list_elem_of_fmap. exists (a, v).
  split; [reflexivity |]. apply elem_of_map_to_list, Hv.
Qed.

(** C10: when the reward mapping of a stage has the key all_attributes,
    grant_stage_rewards adds that amount to every attribute and does
    nothing else -- it acts exactly as on the mapping with that key
    alone, and the multipliers are untouched; in particular the Living
    Legend reward {streak_multiplier: 1.5, all_attributes: 50} adds 50 to
    every attribute and installs no streak multiplier. *)
Theorem all_attributes_reward_ignores_other_keys :
  (∀ (rewards : list (string * Q)) (amount : Q) (u : UserData),
      Py.assoc "all_attributes" rewards = Some amount →
      (∀ a : string,
          attributes (grant_stage_rewards rewards u) !! a
          = (fun v => (v + amount)%Q) <$> attributes u !! a) ∧
      multipliers (grant_stage_rewards rewards u) = multipliers u ∧
      grant_stage_rewards rewards u
      = grant_stage_rewards [("all_attributes", amount)] u) ∧
  (∀ u : UserData,
      multipliers (grant_stage_rewards (reward living_legend) u)
      = multipliers u ∧
      ∀ a : string,
        attributes (grant_stage_rewards (reward living_legend) u) !! a
        = (fun v => (v + 50)%Q) <$> attributes u !! a).
Proof.
  assert (Hgen : ∀ (rewards : list (string * Q)) (amount : Q) (u : UserData),
      Py.assoc "all_attributes" rewards = Some amount →
      (∀ a : string,
          attributes (grant_stage_rewards rewards u) !! a
          = (fun v => (v + amount)%Q) <$> attributes u !! a) ∧
      multipliers (grant_stage_rewards rewards u) = multipliers u ∧
      grant_stage_rewards rewards u
      = grant_stage_rewards [("all_attributes", amount)] u).
  { intros rewards amount u Hkey. unfold grant_stage_rewards.
    rewrite Hkey. cbn [Py.assoc String.eqb Ascii.eqb Bool.eqb].
    split; [| split; reflexivity].
    intros a. cbn [attributes set_attributes]. apply add_to_all_lookup. }
  split; [exact Hgen |].
  intros u.
  destruct (Hgen (reward living_legend) 50%Q u eq_refl) as (Ha & Hm & _).
  split; [exact Hm | exact Ha].
Qed.

Lemma all_attributes_reward_ignores_other_keys_witness :
  (∀ a : string,
      attributes (grant_stage_rewards (reward living_legend) athlete) !! a
      = (fun v => (v + 50)%Q) <$> attributes athlete !! a) ∧
  multipliers (grant_stage_rewards (reward living_legend) athlete)
  = multipliers athlete ∧
  grant_stage_rewards (reward living_legend) athlete
  = grant_stage_rewards [("all_attributes", 50%Q)] athlete.
Proof.
  apply (proj1 all_attributes_reward_ignores_other_keys
               (reward living_legend) 50%Q athlete).
  reflexivity.
Defined.

(** Without the key all_attributes the streak multiplier is installed. *)
Example streak_multiplier_alone_is_installed :
  multipliers
    (grant_stage_rewards [("streak_multiplier", 1.5%Q)]
                         (user_with_resilience 0))
  = Some (<["streak" := 1.5%Q]> DataManager.initial_multipliers).
Proof. reflexivity. Qed.

End StageRewards.

(** ** Achievement chains *)

Section Chains.
Import AchievementChainSystem.

Lemma events_of_app (cid : string) (t1 t2 : list (string * chain_event)) :
  events_of cid (t1 ++ t2) = events_of cid t1 ++ events_of cid t2.
Proof. apply omap_app. Qed.

Lemma events_of_own (cid : string) (evs : list chain_event) :
  events_of cid (map (pair cid) evs) = evs.
Proof.
  unfold events_of. induction evs as [| e evs IH]; [reflexivity |].
  cbn [map omap list_omap fst snd]. rewrite String.eqb_refl.
  f_equal. exact IH.
Qed.

Lemma events_of_other (cid other : string) (evs : list chain_event) :
  other ≠ cid → events_of cid (map (pair other) evs) = [].
Proof.
  intros Hne. unfold events_of.
  induction evs as [| e evs IH]; [reflexivity |].
  cbn [map omap list_omap fst snd].
  destruct (String.eqb_spec other cid) as [? | _]; [congruence |].
  exact IH.
Qed.

(** Events carry only keys of the stored chains. *)
Lemma events_of_absent (cid : string) (tr : list (string * chain_event)) :
  (∀ x, x ∈ tr → fst x ≠ cid) → events_of cid tr = [].
Proof.
  unfold events_of. induction tr as [| x tr IH]; intros H; [reflexivity |].
  cbn [omap list_omap].
  destruct (String.eqb_spec (fst x) cid) as [Heq | _].
  - exfalso. apply (H x); [left | exact Heq].
  - apply IH. intros y Hy. apply H. right. exact Hy.
Qed.

Lemma one_evaluation_idle (c : AchievementChain) : one_evaluation c [] c.
Proof.
  constructor;
    [ reflexivity | lia | lia | constructor
    | rewrite Nat.sub_diag; reflexivity | auto ].
Qed.

(** One call of [check_chain_progress] on a chain that is not completed. *)
Lemma check_chain_progress_step
    (now : DateTime.datetime) (c : AchievementChain) (u : UserData) :
  completed c = false →
  one_evaluation c (events (check_chain_progress now c u))
                 (chain_after (check_chain_progress now c u)).
Proof.
  intros Hopen.
  assert (Hs : stages (start now c) = stages c)
    by (unfold start; destruct (started_at c); reflexivity).
  assert (Hk : current_stage (start now c) = current_stage c)
    by (unfold start; destruct (started_at c); reflexivity).
  assert (Hz : ∀ c' : AchievementChain,
             stages c' = stages c → current_stage c' = current_stage c →
             ∀ evs : list chain_event,
               rewarded evs = [] →
               Forall (fun k => k = current_stage c) (checked evs) →
               one_evaluation c evs c').
  { intros c' Hs' Hk' evs Hr Hc.
    constructor;
      [ exact Hs' | lia | lia | exact Hc
      | rewrite Hr, Hk', Nat.sub_diag; reflexivity | congruence ]. }
  assert (Hadv : ∀ c' : AchievementChain,
             stages c' = stages c → current_stage c' = S (current_stage c) →
             ∀ evs : list chain_event,
               rewarded evs = [current_stage c] →
               Forall (fun k => k = current_stage c) (checked evs) →
               one_evaluation c evs c').
  { intros c' Hs' Hk' evs Hr Hc.
    constructor;
      [ exact Hs' | lia | lia | exact Hc | | congruence ].
    rewrite Hr, Hk'.
    replace (S (current_stage c) - current_stage c)%nat with 1%nat by lia.
    reflexivity. }
  unfold check_chain_progress. rewrite Hk.
  destruct (stages (start now c) !! current_stage c) as [stage |].
  2: { apply Hz; cbn; auto. }
  destruct (requirement stage u) as [e | [|]].
  - apply Hz; cbn; auto.
  - destruct (length (stages (advance (start now c)))
              <=? current_stage (advance (start now c)))%nat;
      apply Hadv; cbn; auto; f_equal; exact Hk.
  - apply Hz; cbn; auto.
Qed.

(** The keys are not changed by an evaluation and every event carries a
    stored key. *)
Lemma check_chains_keys
    (now : DateTime.datetime) (cs : list (string * AchievementChain)) :
  ∀ u : UserData,
    (chains_after (check_chains now cs u)).*1 = cs.*1 ∧
    ∀ x, x ∈ trace (check_chains now cs u) → fst x ∈ cs.*1.
Proof.
  induction cs as [| [cid chain] rest IH]; intros u; cbn [check_chains].
  - split; [reflexivity |]. cbn. intros x Hx. inversion Hx.
  - destruct (completed chain).
    + destruct (IH u) as [Hk Ht]. cbn. split; [f_equal; exact Hk |].
      intros x Hx. right. apply Ht, Hx.
    + destruct (raised (check_chain_progress now chain u)).
      * cbn. split; [reflexivity |].
        intros x Hx. apply list_elem_of_fmap in Hx as (ev & -> & _).
        left.
      * destruct (IH (user_after (check_chain_progress now chain u)))
          as [Hk Ht].
        cbn. split; [f_equal; exact Hk |].
        intros x Hx. apply elem_of_app in Hx as [Hx | Hx].
        -- apply list_elem_of_fmap in Hx as (ev & -> & _). left.
        -- right. apply Ht, Hx.
Qed.

Lemma trace_lacks_foreign_key
    (now : DateTime.datetime) (cs : list (string * AchievementChain))
    (u : UserData) (cid : string) :
  cid ∉ cs.*1 → events_of cid (trace (check_chains now cs u)) = [].
Proof.
  intros Hnot. apply events_of_absent. intros x Hx Heq.
  apply Hnot. rewrite <- Heq. apply (proj2 (check_chains_keys now cs u)), Hx.
Qed.

(** One call of [check_chains], chain by chain. *)
Lemma check_chains_step
    (now : DateTime.datetime) (cs : list (string * AchievementChain)) :
  ∀ u : UserData,
    NoDup (cs.*1) →
    Forall2
      (fun x y : string * AchievementChain =>
         fst x = fst y ∧
         one_evaluation (snd x)
           (events_of (fst x) (trace (check_chains now cs u))) (snd y))
      cs (chains_after (check_chains now cs u)).
Proof.
  induction cs as [| [cid chain] rest IH]; intros u Hnd;
    cbn [check_chains].
  - constructor.
  - cbn [fmap list_fmap fst] in Hnd. apply NoDup_cons in Hnd as [Hcid Hnd].
    assert (Hrest : ∀ evs : list chain_event,
               Forall2
                 (fun x y : string * AchievementChain =>
                    fst x = fst y ∧
                    one_evaluation (snd x)
                      (events_of (fst x) (map (pair cid) evs)) (snd y))
                 rest rest).
    { intros evs. apply Forall2_same_length_lookup. split; [reflexivity |].
      intros i x y Hx Hy. rewrite Hx in Hy. injection Hy as <-.
      split; [reflexivity |].
      rewrite events_of_other; [apply one_evaluation_idle |].
      intros ->. apply Hcid. apply list_elem_of_fmap.
      exists x. split; [reflexivity |]. eapply list_elem_of_lookup_2, Hx. }
    destruct (completed chain) eqn:Hdone.
    + cbn [chains_after trace]. constructor.
      * cbn [fst snd]. split; [reflexivity |].
        rewrite trace_lacks_foreign_key by exact Hcid.
        apply one_evaluation_idle.
      * apply IH, Hnd.
    + pose proof (check_chain_progress_step now chain u Hdone) as Hstep.
      destruct (raised (check_chain_progress now chain u)).
      * cbn [chains_after trace]. constructor.
        -- cbn [fst snd]. split; [reflexivity |].
           rewrite events_of_own. exact Hstep.
        -- apply Hrest.
      * cbn [chains_after trace]. constructor.
        -- cbn [fst snd]. split; [reflexivity |].
           rewrite events_of_app, events_of_own.
           rewrite trace_lacks_foreign_key by exact Hcid.
           rewrite app_nil_r. exact Hstep.
        -- pose proof (IH (user_after (check_chain_progress now chain u)) Hnd)
             as Htail.
           apply Forall2_same_length_lookup.
           split; [eapply Forall2_length, Htail |].
           intros i x y Hx Hy.
           destruct (Forall2_lookup_lr _ _ _ _ _ _ Htail Hx Hy) as [Hxy Hone].
           split; [exact Hxy |].
           rewrite events_of_app, events_of_other; [exact Hone |].
           intros ->. apply Hcid. apply list_elem_of_fmap.
           exists x. split; [reflexivity |].
           eapply list_elem_of_lookup_2, Hx.
Qed.

Lemma many_evaluations_idle (c : AchievementChain) : many_evaluations c [] c.
Proof.
  constructor;
    [ reflexivity | lia | constructor
    | rewrite Nat.sub_diag; reflexivity | auto ].
Qed.

(** One evaluation followed by a run is a run. *)
Lemma one_then_many
    (c c1 c2 : AchievementChain) (e1 e2 : list chain_event) :
  one_evaluation c e1 c1 → many_evaluations c1 e2 c2 →
  many_evaluations c (e1 ++ e2) c2.
Proof.
  intros [Hs1 Hm1 Ho1 Hc1 Hr1 Hf1] [Hs2 Hm2 Hc2 Hr2 Hf2].
  constructor.
  - congruence.
  - lia.
  - unfold checked in *. rewrite omap_app. apply Forall_app. split.
    + eapply Forall_impl; [exact Hc1 |]. cbn. intros k ->. lia.
    + eapply Forall_impl; [exact Hc2 |]. cbn. intros k Hk. lia.
  - unfold rewarded in *. rewrite omap_app, Hr1, Hr2.
    replace (current_stage c2 - current_stage c)%nat
      with ((current_stage c1 - current_stage c)
            + (current_stage c2 - current_stage c1))%nat by lia.
    rewrite seq_app. do 2 f_equal. lia.
  - intros Hdone. destruct (Hf1 Hdone) as [-> ->].
    destruct (Hf2 Hdone) as [-> ->]. auto.
Qed.

(** Any sequence of [check_chains] calls, chain by chain. *)
Lemma evaluations_run
    (cs cs' : list (string * AchievementChain))
    (tr : list (string * chain_event)) :
  evaluations cs tr cs' →
  NoDup (cs.*1) →
  Forall2
    (fun x y : string * AchievementChain =>
       fst x = fst y ∧
       many_evaluations (snd x) (events_of (fst x) tr) (snd y))
    cs cs'.
Proof.
  induction 1 as [cs | cs now u tr cs' Hrest IH]; intros Hnd.
  - apply Forall2_same_length_lookup. split; [reflexivity |].
    intros i x y Hx Hy. rewrite Hx in Hy. injection Hy as <-.
    split; [reflexivity | apply many_evaluations_idle].
  - pose proof (check_chains_step now cs u Hnd) as Hstep.
    assert (Hnd1 : NoDup ((chains_after (check_chains now cs u)).*1))
      by (rewrite (proj1 (check_chains_keys now cs u)); exact Hnd).
    specialize (IH Hnd1).
    apply Forall2_same_length_lookup. split.
    + rewrite (Forall2_length _ _ _ Hstep). eapply Forall2_length, IH.
    + intros i x z Hx Hz.
      destruct (Forall2_lookup_l _ _ _ _ _ Hstep Hx)
        as (y & Hy & Hxy & Hone).
      destruct (Forall2_lookup_lr _ _ _ _ _ _ IH Hy Hz) as [Hyz Hmany].
      split; [congruence |].
      rewrite events_of_app. rewrite <- Hxy in Hmany.
      eapply one_then_many; [exact Hone | exact Hmany].
Qed.

(** *** What an evaluation grants *)

Lemma start_fields (now : DateTime.datetime) (c : AchievementChain) :
  stages (start now c) = stages c ∧
  current_stage (start now c) = current_stage c ∧
  completed (start now c) = completed c ∧
  chain_id (start now c) = chain_id c ∧
  name (start now c) = name c ∧
  rarity (start now c) = rarity c ∧
  completed_at (start now c) = completed_at c.
Proof. unfold start. destruct (started_at c); cbn; auto 10. Qed.

(** One call of [check_chain_progress]: the user data changes by the
    reward of the stage the chain was at, and only when the chain moves
    on; it moves on only when the requirement of that very stage
    answered True on the user data of the call. *)
Lemma check_chain_progress_data
    (now : DateTime.datetime) (c : AchievementChain) (u : UserData) :
  user_after (check_chain_progress now c u)
  = stage_reward_due c (chain_after (check_chain_progress now c u)) u ∧
  (current_stage (chain_after (check_chain_progress now c u))
   ≠ current_stage c →
   ∃ stage : Stage,
     stages c !! current_stage c = Some stage ∧
     requirement stage u = inr true).
Proof.
  destruct (start_fields now c) as (Hs & Hk & _).
  unfold check_chain_progress, stage_reward_due. rewrite Hk, Hs.
  destruct (stages c !! current_stage c) as [stage |] eqn:Hst.
  2: { cbn [user_after chain_after]. rewrite Hk, Nat.ltb_irrefl.
       split; [reflexivity | congruence]. }
  destruct (requirement stage u) as [e | [|]] eqn:Hreq.
  - cbn [user_after chain_after]. rewrite Hk, Nat.ltb_irrefl.
    split; [reflexivity | congruence].
  - assert (Hlt : (current_stage c <? S (current_stage c))%nat = true)
      by (apply Nat.ltb_lt; lia).
    destruct (length (stages (advance (start now c)))
              <=? current_stage (advance (start now c)))%nat;
      cbn [user_after chain_after current_stage advance finish];
      rewrite Hk, Hlt; (split; [reflexivity | eauto]).
  - cbn [user_after chain_after]. rewrite Hk, Nat.ltb_irrefl.
    split; [reflexivity | congruence].
Qed.

Lemma stage_reward_due_same (c : AchievementChain) (u : UserData) :
  stage_reward_due c c u = u.
Proof. unfold stage_reward_due. rewrite Nat.ltb_irrefl. reflexivity. Qed.

Lemma data_seen_cons
    (x y : string * AchievementChain) (cs cs' : list (string * AchievementChain))
    (u : UserData) (i : nat) :
  data_seen (x :: cs) (y :: cs') u (S i)
  = data_seen cs cs' (stage_reward_due (snd x) (snd y) u) i.
Proof. reflexivity. Qed.

Lemma data_seen_same (cs : list (string * AchievementChain)) :
  ∀ (u : UserData) (i : nat), data_seen cs cs u i = u.
Proof.
  induction cs as [| x cs IH]; intros u i.
  - unfold data_seen. cbn. rewrite take_nil. reflexivity.
  - destruct i as [| i]; [reflexivity |].
    rewrite data_seen_cons, stage_reward_due_same. apply IH.
Qed.

(** One call of [check_chains]: the user data it leaves is the user data
    it was given after the rewards due for the chains that moved, in
    their order; and a chain moves only when it was not completed and
    the requirement of the stage it was at answered True on the user
    data as that chain found it. *)
Lemma check_chains_data
    (now : DateTime.datetime) (cs : list (string * AchievementChain)) :
  ∀ u : UserData,
    data_after (check_chains now cs u)
    = data_seen cs (chains_after (check_chains now cs u)) u (length cs) ∧
    ∀ (i : nat) (x y : string * AchievementChain),
      cs !! i = Some x →
      chains_after (check_chains now cs u) !! i = Some y →
      current_stage (snd y) ≠ current_stage (snd x) →
      completed (snd x) = false ∧
      ∃ stage : Stage,
        stages (snd x) !! current_stage (snd x) = Some stage ∧
        requirement stage
          (data_seen cs (chains_after (check_chains now cs u)) u i)
        = inr true.
Proof.
  induction cs as [| [cid chain] rest IH]; intros u; cbn [check_chains].
  - split; [reflexivity |]. intros i x y Hx. rewrite lookup_nil in Hx.
    discriminate Hx.
  - destruct (completed chain) eqn:Hdone.
    + destruct (IH u) as [Hdata Hmoved].
      cbn [chains_after data_after length]. split.
      * rewrite data_seen_cons. cbn [snd].
        rewrite stage_reward_due_same. exact Hdata.
      * intros [| i] x y Hx Hy Hne.
        -- cbn in Hx, Hy. injection Hx as <-. injection Hy as <-.
           congruence.
        -- cbn in Hx, Hy. rewrite data_seen_cons. cbn [snd].
           rewrite stage_reward_due_same. exact (Hmoved i x y Hx Hy Hne).
    + destruct (check_chain_progress_data now chain u) as [Huser Hreq].
      destruct (raised (check_chain_progress now chain u)).
      * cbn [chains_after data_after length]. split.
        -- rewrite data_seen_cons. cbn [snd]. rewrite data_seen_same.
           exact Huser.
        -- intros [| i] x y Hx Hy Hne.
           ++ cbn in Hx, Hy. injection Hx as <-. injection Hy as <-.
              cbn [snd] in *. split; [exact Hdone | exact (Hreq Hne)].
           ++ cbn in Hx, Hy. rewrite Hx in Hy. injection Hy as <-.
              congruence.
      * destruct (IH (user_after (check_chain_progress now chain u)))
          as [Hdata Hmoved].
        cbn [chains_after data_after length]. split.
        -- rewrite data_seen_cons. cbn [snd]. rewrite <- Huser. exact Hdata.
        -- intros [| i] x y Hx Hy Hne.
           ++ cbn in Hx, Hy. injection Hx as <-. injection Hy as <-.
              cbn [snd] in *. split; [exact Hdone | exact (Hreq Hne)].
           ++ cbn in Hx, Hy. rewrite data_seen_cons. cbn [snd].
              rewrite <- Huser. exact (Hmoved i x y Hx Hy Hne).
Qed.

(** *** The stages a chain is not at play no part *)

Ltac settle_progress :=
  unfold same_progress; cbn;
  repeat (apply conj); first [assumption | reflexivity | congruence].

Lemma check_chain_progress_other_stages
    (now : DateTime.datetime) (c1 c2 : AchievementChain) (u : UserData) :
  same_current_stage c1 c2 →
  user_after (check_chain_progress now c1 u)
  = user_after (check_chain_progress now c2 u) ∧
  events (check_chain_progress now c1 u)
  = events (check_chain_progress now c2 u) ∧
  raised (check_chain_progress now c1 u)
  = raised (check_chain_progress now c2 u) ∧
  same_progress (chain_after (check_chain_progress now c1 u))
                (chain_after (check_chain_progress now c2 u)).
Proof.
  intros [(Hid & Hname & Hrar & Hk & Hdone & Hst & Hcat & Hlen) Hstage].
  assert (Hstart : same_progress (start now c1) (start now c2)).
  { unfold start. rewrite Hst.
    destruct (started_at c2) eqn:Hst2; settle_progress. }
  destruct (start_fields now c1) as (Hs1 & Hk1 & _).
  destruct (start_fields now c2) as (Hs2 & Hk2 & _).
  unfold check_chain_progress. rewrite Hk1, Hk2, Hs1, Hs2, <- Hstage, <- Hk.
  destruct (stages c1 !! current_stage c1) as [stage |];
    [| cbn; auto].
  destruct (requirement stage u) as [e | [|]]; [cbn; auto | | cbn; auto].
  cbn [advance stages current_stage].
  rewrite Hs1, Hs2, Hk1, Hk2, <- Hlen, <- Hk.
  destruct Hstart as (H1 & H2 & H3 & H4 & H5 & H6 & H7 & H8).
  destruct (length (stages c1) <=? S (current_stage c1))%nat;
    cbn [user_after events raised chain_after];
    (split; [reflexivity |]); (split; [reflexivity |]);
    (split; [reflexivity |]);
    settle_progress.
Qed.

Lemma same_current_stage_completed (c1 c2 : AchievementChain) :
  same_current_stage c1 c2 → completed c1 = completed c2.
Proof. intros [(_ & _ & _ & _ & H & _) _]. exact H. Qed.

Lemma same_current_stage_progress (c1 c2 : AchievementChain) :
  same_current_stage c1 c2 → same_progress c1 c2.
Proof. intros [H _]. exact H. Qed.

(** One call of [check_chains] on two lists of chains that agree on the
    progress of each chain and on the stage each chain is at. *)
Lemma check_chains_other_stages
    (now : DateTime.datetime) (cs1 cs2 : list (string * AchievementChain)) :
  Forall2
    (fun x y : string * AchievementChain =>
       fst x = fst y ∧ same_current_stage (snd x) (snd y)) cs1 cs2 →
  ∀ u : UserData,
    data_after (check_chains now cs1 u) = data_after (check_chains now cs2 u) ∧
    trace (check_chains now cs1 u) = trace (check_chains now cs2 u) ∧
    failure (check_chains now cs1 u) = failure (check_chains now cs2 u) ∧
    Forall2
      (fun x y : string * AchievementChain =>
         fst x = fst y ∧ same_progress (snd x) (snd y))
      (chains_after (check_chains now cs1 u))
      (chains_after (check_chains now cs2 u)).
Proof.
  induction 1 as [| [cid1 c1] [cid2 c2] rest1 rest2 [Hkey Hsame] Hrest IH];
    intros u; cbn [check_chains].
  - cbn. auto.
  - cbn [fst snd] in Hkey, Hsame. subst cid2.
    assert (Hweak : Forall2
              (fun x y : string * AchievementChain =>
                 fst x = fst y ∧ same_progress (snd x) (snd y)) rest1 rest2).
    { eapply Forall2_impl; [exact Hrest |]. cbn.
      intros x y [? ?]. split; [assumption |].
      apply same_current_stage_progress. assumption. }
    rewrite <- (same_current_stage_completed c1 c2 Hsame).
    destruct (completed c1).
    + destruct (IH u) as (Hd & Ht & Hf & Hc).
      cbn [data_after trace failure chains_after].
      split; [exact Hd |]. split; [exact Ht |]. split; [exact Hf |].
      constructor; [| exact Hc]. cbn [fst snd].
      split; [reflexivity | apply same_current_stage_progress, Hsame].
    + destruct (check_chain_progress_other_stages now c1 c2 u Hsame)
        as (Hu & He & Hr & Hc).
      rewrite <- Hr, <- Hu, <- He.
      destruct (raised (check_chain_progress now c1 u)).
      * cbn [data_after trace failure chains_after].
        split; [reflexivity |]. split; [reflexivity |].
        split; [reflexivity |].
        constructor; [| exact Hweak]. cbn [fst snd]. auto.
      * destruct (IH (user_after (check_chain_progress now c1 u)))
          as (Hd & Ht & Hf & Hcs).
        cbn [data_after trace failure chains_after].
        split; [exact Hd |]. split; [rewrite Ht; reflexivity |].
        split; [exact Hf |].
        constructor; [| exact Hcs]. cbn [fst snd]. auto.
Qed.

(** C6: in one evaluation (one call of check_chains) every stored chain
    keeps its stages, its current_stage does not decrease and advances
    by at most one, only the stage at current_stage has its requirement
    called or is rewarded, and a completed chain produces no event and
    is left untouched.  The user data after the call is the user data
    before it with the rewards of the stages that the chains that moved
    were at, granted in the order of the chains, and nothing else; a
    chain moves only when it was not completed and the requirement of
    the stage at its current_stage answered True on the user data as the
    chain found it.  The stages a chain is not at play no part: with any
    other requirements (even raising ones) and rewards in their places,
    the call leaves the same user data, the same notifications, the same
    failure and the same progress.  Across any sequence of evaluations
    current_stage is non-decreasing, the stages of a chain are rewarded
    in consecutive order starting from its current_stage at the
    beginning (so stage k never before stage k-1), and a completed chain
    is never evaluated or changed again. *)
Theorem chains_advance_sequentially :
  (∀ (now : DateTime.datetime) (cs : list (string * AchievementChain))
     (u : UserData),
      NoDup (cs.*1) →
      Forall2
        (fun x y : string * AchievementChain =>
           fst x = fst y ∧
           one_evaluation (snd x)
             (events_of (fst x) (trace (check_chains now cs u))) (snd y))
        cs (chains_after (check_chains now cs u))) ∧
  (∀ (now : DateTime.datetime) (cs : list (string * AchievementChain))
     (u : UserData),
      data_after (check_chains now cs u)
      = data_seen cs (chains_after (check_chains now cs u)) u (length cs) ∧
      ∀ (i : nat) (x y : string * AchievementChain),
        cs !! i = Some x →
        chains_after (check_chains now cs u) !! i = Some y →
        current_stage (snd y) ≠ current_stage (snd x) →
        completed (snd x) = false ∧
        ∃ stage : Stage,
          stages (snd x) !! current_stage (snd x) = Some stage ∧
          requirement stage
            (data_seen cs (chains_after (check_chains now cs u)) u i)
          = inr true) ∧
  (∀ (now : DateTime.datetime) (cs1 cs2 : list (string * AchievementChain))
     (u : UserData),
      Forall2
        (fun x y : string * AchievementChain =>
           fst x = fst y ∧ same_current_stage (snd x) (snd y)) cs1 cs2 →
      data_after (check_chains now cs1 u)
      = data_after (check_chains now cs2 u) ∧
      trace (check_chains now cs1 u) = trace (check_chains now cs2 u) ∧
      failure (check_chains now cs1 u) = failure (check_chains now cs2 u) ∧
      Forall2
        (fun x y : string * AchievementChain =>
           fst x = fst y ∧ same_progress (snd x) (snd y))
        (chains_after (check_chains now cs1 u))
        (chains_after (check_chains now cs2 u))) ∧
  (∀ (cs cs' : list (string * AchievementChain))
     (tr : list (string * chain_event)),
      NoDup (cs.*1) →
      evaluations cs tr cs' →
      Forall2
        (fun x y : string * AchievementChain =>
           fst x = fst y ∧
           many_evaluations (snd x) (events_of (fst x) tr) (snd y))
        cs cs').
Proof.
  split; [| split; [| split]].
  - intros now cs u Hnd. apply check_chains_step, Hnd.
  - intros now cs u. apply check_chains_data.
  - intros now cs1 cs2 u Hsame. apply check_chains_other_stages, Hsame.
  - intros cs cs' tr Hnd Hrun. apply evaluations_run; assumption.
Qed.

Lemma load_chain_progress_keys :
  NoDup (load_chain_progress.*1).
Proof.
  cbn.
  repeat (apply NoDup_cons_2;
          [ rewrite ?elem_of_cons, elem_of_nil;
            intros H; repeat destruct H as [H | H];
            try discriminate H; exact H |]).
  apply NoDup_nil_2.
Defined.

Lemma trapped_chains_same :
  Forall2
    (fun x y : string * AchievementChain =>
       fst x = fst y ∧ same_current_stage (snd x) (snd y))
    load_chain_progress trapped_chains.
Proof.
  unfold load_chain_progress, trapped_chains.
  repeat (constructor;
          [split; [reflexivity |];
           unfold same_current_stage, same_progress; cbn;
           repeat (apply conj); reflexivity |]).
  constructor.
Defined.

Lemma chains_advance_sequentially_witness :
  let r := check_chains 1%Z load_chain_progress athlete in
  Forall2
    (fun x y : string * AchievementChain =>
       fst x = fst y ∧
       one_evaluation (snd x) (events_of (fst x) (trace r)) (snd y))
    load_chain_progress (chains_after r) ∧
  (completed (snd physical_mastery) = false ∧
   ∃ stage : Stage,
     stages (snd physical_mastery) !! current_stage (snd physical_mastery)
     = Some stage ∧
     requirement stage (data_seen load_chain_progress (chains_after r) athlete 0)
     = inr true) ∧
  data_after r
  = data_seen load_chain_progress (chains_after r) athlete
              (length load_chain_progress) ∧
  (data_after r = data_after (check_chains 1%Z trapped_chains athlete) ∧
   trace r = trace (check_chains 1%Z trapped_chains athlete) ∧
   failure r = failure (check_chains 1%Z trapped_chains athlete) ∧
   Forall2
     (fun x y : string * AchievementChain =>
        fst x = fst y ∧ same_progress (snd x) (snd y))
     (chains_after r) (chains_after (check_chains 1%Z trapped_chains athlete))) ∧
  Forall2
    (fun x y : string * AchievementChain =>
       fst x = fst y ∧
       many_evaluations (snd x) (events_of (fst x) (trace r ++ [])) (snd y))
    load_chain_progress (chains_after r).
Proof.
  intros r.
  destruct chains_advance_sequentially as (Hone & Hdata & Hother & Hmany).
  split; [| split; [| split; [| split]]].
  - apply (Hone 1%Z load_chain_progress athlete).
    exact load_chain_progress_keys.
  - apply (proj2 (Hdata 1%Z load_chain_progress athlete) 0%nat
                 physical_mastery
                 ("physical_mastery",
                  advance (start 1%Z (snd physical_mastery)))).
    + reflexivity.
    + reflexivity.
    + cbn. discriminate.
  - apply (proj1 (Hdata 1%Z load_chain_progress athlete)).
  - apply (Hother 1%Z load_chain_progress trapped_chains athlete).
    exact trapped_chains_same.
  - apply (Hmany load_chain_progress).
    + exact load_chain_progress_keys.
    + apply evaluations_next, evaluations_done.
Defined.

(** The reward granted is the one of the stage the chain is at: an
    athlete at 600 Physical points satisfies every stage of Physical
    Mastery, and the first evaluation grants the 10 points of the first
    stage, not the 25 of the second. *)
Example athlete_first_reward :
  let r := check_chains 1%Z load_chain_progress athlete in
  attributes athlete !! "Physical" = Some 600%Q ∧
  attributes (data_after r) !! "Physical" = Some (600 + 10)%Q ∧
  attributes (data_after r) !! "Health" = attributes athlete !! "Health".
Proof.
  cbv zeta.
  split; [vm_compute; reflexivity |].
  split; vm_compute; reflexivity.
Qed.

(** A user whose Physical value already satisfies all three stages of
    Physical Mastery is still taken through them one evaluation at a
    time; the fourth evaluation finds the chain completed. *)
Example athlete_four_evaluations :
  let r1 := check_chains 1%Z load_chain_progress athlete in
  let r2 := check_chains 2%Z (chains_after r1) (data_after r1) in
  let r3 := check_chains 3%Z (chains_after r2) (data_after r2) in
  let r4 := check_chains 4%Z (chains_after r3) (data_after r3) in
  events_of "physical_mastery" (trace r1)
  = [StageChecked 0; StageRewarded 0] ∧
  events_of "physical_mastery" (trace r2)
  = [StageChecked 1; StageRewarded 1] ∧
  events_of "physical_mastery" (trace r3)
  = [StageChecked 2; StageRewarded 2; ChainCompleted] ∧
  events_of "physical_mastery" (trace r4) = [] ∧
  map (fun x : string * AchievementChain =>
         (current_stage (snd x), completed (snd x)))
      (chains_after r4)
  = [(3%nat, true); (0%nat, false); (0%nat, false)].
Proof.
  cbv zeta.
  split; [vm_compute; reflexivity |].
  split; [vm_compute; reflexivity |].
  split; [vm_compute; reflexivity |].
  split; vm_compute; reflexivity.
Qed.

(** The requirement of Routine Master reads [user_data["tasks"]], a key
    the engine never stores: with a streak of 30 its evaluation raises. *)
Example routine_master_raises :
  let u := mkUserData DataManager.initial_attributes 30 (Some 0%Z) None
                      (Some DataManager.initial_multipliers) None
                      (Some []) None in
  let r1 := check_chains 1%Z load_chain_progress u in
  let r2 := check_chains 2%Z (chains_after r1) (data_after r1) in
  failure r1 = None ∧
  events_of "consistency_king" (trace r1)
  = [StageChecked 0; StageRewarded 0] ∧
  failure r2 = Some (Py.KeyError "tasks") ∧
  events_of "consistency_king" (trace r2) = [StageChecked 1].
Proof.
  cbv zeta.
  split; [vm_compute; reflexivity |].
  split; [vm_compute; reflexivity |].
  split; vm_compute; reflexivity.
Qed.

End Chains.

(** ** Task creation, removal and completion *)

Section TaskCreationProperties.
Import TaskManager TaskCreation.

Variable lower : string → string.
Variable timestamp : DateTime.datetime → string.

Lemma stored_values (stored : gmap string Task) (t : Task) :
  In t (map snd (map_to_list stored)) ↔ ∃ i : string, stored !! i = Some t.
Proof.
  rewrite in_map_iff. split.
  - intros ((i & t') & Hs & Hin). cbn [snd] in Hs. subst t'. exists i.
    apply elem_of_map_to_list, list_elem_of_In, Hin.
  - intros (i & Hi). exists (i, t). split; [reflexivity |].
    apply list_elem_of_In, elem_of_map_to_list, Hi.
Qed.

(** When the comprehension succeeds, every task has a name and the list
    holds exactly the lowered names. *)
Lemma existing_names_Some (stored : gmap string Task) (names : list string) :
  existing_names lower stored = Some names →
  all_named stored ∧
  ∀ x : string,
    In x names ↔
    ∃ (i : string) (t : Task) (n : string),
      stored !! i = Some t ∧ task_name t = Some n ∧ x = lower n.
Proof.
  unfold existing_names. intros H. apply mapM_Some_1 in H. split.
  - intros j t Hj.
    assert (Hin : In t (map snd (map_to_list stored)))
      by (apply stored_values; eauto).
    apply list_elem_of_In, list_elem_of_lookup_1 in Hin as (k & Hk).
    destruct (Forall2_lookup_l _ _ _ _ _ H Hk) as (y & _ & Hy).
    destruct (task_name t); [eauto | discriminate Hy].
  - intros x. split.
    + intros Hx. apply list_elem_of_In, list_elem_of_lookup_1 in Hx as (k & Hk).
      destruct (Forall2_lookup_r _ _ _ _ _ H Hk) as (t & Ht & Hy).
      apply list_elem_of_lookup_2, list_elem_of_In, stored_values in Ht
        as (i & Hi).
      destruct (task_name t) as [n |] eqn:Hn; [| discriminate Hy].
      cbn in Hy. injection Hy as <-. eauto 6.
    + intros (i & t & n & Hi & Hn & ->).
      assert (Hin : In t (map snd (map_to_list stored)))
        by (apply stored_values; eauto).
      apply list_elem_of_In, list_elem_of_lookup_1 in Hin as (k & Hk).
      destruct (Forall2_lookup_l _ _ _ _ _ H Hk) as (y & Hy & Hf).
      rewrite Hn in Hf. cbn in Hf. injection Hf as <-.
      apply list_elem_of_In. eapply list_elem_of_lookup_2, Hy.
Qed.

(** The comprehension raises exactly when a task has no name. *)
Lemma existing_names_None (stored : gmap string Task) :
  existing_names lower stored = None ↔
  ∃ (i : string) (t : Task), stored !! i = Some t ∧ task_name t = None.
Proof.
  unfold existing_names. rewrite mapM_None, Exists_exists. split.
  - intros (t & Hin & Hf).
    apply list_elem_of_In, stored_values in Hin as (i & Hi).
    exists i, t. split; [exact Hi |].
    destruct (task_name t); [discriminate Hf | reflexivity].
  - intros (i & t & Hi & Hn). exists t. split.
    + apply list_elem_of_In, stored_values. eauto.
    + rewrite Hn. reflexivity.
Qed.

Lemma all_named_existing_names (stored : gmap string Task) :
  all_named stored → is_Some (existing_names lower stored).
Proof.
  intros Hall. destruct (existing_names lower stored) eqn:He; [eauto |].
  apply existing_names_None in He as (i & t & Hi & Hn).
  destruct (Hall i t Hi) as [n Hsome]. congruence.
Qed.

Lemma check_duplicate_task_true (name category : string) (ts : TaskStore)
    (stored : gmap string Task) (i : string) (t : Task) (n : string) :
  ts !! category = Some stored →
  all_named stored →
  stored !! i = Some t →
  task_name t = Some n →
  lower n = lower name →
  check_duplicate_task lower name category ts = true.
Proof.
  intros Hc Hall Hi Hn Hl. unfold check_duplicate_task. rewrite Hc.
  destruct (all_named_existing_names stored Hall) as [names Hnames].
  rewrite Hnames. apply existsb_exists.
  exists (lower name). split; [| apply String.eqb_refl].
  apply (proj2 (existing_names_Some stored names Hnames)).
  exists i, t, n. auto.
Qed.

(** A task without a name makes the check fail in its handler. *)
Lemma check_duplicate_task_nameless (name category : string) (ts : TaskStore)
    (stored : gmap string Task) (i : string) (t : Task) :
  ts !! category = Some stored →
  stored !! i = Some t →
  task_name t = None →
  check_duplicate_task lower name category ts = false.
Proof.
  intros Hc Hi Hn. unfold check_duplicate_task. rewrite Hc.
  rewrite (proj2 (existing_names_None stored)); [reflexivity | eauto].
Qed.

Lemma check_duplicate_task_true_inv (name category : string) (ts : TaskStore) :
  check_duplicate_task lower name category ts = true →
  ∃ stored : gmap string Task,
    ts !! category = Some stored ∧
    all_named stored ∧
    ∃ (i : string) (t : Task) (n : string),
      stored !! i = Some t ∧ task_name t = Some n ∧ lower n = lower name.
Proof.
  unfold check_duplicate_task. intros H.
  destruct (ts !! category) as [stored |]; [| discriminate H].
  destruct (existing_names lower stored) as [names |] eqn:Hnames;
    [| discriminate H].
  destruct (existing_names_Some stored names Hnames) as [Hall Hmem].
  apply existsb_exists in H as (x & Hin & Heq).
  apply String.eqb_eq in Heq. subst x.
  apply Hmem in Hin as (i & t & n & Hi & Hn & Hl).
  exists stored. split; [reflexivity |]. split; [exact Hall |].
  exists i, t, n. auto.
Qed.

Lemma check_duplicate_task_false (name category : string) (ts : TaskStore) :
  (∀ (stored : gmap string Task) (i : string) (t : Task) (n : string),
      ts !! category = Some stored →
      stored !! i = Some t → task_name t = Some n → lower n ≠ lower name) →
  check_duplicate_task lower name category ts = false.
Proof.
  intros Hall. apply not_true_is_false. intros Htrue.
  apply check_duplicate_task_true_inv in Htrue
    as (stored & Hc & _ & i & t & n & Hi & Hn & Hl).
  exact (Hall stored i t n Hc Hi Hn Hl).
Qed.

(** What a successful creation is, in one equation. *)
Lemma create_task_created
    (now : DateTime.datetime) (name description category attribute : string)
    (frequency : Z) (s s' : Session) (uid : string) :
  create_task lower timestamp now name description category attribute
              frequency s = (Created uid, s') →
  name ≠ EmptyString ∧
  check_duplicate_task lower name category (tasks s) = false ∧
  uid = unique_id timestamp category now ∧
  s' = mkSession (user_data s)
         (<[category :=
              <[uid := new_task timestamp now name description category attribute
                                frequency]>
                (default ∅ (tasks s !! category))]> (tasks s)).
Proof.
  unfold create_task. intros H.
  destruct (String.eqb_spec name EmptyString) as [? | Hname];
    [discriminate H |].
  destruct (check_duplicate_task lower name category (tasks s)) eqn:Hdup;
    [discriminate H |].
  injection H as <- <-.
  split; [exact Hname |]. split; [reflexivity |]. split; [reflexivity |].
  f_equal.
  destruct (tasks s !! category) as [stored |] eqn:Hc.
  - rewrite Hc. reflexivity.
  - rewrite lookup_insert_eq. cbn [default]. unfold Datatypes.id.
    apply insert_insert_eq.
Qed.

Lemma create_task_fresh_name
    (now : DateTime.datetime) (name description category attribute : string)
    (frequency : Z) (s : Session) :
  name ≠ EmptyString →
  check_duplicate_task lower name category (tasks s) = false →
  create_task lower timestamp now name description category attribute
              frequency s
  = (Created (unique_id timestamp category now),
     mkSession (user_data s)
       (<[category :=
            <[unique_id timestamp category now :=
                new_task timestamp now name description category attribute
                         frequency]>
              (default ∅ (tasks s !! category))]> (tasks s))).
Proof.
  intros Hname Hdup. unfold create_task.
  destruct (String.eqb_spec name EmptyString) as [? | _]; [congruence |].
  rewrite Hdup. f_equal. f_equal.
  destruct (tasks s !! category) as [stored |] eqn:Hc.
  - rewrite Hc. reflexivity.
  - rewrite lookup_insert_eq. cbn [default]. unfold Datatypes.id.
    apply insert_insert_eq.
Qed.

(** The tasks of a category after a creation all have a name when the
    ones before had. *)
Lemma all_named_after_create
    (now : DateTime.datetime) (name description category attribute : string)
    (frequency : Z) (stored : gmap string Task) (uid : string) :
  all_named stored →
  all_named (<[uid := new_task timestamp now name description category
                               attribute frequency]> stored).
Proof.
  intros Hall j t Hj. destruct (decide (j = uid)) as [-> | Hne].
  - rewrite lookup_insert_eq in Hj. injection Hj as <-.
    cbn [task_name new_task]. eauto.
  - rewrite lookup_insert_ne in Hj by congruence. exact (Hall j t Hj).
Qed.

(** X1: when every stored task of the category has a name, create_task
    refuses a non-empty name that one of them already has up to letter
    case: it answers "This task already exists!" (returns False) and
    leaves the session unchanged.  When some stored task of the category
    has no name, the duplicate check ends in its error handler and
    answers False, so create_task stores the task whatever the names of
    the others are. *)
Theorem create_task_rejects_duplicate
    (now : DateTime.datetime) (name description category attribute : string)
    (frequency : Z) (s : Session) (stored : gmap string Task) :
  name ≠ EmptyString →
  tasks s !! category = Some stored →
  (all_named stored →
   ∀ (i : string) (t : Task) (n : string),
     stored !! i = Some t → task_name t = Some n → lower n = lower name →
     create_task lower timestamp now name description category attribute
                 frequency s
     = (DuplicateName, s) ∧
     created DuplicateName = false) ∧
  (∀ (j : string) (t' : Task),
     stored !! j = Some t' → task_name t' = None →
     create_task lower timestamp now name description category attribute
                 frequency s
     = (Created (unique_id timestamp category now),
        mkSession (user_data s)
          (<[category :=
               <[unique_id timestamp category now :=
                   new_task timestamp now name description category attribute
                            frequency]> stored]> (tasks s)))).
Proof.
  intros Hname Hc. split.
  - intros Hall i t n Hi Hn Hl. split; [| reflexivity]. unfold create_task.
    destruct (String.eqb_spec name EmptyString) as [? | _]; [congruence |].
    rewrite (check_duplicate_task_true _ _ _ _ _ _ _ Hc Hall Hi Hn Hl).
    reflexivity.
  - intros j t' Hj Hn.
    rewrite create_task_fresh_name.
    + rewrite Hc. reflexivity.
    + exact Hname.
    + exact (check_duplicate_task_nameless _ _ _ _ _ _ Hc Hj Hn).
Qed.

(** A successful create_task stores, under the id
    "<category>_<timestamp>", a task that is not completed and is worth
    [frequency] points in the weekly category and 1 point elsewhere; the
    user data, the other categories and the other ids of the category are
    left as they were. *)
Theorem create_task_stores_task
    (now : DateTime.datetime) (name description category attribute : string)
    (frequency : Z) (s s' : Session) (uid : string) :
  create_task lower timestamp now name description category attribute
              frequency s = (Created uid, s') →
  uid = unique_id timestamp category now ∧
  user_data s' = user_data s ∧
  (∀ c : string, c ≠ category → tasks s' !! c = tasks s !! c) ∧
  ∃ stored' : gmap string Task,
    tasks s' !! category = Some stored' ∧
    stored' !! uid
    = Some (mkTask uid (Some name) description category (Some attribute)
                   (Some (if String.eqb category "weekly"
                          then inject_Z frequency else 1%Q))
                   (Some false) None now) ∧
    (∀ j : string,
        j ≠ uid → stored' !! j = default ∅ (tasks s !! category) !! j).
Proof.
  intros H.
  destruct (create_task_created _ _ _ _ _ _ _ _ _ H) as (_ & _ & Huid & ->).
  split; [exact Huid |]. split; [reflexivity |]. split.
  - intros c Hne. cbn [tasks]. apply lookup_insert_ne. congruence.
  - eexists. split; [cbn [tasks]; apply lookup_insert_eq |]. split.
    + rewrite lookup_insert_eq. unfold new_task. rewrite <- Huid. reflexivity.
    + intros j Hne. apply lookup_insert_ne. congruence.
Qed.

(** X3: in a category whose stored tasks all have a name, once a task has
    been created, creating a task with the same name (up to letter case)
    is rejected as a duplicate and changes nothing. *)
Theorem create_task_same_name_again
    (now now2 : DateTime.datetime)
    (name name2 description description2 category attribute attribute2 : string)
    (frequency frequency2 : Z) (s s' : Session) (uid : string) :
  all_named (default ∅ (tasks s !! category)) →
  create_task lower timestamp now name description category attribute
              frequency s = (Created uid, s') →
  name2 ≠ EmptyString →
  lower name2 = lower name →
  create_task lower timestamp now2 name2 description2 category attribute2
              frequency2 s'
  = (DuplicateName, s').
Proof.
  intros Hall H Hname2 Hl.
  destruct (create_task_created _ _ _ _ _ _ _ _ _ H) as (_ & _ & _ & ->).
  unfold create_task.
  destruct (String.eqb_spec name2 EmptyString) as [? | _]; [congruence |].
  erewrite check_duplicate_task_true; [reflexivity | | | | |].
  - cbn [tasks]. apply lookup_insert_eq.
  - apply all_named_after_create, Hall.
  - apply lookup_insert_eq.
  - cbn [task_name new_task]. reflexivity.
  - congruence.
Qed.

(** X4: completing a task right after creating it succeeds and awards the
    points it was created with (frequency for a weekly task, 1 otherwise)
    times the job multiplier: that product is added to the attribute the
    task was created for, every other attribute keeps its value, and the
    stored task is left marked completed at the time of the call. *)
Theorem create_then_complete_awards
    (now now2 : DateTime.datetime)
    (name description category attribute : string) (frequency : Z)
    (task : Task) (s s1 : Session) (uid : string) :
  create_task lower timestamp now name description category attribute
              frequency s = (Created uid, s1) →
  let pts :=
    ((if String.eqb category "weekly" then inject_Z frequency else 1)
     * Py.get (default ∅ (multipliers (user_data s))) "job" 1)%Q in
  ∃ (s2 : Session) (stored2 : gmap string Task) (t2 : Task),
    complete_task now2 uid task category s1 = (Awarded pts attribute, s2) ∧
    attributes (user_data s2) !! attribute
    = Some (Py.get (attributes (user_data s)) attribute 0 + pts)%Q ∧
    (∀ a : string,
        a ≠ attribute →
        attributes (user_data s2) !! a = attributes (user_data s) !! a) ∧
    tasks s2 !! category = Some stored2 ∧
    stored2 !! uid = Some t2 ∧
    task_completed t2 = Some true ∧
    task_completed_at t2 = Some now2 ∧
    task_points t2
    = Some (if String.eqb category "weekly" then inject_Z frequency else 1%Q) ∧
    task_attribute t2 = Some attribute.
Proof.
  intros H pts.
  destruct (create_task_created _ _ _ _ _ _ _ _ _ H) as (_ & _ & _ & ->).
  unfold complete_task. cbn [tasks user_data].
  rewrite lookup_insert_eq. rewrite lookup_insert_eq.
  unfold is_completed. cbn [task_completed task_attribute new_task default].
  unfold Datatypes.id.
  eexists _, _, _. split; [reflexivity |].
  cbn [user_data attributes set_attributes tasks].
  split; [apply lookup_insert_eq |].
  split; [intros a Hne; apply lookup_insert_ne; congruence |].
  split; [apply lookup_insert_eq |].
  split; [apply lookup_insert_eq |].
  cbn. auto.
Qed.

(** X5: creating a task under an id the category did not hold yet and
    removing it again gives back the session as it was before both. *)
Theorem create_then_remove_restores
    (now : DateTime.datetime) (name description category attribute : string)
    (frequency : Z) (s s1 : Session) (uid : string)
    (stored : gmap string Task) :
  tasks s !! category = Some stored →
  stored !! unique_id timestamp category now = None →
  create_task lower timestamp now name description category attribute
              frequency s = (Created uid, s1) →
  remove_task uid category s1 = (Rerun, s).
Proof.
  intros Hc Hfresh H.
  destruct (create_task_created _ _ _ _ _ _ _ _ _ H) as (_ & _ & -> & ->).
  unfold remove_task. cbn [tasks user_data].
  rewrite lookup_insert_eq. rewrite lookup_insert_eq.
  rewrite Hc. cbn [default]. unfold Datatypes.id.
  rewrite delete_insert_id by exact Hfresh.
  rewrite insert_insert_eq. rewrite insert_id by exact Hc.
  destruct s. reflexivity.
Qed.

(** X6: task ids are only as unique as the clock: a second task created in
    the same category at the same instant takes the id of the first and
    replaces it, so that the session ends up as if only the second task had
    been created.  (The task that the first creation replaced, if there
    was one, is taken to have had a name.) *)
Theorem create_task_same_instant_replaces
    (now : DateTime.datetime)
    (name name2 description description2 category attribute attribute2 : string)
    (frequency frequency2 : Z) (s s1 : Session) (uid : string) :
  create_task lower timestamp now name description category attribute
              frequency s = (Created uid, s1) →
  name2 ≠ EmptyString →
  lower name2 ≠ lower name →
  check_duplicate_task lower name2 category (tasks s) = false →
  (∀ (stored : gmap string Task) (t : Task),
      tasks s !! category = Some stored → stored !! uid = Some t →
      is_Some (task_name t)) →
  create_task lower timestamp now name2 description2 category attribute2
              frequency2 s1
  = create_task lower timestamp now name2 description2 category attribute2
                frequency2 s ∧
  created (fst (create_task lower timestamp now name2 description2 category
                            attribute2 frequency2 s)) = true.
Proof.
  intros H Hname2 Hne Hdup Hold.
  destruct (create_task_created _ _ _ _ _ _ _ _ _ H) as (_ & _ & Huid & Hs1).
  assert (Hdup1 : check_duplicate_task lower name2 category (tasks s1) = false).
  { rewrite Hs1. cbn [tasks].
    destruct (tasks s !! category) as [stored |] eqn:Hc; cbn [default];
      unfold Datatypes.id.
    - destruct (existing_names lower stored) as [names |] eqn:Hnames.
      + (* every task had a name: none of them matches *)
        apply check_duplicate_task_false. intros st i t n Hst Hi Hn Hl.
        rewrite lookup_insert_eq in Hst. injection Hst as <-.
        destruct (decide (i = uid)) as [-> | Hiu].
        * rewrite lookup_insert_eq in Hi. injection Hi as <-.
          cbn [task_name new_task] in Hn. congruence.
        * rewrite lookup_insert_ne in Hi by congruence.
          destruct (existing_names_Some stored names Hnames) as [Hall _].
          rewrite (check_duplicate_task_true name2 category (tasks s) stored
                     i t n Hc Hall Hi Hn Hl) in Hdup.
          discriminate Hdup.
      + (* a task without a name stays in the category *)
        apply existing_names_None in Hnames as (j & t & Hj & Hn).
        assert (Hju : j ≠ uid).
        { intros ->. destruct (Hold stored t eq_refl Hj) as [n Hsome].
          congruence. }
        eapply (check_duplicate_task_nameless name2 category _ _ j t).
        * apply lookup_insert_eq.
        * rewrite lookup_insert_ne by congruence. exact Hj.
        * exact Hn.
    - apply check_duplicate_task_false. intros st i t n Hst Hi Hn Hl.
      rewrite lookup_insert_eq in Hst. injection Hst as <-.
      destruct (decide (i = uid)) as [-> | Hiu].
      + rewrite lookup_insert_eq in Hi. injection Hi as <-.
        cbn [task_name new_task] in Hn. congruence.
      + rewrite lookup_insert_ne in Hi by congruence.
        rewrite lookup_empty in Hi. discriminate Hi. }
  rewrite (create_task_fresh_name now name2 description2 category attribute2
             frequency2 s1 Hname2 Hdup1).
  rewrite (create_task_fresh_name now name2 description2 category attribute2
             frequency2 s Hname2 Hdup).
  split; [| reflexivity]. subst s1 uid. cbn [tasks user_data]. do 2 f_equal.
  rewrite lookup_insert_eq. cbn [default]. unfold Datatypes.id.
  rewrite !insert_insert_eq. reflexivity.
Qed.

End TaskCreationProperties.

Lemma create_task_rejects_duplicate_witness :
  (TaskCreation.create_task ascii_lower demo_timestamp 10%Z "RUN" "again"
                            "daily" "Health" 1 one_task_session
   = (TaskCreation.DuplicateName, one_task_session) ∧
   TaskCreation.created TaskCreation.DuplicateName = false) ∧
  TaskCreation.create_task ascii_lower demo_timestamp 10%Z "RUN" "again"
                           "daily" "Health" 1 (with_daily_task nameless_task)
  = (TaskCreation.Created "daily_10.0",
     mkSession (user_data (with_daily_task nameless_task))
       (<["daily" :=
            <["daily_10.0" :=
                TaskCreation.new_task demo_timestamp 10%Z "RUN" "again" "daily"
                                      "Health" 1]>
              (<["daily_8" := nameless_task]> {["daily_1" := run_task]})]>
          (tasks (with_daily_task nameless_task)))).
Proof.
  split.
  - refine (proj1 (create_task_rejects_duplicate ascii_lower demo_timestamp
                     10%Z "RUN" "again" "daily" "Health" 1%Z one_task_session
                     {["daily_1" := run_task]} _ _)
                  _ "daily_1" run_task "Run" _ _ _).
    + discriminate.
    + vm_compute. reflexivity.
    + intros j t Hj. apply lookup_singleton_Some in Hj as [_ <-].
      eexists. reflexivity.
    + vm_compute. reflexivity.
    + reflexivity.
    + vm_compute. reflexivity.
  - refine (proj2 (create_task_rejects_duplicate ascii_lower demo_timestamp
                     10%Z "RUN" "again" "daily" "Health" 1%Z
                     (with_daily_task nameless_task)
                     (<["daily_8" := nameless_task]> {["daily_1" := run_task]})
                     _ _)
                  "daily_8" nameless_task _ _).
    + discriminate.
    + vm_compute. reflexivity.
    + vm_compute. reflexivity.
    + reflexivity.
Defined.

Lemma create_task_stores_task_witness :
  let r := TaskCreation.create_task ascii_lower demo_timestamp 10%Z "Read"
             "twice a week" "weekly" "Intelligence" 2 one_task_session in
  "weekly_10.0" = TaskCreation.unique_id demo_timestamp "weekly" 10%Z ∧
  user_data (snd r) = user_data one_task_session ∧
  (∀ c : string, c ≠ "weekly" →
                 tasks (snd r) !! c = tasks one_task_session !! c) ∧
  ∃ stored' : gmap string Task,
    tasks (snd r) !! "weekly" = Some stored' ∧
    stored' !! "weekly_10.0"
    = Some (mkTask "weekly_10.0" (Some "Read") "twice a week" "weekly"
                   (Some "Intelligence")
                   (Some (if String.eqb "weekly" "weekly"
                          then inject_Z 2 else 1%Q))
                   (Some false) None 10%Z) ∧
    (∀ j : string,
        j ≠ "weekly_10.0" →
        stored' !! j = default ∅ (tasks one_task_session !! "weekly") !! j).
Proof.
  intros r.
  apply (create_task_stores_task ascii_lower demo_timestamp 10%Z "Read"
           "twice a week" "weekly" "Intelligence" 2%Z one_task_session
           (snd r) "weekly_10.0").
  subst r. vm_compute. reflexivity.
Defined.

Lemma create_task_same_name_again_witness :
  let s1 := snd (TaskCreation.create_task ascii_lower demo_timestamp 10%Z
                   "Read" "twice a week" "weekly" "Intelligence" 2
                   one_task_session) in
  TaskCreation.create_task ascii_lower demo_timestamp 20%Z "READ" "more"
                           "weekly" "Creativity" 3 s1
  = (TaskCreation.DuplicateName, s1).
Proof.
  intros s1.
  apply (create_task_same_name_again ascii_lower demo_timestamp 10%Z 20%Z
           "Read" "READ" "twice a week" "more" "weekly" "Intelligence"
           "Creativity" 2%Z 3%Z one_task_session s1 "weekly_10.0").
  - intros j t Hj. vm_compute in Hj. discriminate Hj.
  - subst s1. vm_compute. reflexivity.
  - discriminate.
  - vm_compute. reflexivity.
Defined.

Lemma create_then_complete_awards_witness :
  let s1 := snd (TaskCreation.create_task ascii_lower demo_timestamp 10%Z
                   "Read" "twice a week" "weekly" "Intelligence" 2
                   boosted_session) in
  let pts :=
    ((if String.eqb "weekly" "weekly" then inject_Z 2 else 1)
     * Py.get (default ∅ (multipliers (user_data boosted_session))) "job" 1)%Q
  in
  ∃ (s2 : Session) (stored2 : gmap string Task) (t2 : Task),
    TaskManager.complete_task 20%Z "weekly_10.0" run_task "weekly" s1
    = (TaskManager.Awarded pts "Intelligence", s2) ∧
    attributes (user_data s2) !! "Intelligence"
    = Some (Py.get (attributes (user_data boosted_session)) "Intelligence" 0
            + pts)%Q ∧
    (∀ a : string,
        a ≠ "Intelligence" →
        attributes (user_data s2) !! a
        = attributes (user_data boosted_session) !! a) ∧
    tasks s2 !! "weekly" = Some stored2 ∧
    stored2 !! "weekly_10.0" = Some t2 ∧
    task_completed t2 = Some true ∧
    task_completed_at t2 = Some 20%Z ∧
    task_points t2
    = Some (if String.eqb "weekly" "weekly" then inject_Z 2 else 1%Q) ∧
    task_attribute t2 = Some "Intelligence".
Proof.
  intros s1.
  apply (create_then_complete_awards ascii_lower demo_timestamp 10%Z 20%Z
           "Read" "twice a week" "weekly" "Intelligence" 2%Z run_task
           boosted_session s1 "weekly_10.0").
  subst s1. vm_compute. reflexivity.
Defined.

(** The same at its numbers: a weekly task created with frequency 2 under
    job multiplier 1.5 moves Intelligence from 0 to 3. *)
Example create_then_complete_three_points :
  let s1 := snd (TaskCreation.create_task ascii_lower demo_timestamp 10%Z
                   "Read" "twice a week" "weekly" "Intelligence" 2
                   boosted_session) in
  let s2 := snd (TaskManager.complete_task 20%Z "weekly_10.0" run_task
                                           "weekly" s1) in
  attributes (user_data s1) !! "Intelligence" = Some 0%Q ∧
  attributes (user_data s2) !! "Intelligence" = Some (0 + 2 * 1.5)%Q ∧
  (0 + 2 * 1.5 == 3)%Q.
Proof.
  cbv zeta.
  split; [vm_compute; reflexivity |].
  split; [vm_compute; reflexivity |]. reflexivity.
Qed.

Lemma create_then_remove_restores_witness :
  let s1 := snd (TaskCreation.create_task ascii_lower demo_timestamp 10%Z
                   "Read" "twice a week" "weekly" "Intelligence" 2
                   one_task_session) in
  TaskManager.remove_task "weekly_10.0" "weekly" s1
  = (TaskManager.Rerun, one_task_session).
Proof.
  intros s1.
  apply (create_then_remove_restores ascii_lower demo_timestamp 10%Z "Read"
           "twice a week" "weekly" "Intelligence" 2%Z one_task_session s1
           "weekly_10.0" ∅).
  - vm_compute. reflexivity.
  - apply lookup_empty.
  - subst s1. vm_compute. reflexivity.
Defined.

Lemma create_task_same_instant_replaces_witness :
  let s1 := snd (TaskCreation.create_task ascii_lower demo_timestamp 10%Z
                   "Read" "twice a week" "weekly" "Intelligence" 2
                   one_task_session) in
  TaskCreation.create_task ascii_lower demo_timestamp 10%Z "Paint" "once"
                           "weekly" "Creativity" 1 s1
  = TaskCreation.create_task ascii_lower demo_timestamp 10%Z "Paint" "once"
                             "weekly" "Creativity" 1 one_task_session ∧
  TaskCreation.created
    (fst (TaskCreation.create_task ascii_lower demo_timestamp 10%Z "Paint"
            "once" "weekly" "Creativity" 1 one_task_session)) = true.
Proof.
  intros s1.
  apply (create_task_same_instant_replaces ascii_lower demo_timestamp 10%Z
           "Read" "Paint" "twice a week" "once" "weekly" "Intelligence"
           "Creativity" 2%Z 1%Z one_task_session s1 "weekly_10.0").
  - subst s1. vm_compute. reflexivity.
  - discriminate.
  - vm_compute. discriminate.
  - vm_compute. reflexivity.
  - intros stored t Hc Ht.
    assert (Hw : tasks one_task_session !! "weekly" = Some ∅)
      by (vm_compute; reflexivity).
    rewrite Hw in Hc. injection Hc as <-.
    rewrite lookup_empty in Ht. discriminate Ht.
Defined.

(** Without a name on the task that the first creation replaces, the two
    creations differ: the first turns the handler path of the duplicate
    check into a working check, which then rejects the second name. *)
Example create_task_over_nameless_task :
  let t0 := mkTask "daily_10.0" None EmptyString "daily" (Some "Health")
                   (Some 1%Q) (Some false) None 0%Z in
  let s := with_daily_task t0 in
  let s1 := snd (TaskCreation.create_task ascii_lower demo_timestamp 10%Z
                   "Read" "first" "daily" "Intelligence" 1 s) in
  fst (TaskCreation.create_task ascii_lower demo_timestamp 10%Z
         "Read" "first" "daily" "Intelligence" 1 s)
  = TaskCreation.Created "daily_10.0" ∧
  TaskCreation.check_duplicate_task ascii_lower "run" "daily" (tasks s)
  = false ∧
  fst (TaskCreation.create_task ascii_lower demo_timestamp 10%Z
         "run" "second" "daily" "Physical" 1 s)
  = TaskCreation.Created "daily_10.0" ∧
  fst (TaskCreation.create_task ascii_lower demo_timestamp 10%Z
         "run" "second" "daily" "Physical" 1 s1)
  = TaskCreation.DuplicateName.
Proof.
  cbv zeta.
  split; [vm_compute; reflexivity |].
  split; [vm_compute; reflexivity |].
  split; vm_compute; reflexivity.
Qed.

Section TaskLedgerMore.
Import TaskManager.

(** X7: removing a task after it was completed deletes the task and keeps
    the points it earned: the attributes stay as the completion left them
    and the other tasks are untouched. *)
Theorem complete_then_remove_keeps_points
    (now : DateTime.datetime) (id category : string) (task : Task)
    (s s1 : Session) (pts : Q) (attr : string) :
  complete_task now id task category s = (Awarded pts attr, s1) →
  ∃ (s2 : Session) (stored stored2 : gmap string Task),
    remove_task id category s1 = (Rerun, s2) ∧
    user_data s2 = user_data s1 ∧
    attributes (user_data s2)
    = <[attr := (Py.get (attributes (user_data s)) attr 0 + pts)%Q]>
        (attributes (user_data s)) ∧
    tasks s !! category = Some stored ∧
    tasks s2 !! category = Some stored2 ∧
    stored2 !! id = None ∧
    (∀ j : string, j ≠ id → stored2 !! j = stored !! j) ∧
    (∀ c : string, c ≠ category → tasks s2 !! c = tasks s !! c).
Proof.
  intros H.
  destruct (complete_task_awarded _ _ _ _ _ _ _ _ H)
    as (stored & stored_task & Hc & Ht & _ & _ & _ & Htasks & Hattrs).
  unfold remove_task. rewrite Htasks.
  rewrite lookup_insert_eq. rewrite lookup_insert_eq.
  eexists _, stored, _. split; [reflexivity |].
  cbn [user_data tasks]. split; [reflexivity |]. split; [exact Hattrs |].
  split; [exact Hc |]. split; [apply lookup_insert_eq |].
  split; [apply lookup_delete_eq |]. split.
  - intros j Hne. rewrite lookup_delete_ne by congruence.
    apply lookup_insert_ne. congruence.
  - intros c Hne. rewrite lookup_insert_ne by congruence.
    apply lookup_insert_ne. congruence.
Qed.


(** X9: when no task is worth a negative number of points and the job
    multiplier is not negative, complete_task never lowers an attribute,
    and it keeps all attributes >= 0 if they were. *)
Theorem complete_task_never_lowers_attributes
    (now : DateTime.datetime) (id category : string) (task : Task)
    (s : Session) :
  (∀ (stored : gmap string Task) (t : Task),
      tasks s !! category = Some stored → stored !! id = Some t →
      (0 <= default 1 (task_points t))%Q) →
  (0 <= Py.get (default ∅ (multipliers (user_data s))) "job" 1)%Q →
  (∀ a : string,
      (Py.get (attributes (user_data s)) a 0
       <= Py.get (attributes
                    (user_data (snd (complete_task now id task category s))))
                 a 0)%Q) ∧
  (nonnegative (attributes (user_data s)) →
   nonnegative
     (attributes (user_data (snd (complete_task now id task category s))))).
Proof.
  intros Hpts Hjob. unfold complete_task.
  destruct (tasks s !! category) as [stored |] eqn:Hc;
    [| split; [intros a; apply Qle_refl | auto]].
  destruct (stored !! id) as [stored_task |] eqn:Ht;
    [| split; [intros a; apply Qle_refl | auto]].
  destruct (is_completed stored_task);
    [split; [intros a; apply Qle_refl | auto] |].
  destruct (task_attribute stored_task) as [attr |];
    [| split; [intros a; apply Qle_refl | auto]].
  cbn [snd user_data attributes set_attributes].
  specialize (Hpts stored stored_task eq_refl Ht).
  assert (Hprod : (0 <= default 1 (task_points stored_task)
                        * Py.get (default ∅ (multipliers (user_data s)))
                                 "job" 1)%Q)
    by (apply Qmult_le_0_compat; assumption).
  split.
  - intros a. unfold Py.get in *.
    destruct (decide (a = attr)) as [-> | Hne].
    + rewrite lookup_insert_eq. cbn [from_option]. unfold Datatypes.id.
      cbn [from_option] in Hprod. unfold Datatypes.id in Hprod. lra.
    + rewrite lookup_insert_ne by congruence. apply Qle_refl.
  - intros Hnn. apply map_Forall_insert_2; [| exact Hnn].
    assert (0 <= Py.get (attributes (user_data s)) attr 0)%Q.
    { unfold Py.get.
      destruct (attributes (user_data s) !! attr)
        as [v |] eqn:Hv; cbn; [exact (Hnn _ _ Hv) | apply Qle_refl]. }
    lra.
Qed.

End TaskLedgerMore.

Lemma complete_then_remove_keeps_points_witness :
  let s1 := snd (TaskManager.complete_task 10%Z "daily_1" run_task "daily"
                                           one_task_session) in
  ∃ (s2 : Session) (stored stored2 : gmap string Task),
    TaskManager.remove_task "daily_1" "daily" s1 = (TaskManager.Rerun, s2) ∧
    user_data s2 = user_data s1 ∧
    attributes (user_data s2)
    = <["Physical" :=
          (Py.get (attributes (user_data one_task_session)) "Physical" 0
           + 1 * 1)%Q]>
        (attributes (user_data one_task_session)) ∧
    tasks one_task_session !! "daily" = Some stored ∧
    tasks s2 !! "daily" = Some stored2 ∧
    stored2 !! "daily_1" = None ∧
    (∀ j : string, j ≠ "daily_1" → stored2 !! j = stored !! j) ∧
    (∀ c : string, c ≠ "daily" → tasks s2 !! c = tasks one_task_session !! c).
Proof.
  intros s1.
  apply (complete_then_remove_keeps_points 10%Z "daily_1" "daily" run_task
           one_task_session s1 (1 * 1)%Q "Physical").
  subst s1. vm_compute. reflexivity.
Defined.


(** The handler path at its numbers: the task without attribute ends up
    completed, no attribute has moved, and the call answered False. *)
Example complete_task_without_attribute :
  let r := TaskManager.complete_task 10%Z "daily_9" run_task "daily"
                                     (with_daily_task stray_task) in
  TaskManager.returned (fst r) = false ∧
  attributes (user_data (snd r))
  = attributes (user_data (with_daily_task stray_task)) ∧
  task_at "daily" "daily_9" (snd r)
  = Some (TaskManager.mark_completed 10%Z stray_task) ∧
  snd r ≠ with_daily_task stray_task.
Proof.
  cbv zeta.
  split; [vm_compute; reflexivity |].
  split; [vm_compute; reflexivity |].
  split; [vm_compute; reflexivity |].
  intros H.
  apply (f_equal (task_at "daily" "daily_9")) in H.
  vm_compute in H. discriminate H.
Qed.

Lemma complete_task_never_lowers_attributes_witness :
  (∀ a : string,
      (Py.get (attributes (user_data one_task_session)) a 0
       <= Py.get (attributes
                    (user_data
                       (snd (TaskManager.complete_task 10%Z "daily_1" run_task
                               "daily" one_task_session))))
                 a 0)%Q) ∧
  (nonnegative (attributes (user_data one_task_session)) →
   nonnegative
     (attributes
        (user_data
           (snd (TaskManager.complete_task 10%Z "daily_1" run_task "daily"
                                           one_task_session))))).
Proof.
  apply (complete_task_never_lowers_attributes 10%Z "daily_1" "daily" run_task
           one_task_session).
  - intros stored t Hc Ht.
    assert (Hs : stored = {["daily_1" := run_task]})
      by (vm_compute in Hc; injection Hc as <-; reflexivity).
    subst stored. rewrite lookup_singleton_eq in Ht. injection Ht as <-.
    vm_compute. discriminate.
  - vm_compute. discriminate.
Defined.

(** ** Inactivity evaluation, beyond the clamp *)

Section InactivityMore.
Import TaskManager.

(** The severity of every day count from 1 on, tier by tier. *)
Lemma determine_severity_tiers (d : Z) :
  (1 <= d)%Z →
  (d <= 3 ∧ determine_severity d
            = inr (Classified (Severity 1 (1, 2) "Minor Setback")))%Z ∨
  (4 <= d <= 7 ∧ determine_severity d
                 = inr (Classified (Severity 2 (3, 5) "Significant Decline")))%Z ∨
  (8 <= d ∧ determine_severity d
            = inr (Classified (Severity 3 (6, 8) "Critical Failure")))%Z.
Proof.
  intros Hd.
  unfold determine_severity, severity_levels, find_level, le_bound.
  cbn [range penalty message fst snd].
  destruct (Z.leb_spec 1 d) as [_ | ?]; [| lia].
  destruct (Z.leb_spec d 3); cbn [andb]; [left; split; [lia | reflexivity] |].
  destruct (Z.leb_spec 4 d) as [_ | ?]; [| lia].
  destruct (Z.leb_spec d 7); cbn [andb];
    [right; left; split; [lia | reflexivity] |].
  destruct (Z.leb_spec 8 d) as [_ | ?]; [| lia].
  right; right. split; [lia | reflexivity].
Qed.

(** X10: the severity never eases with a longer absence: for day counts
    from 1 on, more missed days give a level and penalty bounds that are
    at least as high. *)
Theorem determine_severity_monotone (d1 d2 : Z) (s1 s2 : severity) :
  (1 <= d1 <= d2)%Z →
  determine_severity d1 = inr (Classified s1) →
  determine_severity d2 = inr (Classified s2) →
  (level s1 <= level s2)%Z ∧
  (fst (penalty_range s1) <= fst (penalty_range s2))%Z ∧
  (snd (penalty_range s1) <= snd (penalty_range s2))%Z.
Proof.
  intros [H1 H12] E1 E2.
  destruct (determine_severity_tiers d1 H1) as [[? T1] | [[? T1] | [? T1]]];
    destruct (determine_severity_tiers d2 ltac:(lia))
      as [[? T2] | [[? T2] | [? T2]]];
    try lia;
    rewrite T1 in E1; rewrite T2 in E2;
    injection E1 as <-; injection E2 as <-; cbn; lia.
Qed.

Lemma apply_penalties_frame
    (r : Random.draws) (sev : severity_result) (d : Z) (n : nat)
    (u : UserData) :
  let u' := fst (fst (apply_penalties r sev d n u)) in
  untouched_fields u u' ∧
  last_active u' = last_active u ∧
  makeup_deadline u' = makeup_deadline u ∧
  (snd (fst (apply_penalties r sev d n u)) = None → u' = u).
Proof.
  unfold apply_penalties, untouched_fields.
  destruct sev as [s | raw]; [| cbn; auto 10].
  destruct (Random.randint _ _ r) as [e | p]; [cbn; auto 10 |].
  destruct (Py.lt (Random.unit_draw r) 0.7).
  - destruct (Random.choice _ r) as [e | a]; cbn; auto 10.
    repeat split; auto. discriminate.
  - destruct (attribute_names (attributes u)); cbn; auto 10.
    repeat split; auto. discriminate.
Qed.

Lemma missed_tasks_block_frame
    (now : DateTime.datetime) (r : Random.draws) (d : Z) (n : nat)
    (u : UserData) :
  let u' := fst (fst (missed_tasks_block now r d n u)) in
  untouched_fields u u' ∧ last_active u' = last_active u.
Proof.
  unfold missed_tasks_block.
  destruct (determine_severity d) as [e | sev];
    [cbn; unfold untouched_fields; auto 10 |].
  destruct (d =? 1)%Z; [cbn; unfold untouched_fields; auto 10 |].
  destruct (_ <? now)%Z; [| cbn; unfold untouched_fields; auto 10].
  destruct (apply_penalties_frame r sev d n u) as (Hf & Hl & _ & _).
  split; assumption.
Qed.

(** X11: update_tasks stamps last_active only when no calendar day has
    passed since the last activity, and then it changes nothing else;
    as soon as one day has passed, every path ends in the exception
    handler (the call of the undefined reset_periodic_tasks at the
    latest) and last_active keeps its old value.  In both cases the task
    store, the streak, the multipliers and the job fields are untouched. *)
Theorem update_tasks_stamps_only_same_day
    (now : DateTime.datetime) (r : Random.draws) (s : Session) :
  let res := update_tasks now r s in
  let d := DateTime.days_between now (default now (last_active (user_data s))) in
  tasks (updated res) = tasks s ∧
  untouched_fields (user_data s) (user_data (updated res)) ∧
  ((d <= 0)%Z →
     last_active (user_data (updated res)) = Some now ∧
     attributes (user_data (updated res)) = attributes (user_data s) ∧
     makeup_deadline (user_data (updated res)) = makeup_deadline (user_data s) ∧
     shown res = None ∧ raised res = None) ∧
  ((0 < d)%Z →
     last_active (user_data (updated res)) = last_active (user_data s) ∧
     raised res ≠ None).
Proof.
  cbv zeta. unfold update_tasks.
  destruct (Z.ltb_spec 0
              (DateTime.days_between now
                 (default now (last_active (user_data s))))) as [Hpos | Hle].
  - pose proof (missed_tasks_block_frame now r
                  (DateTime.days_between now
                     (default now (last_active (user_data s))))
                  (length (incomplete_tasks (tasks s))) (user_data s)) as Hb.
    cbv zeta in Hb.
    destruct (incomplete_tasks (tasks s)) as [| t ts] eqn:Hinc.
    + cbn. unfold untouched_fields.
      repeat split; auto; try lia; discriminate.
    + destruct (missed_tasks_block _ _ _ _ _) as [[u1 note] err].
      cbn [fst] in Hb. destruct Hb as [Hf Hl].
      destruct err; cbn; repeat split; auto; try lia; try discriminate;
        apply Hf.
  - cbn. unfold untouched_fields. repeat split; auto; lia.
Qed.

(** X12: on the first inactive calendar day with at least one incomplete
    task, update_tasks only offers the makeup window: the makeup deadline
    becomes now + 12 hours (whatever it was before), the notice names the
    number of incomplete tasks, and no attribute changes. *)
Theorem first_inactive_day_grants_grace
    (now : DateTime.datetime) (r : Random.draws) (s : Session) :
  DateTime.days_between now (default now (last_active (user_data s))) = 1%Z →
  incomplete_tasks (tasks s) ≠ [] →
  let res := update_tasks now r s in
  makeup_deadline (user_data (updated res))
  = Some (now + 12 * DateTime.usec_per_hour)%Z ∧
  shown res = Some (MakeupOpportunity (length (incomplete_tasks (tasks s)))) ∧
  attributes (user_data (updated res)) = attributes (user_data s).
Proof.
  intros Hd Hinc. cbv zeta. unfold update_tasks. rewrite Hd.
  cbn [Z.ltb Z.compare].
  destruct (incomplete_tasks (tasks s)) as [| t ts]; [congruence |].
  unfold missed_tasks_block.
  replace (determine_severity 1)
    with (inr (A := Py.exn) (Classified (Severity 1 (1, 2)%Z "Minor Setback")))
    by reflexivity.
  cbn. auto.
Qed.

(** X13: without an incomplete task nothing is penalised, however long
    the absence: attributes and makeup deadline are unchanged and no
    notice is shown. *)
Theorem no_incomplete_task_no_penalty
    (now : DateTime.datetime) (r : Random.draws) (s : Session) :
  incomplete_tasks (tasks s) = [] →
  let res := update_tasks now r s in
  attributes (user_data (updated res)) = attributes (user_data s) ∧
  makeup_deadline (user_data (updated res)) = makeup_deadline (user_data s) ∧
  shown res = None.
Proof.
  intros Hinc. cbv zeta. unfold update_tasks. rewrite Hinc.
  destruct (0 <? _)%Z; cbn; auto.
Qed.

(** X14: from the second inactive day on, nothing is penalised while the
    makeup deadline has not passed (now <= makeup_deadline): attributes and
    deadline are unchanged and no notice is shown. *)
Theorem within_makeup_window_no_penalty
    (now deadline : DateTime.datetime) (r : Random.draws) (s : Session) :
  (2 <= DateTime.days_between now
          (default now (last_active (user_data s))))%Z →
  makeup_deadline (user_data s) = Some deadline →
  (now <= deadline)%Z →
  let res := update_tasks now r s in
  attributes (user_data (updated res)) = attributes (user_data s) ∧
  makeup_deadline (user_data (updated res)) = Some deadline ∧
  shown res = None.
Proof.
  intros Hd Hdl Hnow. cbv zeta. unfold update_tasks.
  destruct (Z.ltb_spec 0
              (DateTime.days_between now
                 (default now (last_active (user_data s))))) as [_ | ?];
    [| lia].
  destruct (incomplete_tasks (tasks s)) as [| t ts]; [cbn; auto |].
  unfold missed_tasks_block.
  assert (H1 : (1 <= DateTime.days_between now
                      (default now (last_active (user_data s))))%Z) by lia.
  destruct (determine_severity_tiers _ H1) as [[_ ->] | [[_ ->] | [_ ->]]];
    (destruct (Z.eqb_spec
                 (DateTime.days_between now
                    (default now (last_active (user_data s)))) 1) as [? | _];
     [lia |]);
    rewrite Hdl; cbn [default]; unfold Datatypes.id;
    (destruct (Z.ltb_spec deadline now) as [? | _]; [lia |]);
    cbn; auto.
Qed.

End InactivityMore.

Section PenaltySize.
Import TaskManager.

(** X15: from the second inactive day on, with an incomplete task, the
    makeup deadline passed (or never set, at a clock later than 2000-01-01)
    and at least one attribute, a penalty is applied whose magnitude p
    lies in the range of the tier of the day count (1-3 days: 1..2, 4-7
    days: 3..5, 8 days and more: 6..8): either one attribute loses p
    points (its new value is max(0, v - p)) and the others keep their
    values, or every attribute loses p divided by the number of
    attributes (new value max(0, v - p/n)); the makeup deadline is not
    touched. *)
Theorem overdue_penalty_within_tier
    (now : DateTime.datetime) (r : Random.draws) (s : Session) :
  let d := DateTime.days_between now
             (default now (last_active (user_data s))) in
  let attrs := attributes (user_data s) in
  let res := update_tasks now r s in
  let attrs' := attributes (user_data (updated res)) in
  (2 <= d)%Z →
  incomplete_tasks (tasks s) ≠ [] →
  (default DateTime.y2000 (makeup_deadline (user_data s)) < now)%Z →
  attrs ≠ ∅ →
  makeup_deadline (user_data (updated res)) = makeup_deadline (user_data s) ∧
  ∃ (p : Z) (msg : string),
    (fst (tier_range d) <= p <= snd (tier_range d))%Z ∧
    ((∃ (a : string) (v : Q),
        attrs !! a = Some v ∧
        shown res
        = Some (SinglePenalty msg d p a (length (incomplete_tasks (tasks s)))) ∧
        attrs' !! a = Some (Qmax 0 (v - inject_Z p)) ∧
        (∀ b : string, b ≠ a → attrs' !! b = attrs !! b))
     ∨
     (shown res
      = Some (DistributedPenalty msg d
                (inject_Z p / inject_Z (Z.of_nat (size attrs)))
                (length (incomplete_tasks (tasks s)))) ∧
      ∀ b : string,
        attrs' !! b
        = (fun v => Qmax 0 (v - inject_Z p / inject_Z (Z.of_nat (size attrs))))
            <$> attrs !! b)).
Proof.
  cbv zeta. intros Hd Hinc Hdl Hattrs.
  unfold update_tasks.
  set (d := DateTime.days_between now
              (default now (last_active (user_data s)))) in *.
  destruct (Z.ltb_spec 0 d) as [_ | ?]; [| lia].
  destruct (incomplete_tasks (tasks s)) as [| t ts] eqn:Einc; [congruence |].
  unfold missed_tasks_block.
  destruct (Z.eqb_spec d 1) as [? | _]; [lia |].
  destruct (Z.ltb_spec (default DateTime.y2000 (makeup_deadline (user_data s)))
                       now) as [_ | ?]; [| lia].
  assert (H1 : (1 <= d)%Z) by lia.
  assert (Htier : ∃ (lvl : Z) (msg : string),
             determine_severity d
             = inr (Classified (Severity lvl (tier_range d) msg)) ∧
             (fst (tier_range d) <= snd (tier_range d))%Z).
  { unfold tier_range.
    destruct (determine_severity_tiers d H1)
      as [[? ->] | [[? ->] | [? ->]]].
    - destruct (Z.leb_spec d 3); [| lia]. eexists _, _. split; [reflexivity |].
      cbn. lia.
    - destruct (Z.leb_spec d 3); [lia |].
      destruct (Z.leb_spec d 7); [| lia]. eexists _, _.
      split; [reflexivity |]. cbn. lia.
    - destruct (Z.leb_spec d 3); [lia |].
      destruct (Z.leb_spec d 7); [lia |]. eexists _, _.
      split; [reflexivity |]. cbn. lia. }
  destruct Htier as (lvl & msg & -> & Hrange).
  destruct (tier_range d) as [lo hi]. cbn [fst snd] in *.
  destruct (apply_penalties_effect r lvl lo hi msg d (length (t :: ts))
              (user_data s) Hrange Hattrs)
    as (p & u' & note & Hp & Hrun & Hkeep & Heffect).
  rewrite Hrun. cbn [updated shown user_data].
  split; [exact Hkeep |].
  exists p, msg. split; [exact Hp |].
  destruct Heffect as [(a & v & Hv & -> & Ha & Hothers) | [-> Hall]].
  - left. exists a, v. auto.
  - right. auto.
Qed.

Lemma clamp_bounds (v x : Q) :
  (0 <= v)%Q → (0 <= x <= 8)%Q →
  (v - 8 <= Py.max 0 (v - x) <= v)%Q.
Proof.
  intros Hv [Hx0 Hx8]. unfold Py.max. split.
  - eapply Qle_trans; [| apply Q.le_max_r]. lra.
  - apply Q.max_lub; lra.
Qed.

Lemma share_bounds (p : Z) (n : nat) :
  (0 <= p <= 8)%Z → (0 < n)%nat →
  (0 <= inject_Z p / inject_Z (Z.of_nat n) <= 8)%Q.
Proof.
  intros Hp Hn.
  assert (Hpos : (0 < inject_Z (Z.of_nat n))%Q).
  { change 0%Q with (inject_Z 0). rewrite <- Zlt_Qlt. lia. }
  split.
  - apply Qle_shift_div_l; [exact Hpos |].
    rewrite Qmult_0_l. change 0%Q with (inject_Z 0). rewrite <- Zle_Qle. lia.
  - apply Qle_shift_div_r; [exact Hpos |].
    change 8%Q with (inject_Z 8). rewrite <- inject_Z_mult, <- Zle_Qle. nia.
Qed.

Lemma lowered_refl (attrs : gmap string Q) :
  lowered_by_at_most_eight attrs attrs.
Proof.
  intros a. destruct (attrs !! a) as [v |]; [| reflexivity].
  exists v. split; [reflexivity | lra].
Qed.

Lemma apply_penalties_lowered
    (r : Random.draws) (lvl lo hi : Z) (msg : string) (d : Z) (n : nat)
    (u : UserData) :
  (0 <= lo)%Z → (hi <= 8)%Z →
  nonnegative (attributes u) →
  lowered_by_at_most_eight
    (attributes u)
    (attributes
       (fst (fst (apply_penalties r (Classified (Severity lvl (lo, hi) msg))
                                  d n u)))).
Proof.
  intros Hlo Hhi Hnn. unfold apply_penalties.
  cbn [penalty_range fst snd].
  unfold Random.randint.
  destruct (Z.ltb_spec hi lo) as [? | Hle]; [apply lowered_refl |].
  set (p := (lo + Random.raw_int r mod (hi - lo + 1))%Z).
  assert (Hp : (0 <= p <= 8)%Z).
  { pose proof (Z.mod_pos_bound (Random.raw_int r) (hi - lo + 1)). lia. }
  destruct (Py.lt (Random.unit_draw r) 0.7).
  - destruct (Random.choice _ r) as [e | a0] eqn:Hch; [apply lowered_refl |].
    cbn [fst attributes set_attributes]. unfold penalise_one.
    intros a. destruct (attributes u !! a) as [v |] eqn:Hv.
    + destruct (decide (a = a0)) as [<- | Hne].
      * rewrite lookup_insert_eq. eexists. split; [reflexivity |].
        unfold Py.get. rewrite Hv. cbn [default]. unfold Datatypes.id.
        apply clamp_bounds; [exact (Hnn _ _ Hv) |].
        change 0%Q with (inject_Z 0). change 8%Q with (inject_Z 8).
        rewrite <- !Zle_Qle. exact Hp.
      * rewrite lookup_insert_ne by congruence. exists v.
        split; [exact Hv | lra].
    + destruct (decide (a = a0)) as [<- | Hne].
      * (* the chosen attribute is a key of the dictionary *)
        exfalso.
        assert (Hin : a ∈ attribute_names (attributes u)).
        { unfold Random.choice in Hch.
          destruct (attribute_names (attributes u)) as [| x xs];
            [discriminate Hch |].
          destruct ((x :: xs) !! (Random.raw_choice r mod length (x :: xs))%nat)
            as [y |] eqn:Hl; [| discriminate Hch].
          injection Hch as ->. eapply list_elem_of_lookup_2, Hl. }
        apply list_elem_of_fmap in Hin as ((k & w) & Hk & Hin).
        cbn in Hk. subst k. apply elem_of_map_to_list in Hin. congruence.
      * rewrite lookup_insert_ne by congruence. exact Hv.
  - destruct (attribute_names (attributes u)) as [| x xs] eqn:En;
      [apply lowered_refl |].
    cbn [fst attributes set_attributes]. rewrite <- En.
    intros a. rewrite penalise_all_lookup.
    destruct (attributes u !! a) as [v |] eqn:Hv; [| reflexivity].
    cbn. eexists. split; [reflexivity |].
    apply clamp_bounds; [exact (Hnn _ _ Hv) |].
    apply share_bounds; [exact Hp |]. rewrite En. cbn. lia.
Qed.

(** X16: starting from attributes that are all >= 0, one inactivity
    evaluation never raises an attribute, never takes more than 8 points
    from any attribute, and never adds or removes an attribute name. *)
Theorem penalty_lowers_by_at_most_eight
    (now : DateTime.datetime) (r : Random.draws) (s : Session) :
  nonnegative (attributes (user_data s)) →
  lowered_by_at_most_eight
    (attributes (user_data s))
    (attributes (user_data (updated (update_tasks now r s)))).
Proof.
  intros Hnn. unfold update_tasks.
  destruct (Z.ltb_spec 0
              (DateTime.days_between now
                 (default now (last_active (user_data s))))) as [Hpos | _];
    [| apply lowered_refl].
  set (d := DateTime.days_between now
              (default now (last_active (user_data s)))) in *.
  destruct (incomplete_tasks (tasks s)) as [| t ts]; [apply lowered_refl |].
  assert (Hblock :
    lowered_by_at_most_eight
      (attributes (user_data s))
      (attributes
         (fst (fst (missed_tasks_block now r d (length (t :: ts))
                                       (user_data s)))))).
  { unfold missed_tasks_block.
    assert (H1 : (1 <= d)%Z) by lia.
    destruct (determine_severity_tiers d H1)
      as [[_ ->] | [[_ ->] | [_ ->]]];
      (destruct (d =? 1)%Z; [apply lowered_refl |]);
      (destruct (_ <? now)%Z; [| apply lowered_refl]);
      apply apply_penalties_lowered; (lia || exact Hnn). }
  destruct (missed_tasks_block _ _ _ _ _) as [[u1 note] err].
  cbn [fst] in Hblock. destruct err; exact Hblock.
Qed.

End PenaltySize.

Lemma determine_severity_monotone_witness :
  (TaskManager.level (TaskManager.Severity 1 (1, 2) "Minor Setback")
   <= TaskManager.level (TaskManager.Severity 2 (3, 5) "Significant Decline"))%Z ∧
  (fst (TaskManager.penalty_range
          (TaskManager.Severity 1 (1, 2) "Minor Setback"))
   <= fst (TaskManager.penalty_range
             (TaskManager.Severity 2 (3, 5) "Significant Decline")))%Z ∧
  (snd (TaskManager.penalty_range
          (TaskManager.Severity 1 (1, 2) "Minor Setback"))
   <= snd (TaskManager.penalty_range
             (TaskManager.Severity 2 (3, 5) "Significant Decline")))%Z.
Proof.
  apply (determine_severity_monotone 2 5).
  - lia.
  - reflexivity.
  - reflexivity.
Defined.

Lemma update_tasks_stamps_only_same_day_witness :
  last_active
    (user_data (TaskManager.updated
                  (TaskManager.update_tasks 5%Z (Random.Draws 1 0 0)
                                            (idle_session 0%Z))))
  = Some 5%Z ∧
  last_active
    (user_data (TaskManager.updated
                  (TaskManager.update_tasks two_days_later (Random.Draws 1 0 0)
                                            (idle_session 0%Z))))
  = Some 0%Z.
Proof.
  split.
  - destruct (update_tasks_stamps_only_same_day 5%Z (Random.Draws 1 0 0)
                (idle_session 0%Z)) as (_ & _ & Hsame & _).
    apply Hsame. vm_compute. discriminate.
  - destruct (update_tasks_stamps_only_same_day two_days_later
                (Random.Draws 1 0 0) (idle_session 0%Z)) as (_ & _ & _ & Hidle).
    apply Hidle. vm_compute. reflexivity.
Defined.

Lemma first_inactive_day_grants_grace_witness :
  let now := (DateTime.usec_per_day + DateTime.usec_per_hour)%Z in
  let res := TaskManager.update_tasks now (Random.Draws 1 0 0)
                                      (idle_session 0%Z) in
  makeup_deadline (user_data (TaskManager.updated res))
  = Some (now + 12 * DateTime.usec_per_hour)%Z ∧
  TaskManager.shown res
  = Some (TaskManager.MakeupOpportunity
            (length (TaskManager.incomplete_tasks (tasks (idle_session 0%Z))))) ∧
  attributes (user_data (TaskManager.updated res))
  = attributes (user_data (idle_session 0%Z)).
Proof.
  intros now.
  apply (first_inactive_day_grants_grace now (Random.Draws 1 0 0)
           (idle_session 0%Z)).
  - vm_compute. reflexivity.
  - vm_compute. discriminate.
Defined.

Lemma no_incomplete_task_no_penalty_witness :
  let s := DataManager.initialize_new_state 0%Z in
  let res := TaskManager.update_tasks five_days_later (Random.Draws 1 0 0) s in
  attributes (user_data (TaskManager.updated res)) = attributes (user_data s) ∧
  makeup_deadline (user_data (TaskManager.updated res))
  = makeup_deadline (user_data s) ∧
  TaskManager.shown res = None.
Proof.
  intros s.
  apply (no_incomplete_task_no_penalty five_days_later (Random.Draws 1 0 0) s).
  vm_compute. reflexivity.
Defined.

Lemma within_makeup_window_no_penalty_witness :
  let s := graced_session 0%Z five_days_later in
  let res := TaskManager.update_tasks two_days_later (Random.Draws 1 0 0) s in
  attributes (user_data (TaskManager.updated res)) = attributes (user_data s) ∧
  makeup_deadline (user_data (TaskManager.updated res))
  = Some five_days_later ∧
  TaskManager.shown res = None.
Proof.
  intros s.
  apply (within_makeup_window_no_penalty two_days_later five_days_later
           (Random.Draws 1 0 0) s).
  - vm_compute. discriminate.
  - reflexivity.
  - vm_compute. discriminate.
Defined.

Lemma overdue_penalty_within_tier_witness :
  let s := trained_session 0%Z 10 in
  let now := five_days_later in
  let r := Random.Draws 1 0 0 in
  let d := DateTime.days_between now
             (default now (last_active (user_data s))) in
  let attrs := attributes (user_data s) in
  let res := TaskManager.update_tasks now r s in
  let attrs' := attributes (user_data (TaskManager.updated res)) in
  makeup_deadline (user_data (TaskManager.updated res))
  = makeup_deadline (user_data s) ∧
  ∃ (p : Z) (msg : string),
    (fst (tier_range d) <= p <= snd (tier_range d))%Z ∧
    ((∃ (a : string) (v : Q),
        attrs !! a = Some v ∧
        TaskManager.shown res
        = Some (TaskManager.SinglePenalty msg d p a
                  (length (TaskManager.incomplete_tasks (tasks s)))) ∧
        attrs' !! a = Some (Qmax 0 (v - inject_Z p)) ∧
        (∀ b : string, b ≠ a → attrs' !! b = attrs !! b))
     ∨
     (TaskManager.shown res
      = Some (TaskManager.DistributedPenalty msg d
                (inject_Z p / inject_Z (Z.of_nat (size attrs)))
                (length (TaskManager.incomplete_tasks (tasks s)))) ∧
      ∀ b : string,
        attrs' !! b
        = (fun v => Qmax 0 (v - inject_Z p / inject_Z (Z.of_nat (size attrs))))
            <$> attrs !! b)).
Proof.
  intros s now r.
  apply (overdue_penalty_within_tier now r s).
  - vm_compute. discriminate.
  - vm_compute. discriminate.
  - vm_compute. reflexivity.
  - intros H. apply (f_equal (fun m : gmap string Q => m !! "Health")) in H.
    vm_compute in H. discriminate H.
Defined.

(** The same at its numbers: five days of inactivity fall in the second
    tier; with every attribute at 10, the draw takes 4 points from one
    attribute, which is left at 6, and the others stay at 10. *)
Example overdue_penalty_numbers :
  let res := TaskManager.update_tasks five_days_later (Random.Draws 1 0 0)
                                      (trained_session 0%Z 10) in
  TaskManager.shown res
  = Some (TaskManager.SinglePenalty "Significant Decline" 5 4 "Spiritual" 1) ∧
  attributes (user_data (TaskManager.updated res)) !! "Spiritual" = Some 6%Q ∧
  attributes (user_data (TaskManager.updated res)) !! "Health" = Some 10%Q.
Proof.
  cbv zeta.
  split; [vm_compute; reflexivity |].
  split; vm_compute; reflexivity.
Qed.

Lemma penalty_lowers_by_at_most_eight_witness :
  lowered_by_at_most_eight
    (attributes (user_data (idle_session 0%Z)))
    (attributes
       (user_data
          (TaskManager.updated
             (TaskManager.update_tasks five_days_later (Random.Draws 1 0 0)
                                       (idle_session 0%Z))))).
Proof.
  apply (penalty_lowers_by_at_most_eight five_days_later (Random.Draws 1 0 0)
           (idle_session 0%Z)).
  exact initial_attributes_nonnegative.
Defined.

(** Because last_active is not stamped in the inactive branch, a second
    evaluation at the same instant penalises again: with every attribute
    at 10 and a single-attribute penalty of 4, two evaluations leave 2. *)
Example penalty_repeats_at_same_instant :
  let r := Random.Draws 1 0 0 in
  let res1 := TaskManager.update_tasks five_days_later r
                                       (trained_session 0%Z 10) in
  let res2 := TaskManager.update_tasks five_days_later r
                                       (TaskManager.updated res1) in
  TaskManager.shown res1
  = Some (TaskManager.SinglePenalty "Significant Decline" 5 4 "Spiritual" 1) ∧
  attributes (user_data (TaskManager.updated res1)) !! "Spiritual"
  = Some (Qmax 0 (10 - 4)) ∧
  TaskManager.shown res2
  = Some (TaskManager.SinglePenalty "Significant Decline" 5 4 "Spiritual" 1) ∧
  attributes (user_data (TaskManager.updated res2)) !! "Spiritual"
  = Some (Qmax 0 (Qmax 0 (10 - 4) - 4)).
Proof.
  cbv zeta.
  split; [vm_compute; reflexivity |].
  split; [vm_compute; reflexivity |].
  split; vm_compute; reflexivity.
Qed.

(** ** Job gate, beyond Stray Dog *)

Section JobGateMore.
Import JobSystem.

Lemma check_job_requirements_monotone (job : Job) (u u' : UserData) :
  (∀ a : string,
      (Py.get (attributes u) a 0 <= Py.get (attributes u') a 0)%Q) →
  check_job_requirements job u = true →
  check_job_requirements job u' = true.
Proof.
  intros Hle. unfold check_job_requirements.
  induction (attribute_requirements job) as [| [attr req] reqs IH];
    [reflexivity |].
  cbn [forallb fst snd]. intros H.
  apply andb_true_iff in H as [H1 H2].
  apply andb_true_iff. split; [| apply IH, H2].
  unfold Py.ge in *. apply Qle_bool_iff in H1. apply Qle_bool_iff.
  eapply Qle_trans; [exact H1 | apply Hle].
Qed.

(** X17: raising attributes never takes a job away: if every attribute of
    u' is at least what it is in u, every job available to u is available
    to u'. *)
Theorem job_availability_monotone (u u' : UserData) (job_name : string) :
  (∀ a : string,
      (Py.get (attributes u) a 0 <= Py.get (attributes u') a 0)%Q) →
  In job_name (get_available_jobs u) →
  In job_name (get_available_jobs u').
Proof.
  intros Hle Hin. unfold get_available_jobs in *.
  apply in_map_iff in Hin as (entry & Hname & Hin).
  apply filter_In in Hin as [Hin Hchk].
  apply in_map_iff. exists entry. split; [exact Hname |].
  apply filter_In. split; [exact Hin |].
  eapply check_job_requirements_monotone; eassumption.
Qed.

Lemma unmet_without_lowercase_keys (u : UserData) (entry : string * Job) :
  Forall (fun k => attributes u !! k = None) requirement_keys →
  In entry jobs →
  check_job_requirements (snd entry) u = no_requirements entry.
Proof.
  intros Hkeys Hin. unfold requirement_keys in Hkeys.
  repeat match goal with
         | H : Forall _ (_ :: _) |- _ =>
             apply Forall_cons in H as [? H]
         end.
  clear Hkeys.
  unfold jobs in Hin. cbn [In] in Hin.
  repeat (destruct Hin as [<- | Hin];
          [ unfold check_job_requirements, no_requirements;
            cbn [snd attribute_requirements forallb fst];
            unfold Py.get;
            repeat match goal with
                   | H : attributes u !! ?k = None |- _ =>
                       rewrite H; clear H
                   end;
            reflexivity | ]).
  destruct Hin.
Qed.

(** X18: the catalogue spells every requirement key in lower case; for a
    user whose attribute dictionary has none of those keys -- every state
    the application builds, whose keys are capitalised -- the available
    jobs are exactly ["Master of None"], whatever the attribute values. *)
Theorem only_master_of_none_without_lowercase_keys (u : UserData) :
  Forall (fun k => attributes u !! k = None) requirement_keys →
  get_available_jobs u = ["Master of None"].
Proof.
  intros Hkeys. unfold get_available_jobs.
  rewrite (filter_ext_in _ no_requirements jobs).
  - vm_compute. reflexivity.
  - intros entry Hin. apply unmet_without_lowercase_keys; assumption.
Qed.

(** What a successful [accept_job] is. *)
Lemma accept_job_accepted
    (now : DateTime.datetime) (job_name : string) (u : UserData)
    (job : Job) (m : gmap string Q) :
  Py.assoc job_name jobs = Some job →
  multipliers u = Some m →
  accept_job now job_name u
  = (None,
     mkUserData (attributes u) (streak u) (last_active u) (makeup_deadline u)
                (Some (<["job" := perk_multiplier job]> m))
                (Some job_name)
                (Some (default [] (job_history u) ++ [(job_name, now)]))
                (ud_tasks u)).
Proof.
  intros Hjob Hm. unfold accept_job. rewrite Hjob.
  cbn [multipliers set_job_history set_current_job]. rewrite Hm. reflexivity.
Qed.

(** X19: accept_job does not test the requirements: for any catalogue job
    and any user data with a multipliers dictionary it succeeds; and
    accepting a second job replaces the job multiplier by the second perk
    (it never stacks), leaves the other multiplier slots and the attributes
    alone, and appends both acceptances to the history in order. *)
Theorem accept_job_twice_replaces
    (now1 now2 : DateTime.datetime) (name1 name2 : string) (job1 job2 : Job)
    (u : UserData) (m : gmap string Q) :
  Py.assoc name1 jobs = Some job1 →
  Py.assoc name2 jobs = Some job2 →
  multipliers u = Some m →
  ∃ (u1 u2 : UserData) (m2 : gmap string Q),
    accept_job now1 name1 u = (None, u1) ∧
    accept_job now2 name2 u1 = (None, u2) ∧
    multipliers u2 = Some m2 ∧
    m2 !! "job" = Some (perk_multiplier job2) ∧
    (∀ k : string, k ≠ "job" → m2 !! k = m !! k) ∧
    current_job u2 = Some name2 ∧
    job_history u2
    = Some (default [] (job_history u) ++ [(name1, now1); (name2, now2)]) ∧
    attributes u2 = attributes u.
Proof.
  intros H1 H2 Hm.
  rewrite (accept_job_accepted now1 name1 u job1 m H1 Hm).
  eexists _, _, _. split; [reflexivity |].
  erewrite accept_job_accepted; [| exact H2 | reflexivity].
  split; [reflexivity |]. cbn.
  split; [reflexivity |]. split; [apply lookup_insert_eq |]. split.
  - intros k Hk. rewrite !lookup_insert_ne by congruence. reflexivity.
  - split; [reflexivity |]. split; [| reflexivity].
    rewrite <- app_assoc. reflexivity.
Qed.

(** X20: after a catalogue job has been accepted, completing a task that
    has an attribute awards its base points times that job's perk
    multiplier: the product is added to the task's attribute, the other
    attributes keep their values, the accepted job stays the current one
    and the stored task is left marked completed. *)
Theorem accept_job_then_complete_task
    (now now2 : DateTime.datetime) (job_name : string) (job : Job)
    (s : Session) (m : gmap string Q)
    (id category : string) (task stored_task : Task)
    (stored : gmap string Task) (attr : string) :
  Py.assoc job_name jobs = Some job →
  multipliers (user_data s) = Some m →
  tasks s !! category = Some stored →
  stored !! id = Some stored_task →
  TaskManager.is_completed stored_task = false →
  task_attribute stored_task = Some attr →
  let pts := (default 1 (task_points stored_task) * perk_multiplier job)%Q in
  ∃ (s' : Session) (stored' : gmap string Task) (t' : Task),
    TaskManager.complete_task now2 id task category
      (mkSession (snd (accept_job now job_name (user_data s))) (tasks s))
    = (TaskManager.Awarded pts attr, s') ∧
    attributes (user_data s') !! attr
    = Some (Py.get (attributes (user_data s)) attr 0 + pts)%Q ∧
    (∀ a : string,
        a ≠ attr →
        attributes (user_data s') !! a = attributes (user_data s) !! a) ∧
    current_job (user_data s') = Some job_name ∧
    tasks s' !! category = Some stored' ∧
    stored' !! id = Some t' ∧
    task_completed t' = Some true ∧
    task_completed_at t' = Some now2.
Proof.
  intros Hjob Hm Hc Ht Hopen Hattr pts. subst pts.
  rewrite (accept_job_accepted now job_name (user_data s) job m Hjob Hm).
  unfold TaskManager.complete_task. cbn [snd tasks user_data multipliers].
  rewrite Hc, Ht, Hopen, Hattr. cbn [default]. unfold Datatypes.id, Py.get.
  rewrite lookup_insert_eq. cbn [from_option].
  eexists _, _, _. split; [reflexivity |].
  cbn [user_data attributes set_attributes set_multipliers set_job_history
       set_current_job current_job tasks].
  split; [apply lookup_insert_eq |].
  split; [intros a Hne; apply lookup_insert_ne; congruence |].
  split; [reflexivity |].
  split; [apply lookup_insert_eq |].
  split; [apply lookup_insert_eq |].
  split; reflexivity.
Qed.

(** X21: a failing accept_job is not a no-op: when the name is not in the
    catalogue, or the user data has no multipliers dictionary, the
    KeyError is reported only after current_job was set and the history
    entry appended; the multipliers and attributes are unchanged. *)
Theorem accept_job_failure_is_half_applied
    (now : DateTime.datetime) (job_name : string) (u : UserData) :
  Py.assoc job_name jobs = None ∨ multipliers u = None →
  ∃ (e : Py.exn) (u' : UserData),
    accept_job now job_name u = (Some e, u') ∧
    current_job u' = Some job_name ∧
    job_history u'
    = Some (default [] (job_history u) ++ [(job_name, now)]) ∧
    multipliers u' = multipliers u ∧
    attributes u' = attributes u.
Proof.
  intros H. unfold accept_job.
  destruct (Py.assoc job_name jobs) as [job |] eqn:Hjob.
  - destruct H as [H | H]; [discriminate H |].
    cbn [multipliers set_job_history set_current_job]. rewrite H.
    eexists _, _. split; [reflexivity |]. cbn. auto.
  - eexists _, _. split; [reflexivity |]. cbn. auto.
Qed.

End JobGateMore.

Lemma job_availability_monotone_witness :
  In "Stray Dog" (JobSystem.get_available_jobs (user_with_key "resilience" 60)).
Proof.
  apply (job_availability_monotone (user_with_key "resilience" 50)
           (user_with_key "resilience" 60) "Stray Dog").
  - intros a. unfold Py.get, user_with_key. cbn [attributes set_attributes].
    destruct (decide (a = "resilience")) as [-> | Hne].
    + rewrite !lookup_insert_eq. cbn. unfold Qle. cbn. lia.
    + rewrite !lookup_insert_ne by congruence. apply Qle_refl.
  - assert (H : JobSystem.get_available_jobs (user_with_key "resilience" 50)
                = ["Master of None"; "Stray Dog"])
      by (vm_compute; reflexivity).
    rewrite H. right. left. reflexivity.
Defined.

Lemma only_master_of_none_without_lowercase_keys_witness :
  JobSystem.get_available_jobs (user_with_resilience 1000) = ["Master of None"].
Proof.
  apply (only_master_of_none_without_lowercase_keys (user_with_resilience 1000)).
  unfold requirement_keys.
  repeat (apply Forall_cons; split; [vm_compute; reflexivity |]).
  apply Forall_nil. exact I.
Defined.

Lemma accept_job_twice_replaces_witness :
  ∃ (u1 u2 : UserData) (m2 : gmap string Q),
    JobSystem.accept_job 1%Z "Master of None" (user_with_resilience 0)
    = (None, u1) ∧
    JobSystem.accept_job 2%Z "Enigma" u1 = (None, u2) ∧
    multipliers u2 = Some m2 ∧
    m2 !! "job" = Some 1.6%Q ∧
    (∀ k : string, k ≠ "job" → m2 !! k = DataManager.initial_multipliers !! k) ∧
    current_job u2 = Some "Enigma" ∧
    job_history u2
    = Some (default [] (job_history (user_with_resilience 0))
            ++ [("Master of None", 1%Z); ("Enigma", 2%Z)]) ∧
    attributes u2 = attributes (user_with_resilience 0).
Proof.
  exact (accept_job_twice_replaces 1%Z 2%Z "Master of None" "Enigma" _ _
           (user_with_resilience 0) DataManager.initial_multipliers
           eq_refl eq_refl eq_refl).
Defined.

Lemma accept_job_then_complete_task_witness :
  let pts := (default 1 (task_points run_task) * 1.5)%Q in
  ∃ (s' : Session) (stored' : gmap string Task) (t' : Task),
    TaskManager.complete_task 20%Z "daily_1" run_task "daily"
      (mkSession (snd (JobSystem.accept_job 10%Z "The Glitch"
                         (user_data one_task_session)))
                 (tasks one_task_session))
    = (TaskManager.Awarded pts "Physical", s') ∧
    attributes (user_data s') !! "Physical"
    = Some (Py.get (attributes (user_data one_task_session)) "Physical" 0
            + pts)%Q ∧
    (∀ a : string,
        a ≠ "Physical" →
        attributes (user_data s') !! a
        = attributes (user_data one_task_session) !! a) ∧
    current_job (user_data s') = Some "The Glitch" ∧
    tasks s' !! "daily" = Some stored' ∧
    stored' !! "daily_1" = Some t' ∧
    task_completed t' = Some true ∧
    task_completed_at t' = Some 20%Z.
Proof.
  refine (accept_job_then_complete_task 10%Z 20%Z "The Glitch" _
            one_task_session DataManager.initial_multipliers "daily_1" "daily"
            run_task run_task {["daily_1" := run_task]} "Physical"
            eq_refl eq_refl _ _ _ _).
  - vm_compute. reflexivity.
  - vm_compute. reflexivity.
  - reflexivity.
  - reflexivity.
Defined.

(** The same at its numbers: under The Glitch (perk 1.5) the one-point
    task moves Physical from 0 to 1.5. *)
Example the_glitch_one_point_task :
  let s' := snd (TaskManager.complete_task 20%Z "daily_1" run_task "daily"
                   (mkSession (snd (JobSystem.accept_job 10%Z "The Glitch"
                                      (user_data one_task_session)))
                              (tasks one_task_session))) in
  attributes (user_data one_task_session) !! "Physical" = Some 0%Q ∧
  attributes (user_data s') !! "Physical" = Some (0 + 1 * 1.5)%Q ∧
  (0 + 1 * 1.5 == 1.5)%Q.
Proof.
  cbv zeta.
  split; [vm_compute; reflexivity |].
  split; [vm_compute; reflexivity |]. reflexivity.
Qed.

Lemma accept_job_failure_is_half_applied_witness :
  ∃ (e : Py.exn) (u' : UserData),
    JobSystem.accept_job 10%Z "Hero" (user_with_resilience 0) = (Some e, u') ∧
    current_job u' = Some "Hero" ∧
    job_history u'
    = Some (default [] (job_history (user_with_resilience 0))
            ++ [("Hero", 10%Z)]) ∧
    multipliers u' = multipliers (user_with_resilience 0) ∧
    attributes u' = attributes (user_with_resilience 0).
Proof.
  apply (accept_job_failure_is_half_applied 10%Z "Hero"
           (user_with_resilience 0)).
  left. reflexivity.
Defined.

(** ** Stage rewards and chain evaluation, further properties *)

Section ChainsMore.
Import AchievementChainSystem.

Lemma raised_refl (attrs : gmap string Q) : raised_pointwise attrs attrs.
Proof.
  intros a. destruct (attrs !! a) as [v |]; [| reflexivity].
  exists v. split; [reflexivity | apply Qle_refl].
Qed.

Lemma raised_trans (m1 m2 m3 : gmap string Q) :
  raised_pointwise m1 m2 → raised_pointwise m2 m3 → raised_pointwise m1 m3.
Proof.
  intros H12 H23 a. specialize (H12 a). specialize (H23 a).
  destruct (m1 !! a) as [v |].
  - destruct H12 as (v2 & E2 & L2). rewrite E2 in H23.
    destruct H23 as (v3 & E3 & L3). exists v3. split; [exact E3 |].
    eapply Qle_trans; eassumption.
  - rewrite H12 in H23. exact H23.
Qed.

Lemma grant_one_raised (u : UserData) (item : string * Q) :
  (0 <= snd item)%Q →
  raised_pointwise (attributes u) (attributes (grant_one u item)).
Proof.
  destruct item as [attr value]. cbn [snd]. intros Hv. unfold grant_one.
  destruct (attributes u !! attr) as [v |] eqn:Hattr.
  - cbn [attributes set_attributes]. intros a.
    destruct (decide (a = attr)) as [-> | Hne].
    + rewrite Hattr, lookup_insert_eq. eexists. split; [reflexivity | lra].
    + rewrite lookup_insert_ne by congruence.
      destruct (attributes u !! a) as [w |]; [| reflexivity].
      exists w. split; [reflexivity | apply Qle_refl].
  - destruct (String.eqb attr "streak_multiplier"); apply raised_refl.
Qed.

Lemma foldl_grant_one_raised (rewards : list (string * Q)) :
  ∀ u : UserData,
    Forall (fun item => (0 <= snd item)%Q) rewards →
    raised_pointwise (attributes u) (attributes (foldl grant_one u rewards)).
Proof.
  induction rewards as [| item rewards IH]; intros u Hall; cbn [foldl].
  - apply raised_refl.
  - apply Forall_cons in Hall as [Hitem Hall].
    eapply raised_trans; [apply grant_one_raised, Hitem | apply IH, Hall].
Qed.

Lemma assoc_in {V : Type} (k : string) (d : list (string * V)) (v : V) :
  Py.assoc k d = Some v → In (k, v) d.
Proof.
  induction d as [| [k' v'] d IH]; cbn [Py.assoc]; [discriminate |].
  destruct (String.eqb_spec k k') as [-> | _].
  - intros [= ->]. left. reflexivity.
  - intros H. right. apply IH, H.
Qed.

(** X22: grant_stage_rewards never adds or removes an attribute name
    (reward keys that name no attribute are dropped), and with reward
    values that are not negative it never lowers an attribute. *)
Theorem grant_stage_rewards_raises_attributes
    (rewards : list (string * Q)) (u : UserData) :
  Forall (fun item => (0 <= snd item)%Q) rewards →
  raised_pointwise (attributes u) (attributes (grant_stage_rewards rewards u)).
Proof.
  intros Hall. unfold grant_stage_rewards.
  destruct (Py.assoc "all_attributes" rewards) as [amount |] eqn:Hkey.
  - cbn [attributes set_attributes]. intros a. rewrite add_to_all_lookup.
    assert (Hamount : (0 <= amount)%Q).
    { apply assoc_in, list_elem_of_In in Hkey. rewrite Forall_forall in Hall.
      exact (Hall _ Hkey). }
    destruct (attributes u !! a) as [v |]; [| reflexivity].
    cbn. eexists. split; [reflexivity | lra].
  - apply foldl_grant_one_raised, Hall.
Qed.

Lemma start_consistent (now : DateTime.datetime) (c : AchievementChain) :
  chain_consistent c → chain_consistent (start now c).
Proof. unfold start. destruct (started_at c); auto. Qed.

Lemma check_chain_progress_consistent
    (now : DateTime.datetime) (c : AchievementChain) (u : UserData) :
  completed c = false →
  chain_consistent c →
  chain_consistent (chain_after (check_chain_progress now c u)).
Proof.
  intros Hopen Hc.
  assert (Hs : stages (start now c) = stages c)
    by (unfold start; destruct (started_at c); reflexivity).
  assert (Hk : current_stage (start now c) = current_stage c)
    by (unfold start; destruct (started_at c); reflexivity).
  assert (Hd : completed (start now c) = completed c)
    by (unfold start; destruct (started_at c); reflexivity).
  pose proof (start_consistent now c Hc) as Hc1.
  destruct Hc as [Hle Hiff].
  assert (Hlt : (current_stage c < length (stages c))%nat).
  { destruct (decide (current_stage c = length (stages c))) as [Heq | Hne];
      [| lia].
    apply Hiff in Heq. congruence. }
  unfold check_chain_progress. rewrite Hk, Hs.
  destruct (stages c !! current_stage c) as [stage |]; [| exact Hc1].
  destruct (requirement stage u) as [e | [|]]; [exact Hc1 | | exact Hc1].
  destruct (Nat.leb_spec (length (stages (advance (start now c))))
                         (current_stage (advance (start now c))))
    as [Hlast | Hmore].
  - cbn in Hlast. rewrite Hs, Hk in Hlast.
    unfold chain_consistent. cbn.
    rewrite Hs, Hk. split; [lia |]. split; [intros _; lia | reflexivity].
  - cbn in Hmore. rewrite Hs, Hk in Hmore.
    unfold chain_consistent. cbn.
    rewrite Hs, Hk, Hd, Hopen. split; [lia |].
    split; [discriminate | intros; lia].
Qed.

Lemma check_chains_consistent
    (now : DateTime.datetime) (cs : list (string * AchievementChain)) :
  ∀ u : UserData,
    Forall (fun x => chain_consistent (snd x)) cs →
    Forall (fun x => chain_consistent (snd x))
           (chains_after (check_chains now cs u)).
Proof.
  induction cs as [| [cid chain] rest IH]; intros u Hall; cbn [check_chains].
  - constructor.
  - apply Forall_cons in Hall as [Hc Hrest]. cbn [snd] in Hc.
    destruct (completed chain) eqn:Hdone.
    + cbn. constructor; [exact Hc | apply IH, Hrest].
    + pose proof (check_chain_progress_consistent now chain u Hdone Hc) as Hc'.
      destruct (raised (check_chain_progress now chain u)); cbn.
      * constructor; [exact Hc' | exact Hrest].
      * constructor; [exact Hc' | apply IH, Hrest].
Qed.

(** X23: over any sequence of evaluations, chains that start consistent
    (as the chains built by load_chain_progress do) stay consistent: the
    stage index never exceeds the number of stages, a chain is marked
    completed exactly when all its stages have been passed, and therefore
    the stage looked up for a chain that is not completed always exists
    (the index into the stage list is never out of range). *)
Theorem chains_stay_consistent
    (cs cs' : list (string * AchievementChain))
    (tr : list (string * chain_event)) :
  Forall (fun x => chain_consistent (snd x)) cs →
  evaluations cs tr cs' →
  Forall (fun x =>
            chain_consistent (snd x) ∧
            (completed (snd x) = false →
             is_Some (stages (snd x) !! current_stage (snd x))))
         cs'.
Proof.
  intros Hall Hrun.
  assert (Hcons : Forall (fun x => chain_consistent (snd x)) cs').
  { induction Hrun as [cs | cs now u tr cs' Hrest IH]; [exact Hall |].
    apply IH, check_chains_consistent, Hall. }
  eapply Forall_impl; [exact Hcons |].
  intros [cid c] Hc. cbn [snd] in *. split; [exact Hc |].
  intros Hopen. destruct Hc as [Hle Hiff].
  apply lookup_lt_is_Some_2.
  destruct (decide (current_stage c = length (stages c))) as [Heq | Hne];
    [| lia].
  apply Hiff in Heq. congruence.
Qed.

Lemma load_chain_progress_consistent :
  Forall (fun x => chain_consistent (snd x)) load_chain_progress.
Proof.
  unfold load_chain_progress.
  repeat (apply Forall_cons; split;
          [ unfold chain_consistent; cbn; split; [lia |];
            split; [discriminate | intros H; discriminate H] |]).
  apply Forall_nil. exact I.
Defined.

(** X24: an evaluation in which no stage is rewarded leaves the user data
    exactly as it was. *)
Theorem unrewarded_evaluation_keeps_user_data
    (now : DateTime.datetime) (cs : list (string * AchievementChain)) :
  ∀ u : UserData,
    (∀ (cid : string) (k : nat),
        (cid, StageRewarded k) ∉ trace (check_chains now cs u)) →
    data_after (check_chains now cs u) = u.
Proof.
  induction cs as [| [cid chain] rest IH]; intros u Hnone;
    cbn [check_chains] in *.
  - reflexivity.
  - destruct (completed chain).
    + cbn in *. apply IH, Hnone.
    + assert (Hstep :
        (∀ k, StageRewarded k ∉ events (check_chain_progress now chain u)) →
        user_after (check_chain_progress now chain u) = u).
      { unfold check_chain_progress.
        destruct (stages (start now chain) !! current_stage (start now chain))
          as [stage |]; [| reflexivity].
        destruct (requirement stage u) as [e | [|]]; try reflexivity.
        intros Hno. exfalso.
        apply (Hno (current_stage (start now chain))).
        destruct (_ <=? _)%nat; cbn; right; left. }
      destruct (raised (check_chain_progress now chain u)); cbn in *.
      * apply Hstep. intros k Hin. apply (Hnone cid k).
        apply list_elem_of_fmap. exists (StageRewarded k). auto.
      * assert (Hu : user_after (check_chain_progress now chain u) = u).
        { apply Hstep. intros k Hin. apply (Hnone cid k).
          apply elem_of_app. left.
          apply list_elem_of_fmap. exists (StageRewarded k). auto. }
        rewrite Hu in *. apply IH.
        intros cid' k Hin. apply (Hnone cid' k).
        apply elem_of_app. right. exact Hin.
Qed.

End ChainsMore.

Section ChainRequirements.
Import AchievementChainSystem.

Lemma count_tasks_le (d : gmap string Task) :
  (snd (count_tasks d) <= fst (count_tasks d))%nat.
Proof. unfold count_tasks. cbn [fst snd]. apply List.filter_length_le. Qed.

Lemma rate_reached (rate : Q) (done total : nat) :
  (0 < total)%nat →
  Py.ge (inject_Z (Z.of_nat done) / inject_Z (Z.of_nat total)) rate = true ↔
  (rate * inject_Z (Z.of_nat total) <= inject_Z (Z.of_nat done))%Q.
Proof.
  intros Hpos.
  assert (Ht : (0 < inject_Z (Z.of_nat total))%Q).
  { change 0%Q with (inject_Z 0). rewrite <- Zlt_Qlt. lia. }
  unfold Py.ge. rewrite Qle_bool_iff. split.
  - intros H.
    apply (Qmult_le_compat_r _ _ (inject_Z (Z.of_nat total))) in H;
      [| apply Qlt_le_weak, Ht].
    eapply Qle_trans; [exact H |].
    rewrite Qmult_comm, Qmult_div_r; [apply Qle_refl |].
    intros Hz. rewrite Hz in Ht. apply (Qlt_irrefl 0), Ht.
  - intros H. apply Qle_shift_div_l; assumption.
Qed.

(** X25: with the daily and weekly categories present under
    user_data["tasks"], check_task_completion_rate never divides by zero
    and answers True exactly when there is at least one daily or weekly
    task and completed >= required_rate x total; with no such task it
    answers False whatever the required rate.  Special tasks do not
    count. *)
Theorem completion_rate_threshold
    (required_rate : Q) (u : UserData) (ts : TaskStore)
    (daily weekly : gmap string Task) :
  ud_tasks u = Some ts →
  ts !! "daily" = Some daily →
  ts !! "weekly" = Some weekly →
  let total := (fst (count_tasks daily) + fst (count_tasks weekly))%nat in
  let done := (snd (count_tasks daily) + snd (count_tasks weekly))%nat in
  (done <= total)%nat ∧
  ∃ b : bool,
    check_task_completion_rate required_rate u = inr b ∧
    (b = true ↔
     (0 < total)%nat ∧
     (required_rate * inject_Z (Z.of_nat total)
      <= inject_Z (Z.of_nat done))%Q).
Proof.
  intros Hts Hd Hw. cbv zeta.
  split.
  { pose proof (count_tasks_le daily). pose proof (count_tasks_le weekly). lia. }
  unfold check_task_completion_rate. rewrite Hts, Hd, Hw.
  destruct (Nat.ltb_spec 0 (fst (count_tasks daily) + fst (count_tasks weekly)))
    as [Hpos | Hzero].
  - eexists. split; [reflexivity |].
    rewrite (rate_reached _ _ _ Hpos). tauto.
  - exists false. split; [reflexivity |]. split; [discriminate |].
    intros [? _]. lia.
Qed.

(** X26: the requirements of the second and third stage of Consistency
    King read user_data["tasks"]; for user data without that key (all
    user data the application itself builds) they are False below the
    streak threshold and raise KeyError from it on, so an evaluation
    never moves the chain past its first stage and never changes the user
    data. *)
Theorem consistency_king_stuck_without_tasks_key
    (now : DateTime.datetime) (c : AchievementChain) (u : UserData) :
  stages c = stages (snd consistency_king) →
  (1 <= current_stage c)%nat →
  completed c = false →
  ud_tasks u = None →
  let p := check_chain_progress now c u in
  current_stage (chain_after p) = current_stage c ∧
  completed (chain_after p) = false ∧
  user_after p = u ∧
  rewarded (events p) = [] ∧
  (current_stage c = 1%nat → (30 <= streak u)%Z →
   raised p = Some (Py.KeyError "tasks")).
Proof.
  intros Hst Hk Hopen Hnone. cbv zeta.
  assert (Hs : stages (start now c) = stages c)
    by (unfold start; destruct (started_at c); reflexivity).
  assert (Hk1 : current_stage (start now c) = current_stage c)
    by (unfold start; destruct (started_at c); reflexivity).
  assert (Hd : completed (start now c) = false)
    by (unfold start; destruct (started_at c); exact Hopen).
  unfold check_chain_progress. rewrite Hk1, Hs, Hst.
  destruct (current_stage c) as [| [| [| n]]] eqn:Hcur; [lia | | |].
  - cbn [consistency_king new_chain snd stages lookup list_lookup requirement].
    unfold py_and, streak_at_least, check_task_completion_rate.
    rewrite Hnone.
    destruct (Z.leb_spec 30 (streak u)); cbn;
      repeat split; auto; try lia; discriminate.
  - cbn [consistency_king new_chain snd stages lookup list_lookup requirement
         living_legend].
    unfold py_and, streak_at_least, check_task_completion_rate.
    rewrite Hnone.
    destruct (Z.leb_spec 100 (streak u)); cbn;
      repeat split; auto; try lia; discriminate.
  - cbn. repeat split; auto. discriminate.
Qed.

End ChainRequirements.

Lemma grant_stage_rewards_raises_attributes_witness :
  raised_pointwise
    (attributes athlete)
    (attributes
       (AchievementChainSystem.grant_stage_rewards
          [("Physical", 25%Q); ("Health", 10%Q); ("Luck", 3%Q)] athlete)).
Proof.
  apply (grant_stage_rewards_raises_attributes
           [("Physical", 25%Q); ("Health", 10%Q); ("Luck", 3%Q)] athlete).
  repeat (apply Forall_cons; split; [cbn; unfold Qle; cbn; lia |]).
  apply Forall_nil. exact I.
Defined.

Lemma chains_stay_consistent_witness :
  Forall (fun x =>
            chain_consistent (snd x) ∧
            (AchievementChainSystem.completed (snd x) = false →
             is_Some (AchievementChainSystem.stages (snd x)
                      !! AchievementChainSystem.current_stage (snd x))))
         (AchievementChainSystem.chains_after
            (AchievementChainSystem.check_chains
               1%Z AchievementChainSystem.load_chain_progress athlete)).
Proof.
  apply (chains_stay_consistent AchievementChainSystem.load_chain_progress _
           (AchievementChainSystem.trace
              (AchievementChainSystem.check_chains
                 1%Z AchievementChainSystem.load_chain_progress athlete)
            ++ [])).
  - exact load_chain_progress_consistent.
  - apply evaluations_next, evaluations_done.
Defined.

Lemma unrewarded_evaluation_keeps_user_data_witness :
  AchievementChainSystem.data_after
    (AchievementChainSystem.check_chains
       1%Z AchievementChainSystem.load_chain_progress
       (user_with_resilience 0))
  = user_with_resilience 0.
Proof.
  apply (unrewarded_evaluation_keeps_user_data
           1%Z AchievementChainSystem.load_chain_progress
           (user_with_resilience 0)).
  intros cid k Hin. apply list_elem_of_In in Hin.
  assert (Htr :
    AchievementChainSystem.trace
      (AchievementChainSystem.check_chains
         1%Z AchievementChainSystem.load_chain_progress
         (user_with_resilience 0))
    = [("physical_mastery", AchievementChainSystem.StageChecked 0);
       ("mind_master", AchievementChainSystem.StageChecked 0);
       ("consistency_king", AchievementChainSystem.StageChecked 0)])
    by (vm_compute; reflexivity).
  rewrite Htr in Hin. cbn [In] in Hin.
  repeat (destruct Hin as [Hin | Hin]; [discriminate Hin |]).
  exact Hin.
Defined.

Lemma completion_rate_threshold_witness :
  let total := (fst (AchievementChainSystem.count_tasks
                       (<["daily_1" := TaskManager.mark_completed 5%Z run_task]>
                          {["daily_2" := run_task]}))
                + fst (AchievementChainSystem.count_tasks ∅))%nat in
  let done := (snd (AchievementChainSystem.count_tasks
                      (<["daily_1" := TaskManager.mark_completed 5%Z run_task]>
                         {["daily_2" := run_task]}))
               + snd (AchievementChainSystem.count_tasks ∅))%nat in
  (done <= total)%nat ∧
  ∃ b : bool,
    AchievementChainSystem.check_task_completion_rate
      0.5 (user_with_tasks half_done_store) = inr b ∧
    (b = true ↔
     (0 < total)%nat ∧
     (0.5 * inject_Z (Z.of_nat total) <= inject_Z (Z.of_nat done))%Q).
Proof.
  apply (completion_rate_threshold 0.5 (user_with_tasks half_done_store)
           half_done_store
           (<["daily_1" := TaskManager.mark_completed 5%Z run_task]>
              {["daily_2" := run_task]}) ∅).
  - reflexivity.
  - vm_compute. reflexivity.
  - vm_compute. reflexivity.
Defined.

Lemma consistency_king_stuck_without_tasks_key_witness :
  let p := AchievementChainSystem.check_chain_progress
             5%Z consistency_king_at_stage_one (user_with_streak 30) in
  AchievementChainSystem.current_stage (AchievementChainSystem.chain_after p)
  = AchievementChainSystem.current_stage consistency_king_at_stage_one ∧
  AchievementChainSystem.completed (AchievementChainSystem.chain_after p)
  = false ∧
  AchievementChainSystem.user_after p = user_with_streak 30 ∧
  rewarded (AchievementChainSystem.events p) = [] ∧
  (AchievementChainSystem.current_stage consistency_king_at_stage_one = 1%nat →
   (30 <= streak (user_with_streak 30))%Z →
   AchievementChainSystem.raised p = Some (Py.KeyError "tasks")).
Proof.
  apply (consistency_king_stuck_without_tasks_key
           5%Z consistency_king_at_stage_one (user_with_streak 30)).
  - reflexivity.
  - cbn. lia.
  - reflexivity.
  - reflexivity.
Defined.

(** ** Rank bands and statistics *)

Section RankBands.
Import ProgressTracker ProgressStats.

Lemma clamp_inside (x : Q) :
  (0 <= x <= 1)%Q → (Py.max 0 (Py.min 1 x) == x)%Q.
Proof.
  intros [H0 H1]. unfold Py.max, Py.min.
  rewrite (Q.min_r 1 x) by exact H1. apply Q.max_r, H0.
Qed.

Lemma clamp_below (x : Q) :
  (x <= 0)%Q → (Py.max 0 (Py.min 1 x) == 0)%Q.
Proof.
  intros H. unfold Py.max, Py.min.
  rewrite (Q.min_r 1 x) by lra. apply Q.max_l, H.
Qed.

(** Settle every comparison of [v] with a threshold from the bounds in
    the context. *)
Ltac settle_thresholds v :=
  repeat match goal with
         | |- context [Qle_bool ?c v] =>
             first
               [ replace (Qle_bool c v) with true
                   by (symmetry; apply Qle_bool_iff; lra)
               | replace (Qle_bool c v) with false
                   by (symmetry; apply not_true_is_false;
                       rewrite Qle_bool_iff; lra) ]
         end.

(** X27: between two consecutive thresholds t <= v < t' of the rank table
    the calculator returns the rank of t as current rank, the rank of t'
    as next rank and the fraction (v - t) / 85 of the band as progress;
    below 0 it returns E, D and progress 0. *)
Theorem calculate_rank_bands :
  (∀ (v : Q) (i : nat) (rank next : string) (t t' : Q),
      rank_thresholds !! i = Some (rank, t) →
      rank_thresholds !! S i = Some (next, t') →
      (t <= v)%Q → (v < t')%Q →
      ∃ p : Q, calculate_rank v = inr (rank, next, p) ∧
               (p == (v - t) / 85)%Q) ∧
  (∀ v : Q, (v < 0)%Q →
      ∃ p : Q, calculate_rank v = inr ("E", "D", p) ∧ (p == 0)%Q).
Proof.
  split.
  - intros v i rank next t t' Hi Hi' Hlo Hhi.
    unfold rank_thresholds in Hi, Hi'.
    do 7 (destruct i as [| i];
          [ cbn in Hi, Hi'; injection Hi as <- <-; injection Hi' as <- <-;
            unfold calculate_rank, rank_thresholds, rank_loop, rank_step, Py.ge;
            settle_thresholds v; cbn;
            eexists; split; [reflexivity |];
            rewrite clamp_inside;
            [ unfold Qdiv; apply Qmult_comp;
              [ apply Qeq_refl | vm_compute; reflexivity ] | ];
            split;
            [ apply Qle_shift_div_l; lra | apply Qle_shift_div_r; lra ]
          | ]).
    cbn in Hi'. destruct i; discriminate Hi'.
  - intros v Hv.
    unfold calculate_rank, rank_thresholds, rank_loop, rank_step, Py.ge.
    settle_thresholds v. cbn.
    eexists. split; [reflexivity |].
    apply clamp_below. apply Qle_shift_div_r; lra.
Qed.

End RankBands.

Section Statistics.
Import ProgressTracker ProgressStats.

Lemma radar_value_reached (v : Q) :
  radar_value v = inr (1 + Z.of_nat (thresholds_reached v))%Z.
Proof.
  unfold radar_value, calculate_rank, rank_thresholds, rank_loop, rank_step,
    thresholds_reached, upper_thresholds, Py.ge.
  cbn [List.filter].
  destruct (Qle_bool 0 v) eqn:E0; destruct (Qle_bool 85 v) eqn:E1;
    destruct (Qle_bool 170 v) eqn:E2; destruct (Qle_bool 255 v) eqn:E3;
    destruct (Qle_bool 340 v) eqn:E4; destruct (Qle_bool 425 v) eqn:E5;
    destruct (Qle_bool 510 v) eqn:E6; destruct (Qle_bool 595 v) eqn:E7;
    first
      [ reflexivity
      | exfalso;
        repeat match goal with
               | H : Qle_bool _ _ = true |- _ => apply Qle_bool_iff in H
               | H : Qle_bool _ _ = false |- _ =>
                   apply not_true_iff_false in H; rewrite Qle_bool_iff in H
               end;
        lra ].
Qed.

Lemma filter_length_mono {A : Type} (f g : A → bool) (l : list A) :
  (∀ x : A, f x = true → g x = true) →
  (length (List.filter f l) <= length (List.filter g l))%nat.
Proof.
  intros Himp. induction l as [| x l IH]; [reflexivity |].
  cbn [List.filter]. destruct (f x) eqn:Hf.
  - rewrite (Himp x Hf). cbn. lia.
  - destruct (g x); cbn; lia.
Qed.

(** X28: the rank never drops when the value grows: for v <= w the radar
    value (1 for E up to 8 for SSS) of v is at most that of w; it is 1 plus
    the number of thresholds 85, 170, ..., 595 that the value has reached. *)
Theorem rank_never_drops (v w : Q) :
  (v <= w)%Q →
  ∃ a b : Z,
    radar_value v = inr a ∧ radar_value w = inr b ∧
    a = (1 + Z.of_nat (thresholds_reached v))%Z ∧
    (1 <= a <= b)%Z ∧ (b <= 8)%Z.
Proof.
  intros Hvw. exists (1 + Z.of_nat (thresholds_reached v))%Z,
                     (1 + Z.of_nat (thresholds_reached w))%Z.
  split; [apply radar_value_reached |].
  split; [apply radar_value_reached |].
  split; [reflexivity |].
  assert (Hmono : (thresholds_reached v <= thresholds_reached w)%nat).
  { unfold thresholds_reached. apply filter_length_mono.
    intros t. unfold Py.ge. rewrite !Qle_bool_iff. intros H.
    eapply Qle_trans; eassumption. }
  assert (Hmax : (thresholds_reached w <= 7)%nat).
  { unfold thresholds_reached.
    etransitivity; [apply List.filter_length_le | reflexivity]. }
  lia.
Qed.





(** [max_item] returns an item of the sequence that no item exceeds and
    that every earlier item is strictly below: the first of the greatest
    items. *)
Lemma max_item_spec (rest : list (string * Q)) :
  ∀ best : string * Q,
    ∃ i : nat,
      (best :: rest) !! i = Some (max_item best rest) ∧
      (∀ (j : nat) (x : string * Q),
          (best :: rest) !! j = Some x →
          (snd x <= snd (max_item best rest))%Q) ∧
      (∀ (j : nat) (x : string * Q),
          (j < i)%nat → (best :: rest) !! j = Some x →
          (snd x < snd (max_item best rest))%Q).
Proof.
  induction rest as [| y rest IH]; intros best; cbn [max_item].
  - exists 0%nat. split; [reflexivity |]. split.
    + intros [| j] x Hx; [| discriminate Hx]. injection Hx as <-.
      apply Qle_refl.
    + intros j x Hj. lia.
  - unfold Py.lt. destruct (Qle_bool (snd y) (snd best)) eqn:Hle; cbn [negb].
    + apply Qle_bool_iff in Hle.
      destruct (IH best) as (i & Hi & Hmax & Hfirst).
      assert (Hbest : (snd best <= snd (max_item best rest))%Q)
        by (apply (Hmax 0%nat best); reflexivity).
      destruct i as [| i].
      * exists 0%nat. split; [exact Hi |]. split; [| intros j x Hj; lia].
        intros [| [| j]] x Hx.
        -- injection Hx as <-. exact Hbest.
        -- injection Hx as <-. lra.
        -- apply (Hmax (S j) x). exact Hx.
      * exists (S (S i)). split; [exact Hi |]. split.
        -- intros [| [| j]] x Hx.
           ++ injection Hx as <-. exact Hbest.
           ++ injection Hx as <-. lra.
           ++ apply (Hmax (S j) x). exact Hx.
        -- assert (Hlt : (snd best < snd (max_item best rest))%Q)
             by (apply (Hfirst 0%nat best); [lia | reflexivity]).
           intros [| [| j]] x Hj Hx.
           ++ injection Hx as <-. exact Hlt.
           ++ injection Hx as <-. lra.
           ++ apply (Hfirst (S j) x); [lia | exact Hx].
    + apply not_true_iff_false in Hle. rewrite Qle_bool_iff in Hle.
      destruct (IH y) as (i & Hi & Hmax & Hfirst).
      assert (Hy : (snd y <= snd (max_item y rest))%Q)
        by (apply (Hmax 0%nat y); reflexivity).
      exists (S i). split; [exact Hi |]. split.
      * intros [| j] x Hx.
        -- injection Hx as <-. lra.
        -- apply (Hmax j x). exact Hx.
      * intros [| j] x Hj Hx.
        -- injection Hx as <-. lra.
        -- apply (Hfirst j x); [lia | exact Hx].
Qed.

Lemma rank_names_total (items : list (string * Q)) :
  ∃ rs : list (string * string),
    rank_names items = inr rs ∧ map fst rs = map fst items.
Proof.
  induction items as [| [attr val] items (rs & Hrs & Hkeys)];
    cbn [rank_names].
  - exists []. split; reflexivity.
  - destruct (calculate_rank_total val) as (cur & nxt & p & Hrank & _).
    rewrite Hrank, Hrs. eexists. split; [reflexivity |].
    cbn. f_equal. exact Hkeys.
Qed.

(** With every key present, the items are the keys with their values. *)
Lemma items_in_order_present (keys : list string) (attrs : gmap string Q) :
  (∀ k : string, k ∈ keys → is_Some (attrs !! k)) →
  items_in_order keys attrs
  = map (fun k : string => (k, Py.get attrs k 0)) keys.
Proof.
  unfold items_in_order. induction keys as [| k keys IH]; intros Hall.
  - reflexivity.
  - cbn [omap list_omap map].
    destruct (Hall k) as [v Hv]; [left |].
    unfold Py.get. rewrite Hv. cbn [fmap option_fmap option_map default].
    unfold Datatypes.id. f_equal. apply IH.
    intros k' Hk'. apply Hall. right. exact Hk'.
Qed.

Lemma lookup_map_Some {A B : Type} (f : A → B) (l : list A) (i : nat) (y : B) :
  map f l !! i = Some y ↔ ∃ x : A, l !! i = Some x ∧ y = f x.
Proof.
  revert i. induction l as [| a l IH]; intros i; cbn [map].
  - rewrite lookup_nil. split; [discriminate | intros (x & Hx & _)].
    rewrite lookup_nil in Hx. discriminate Hx.
  - destruct i as [| i]; cbn.
    + split; [intros [= <-]; eauto | intros (x & [= <-] & ->); reflexivity].
    + apply IH.
Qed.

(** X30: get_attribute_stats, on an attribute dictionary whose keys were
    inserted in the order keys, raises ValueError when the dictionary is
    empty; otherwise highest_attribute is an attribute of the dictionary,
    highest_value is its value, no attribute is above it, every attribute
    inserted before it is strictly below it (of several attributes with
    the greatest value the first inserted is reported), and ranks has one
    entry per attribute, in the order of insertion. *)
Theorem attribute_stats_highest (keys : list string) (u : UserData) :
  insertion_order keys (attributes u) →
  (attributes u = ∅ → get_attribute_stats keys u = inl Py.ValueError) ∧
  (attributes u ≠ ∅ →
   ∃ (st : attribute_stats) (i : nat),
     get_attribute_stats keys u = inr st ∧
     keys !! i = Some (highest_attribute st) ∧
     attributes u !! highest_attribute st = Some (highest_value st) ∧
     (∀ (a : string) (v : Q),
         attributes u !! a = Some v → (v <= highest_value st)%Q) ∧
     (∀ (j : nat) (a : string) (v : Q),
         (j < i)%nat → keys !! j = Some a → attributes u !! a = Some v →
         (v < highest_value st)%Q) ∧
     map fst (ranks st) = keys).
Proof.
  intros [Hnd Hkeys].
  assert (Hitems : items_in_order keys (attributes u)
                   = map (fun k : string => (k, Py.get (attributes u) k 0))
                         keys).
  { apply items_in_order_present. intros k Hk. apply Hkeys, Hk. }
  split.
  - intros Hempty. unfold get_attribute_stats. rewrite Hitems.
    destruct keys as [| k keys]; [reflexivity |].
    destruct (proj1 (Hkeys k)) as [v Hv]; [left |].
    rewrite Hempty, lookup_empty in Hv. discriminate Hv.
  - intros Hne. unfold get_attribute_stats.
    destruct (items_in_order keys (attributes u)) as [| first rest] eqn:Hit.
    { exfalso. destruct keys as [| k keys]; [| discriminate Hitems].
      apply Hne. apply map_eq. intros k. rewrite lookup_empty.
      destruct (attributes u !! k) eqn:Hk; [| reflexivity].
      assert (Hin : k ∈ []) by (apply Hkeys; eauto).
      inversion Hin. }
    destruct (rank_names_total (first :: rest)) as (rs & Hrs & Hranks).
    rewrite Hrs.
    destruct (max_item_spec rest first) as (i & Hi & Hmax & Hfirst).
    rewrite Hitems in Hi, Hmax, Hfirst, Hranks.
    apply lookup_map_Some in Hi as (a0 & Ha0 & Hbest).
    assert (Hval : attributes u !! a0 = Some (Py.get (attributes u) a0 0)).
    { destruct (proj1 (Hkeys a0)) as [v Hv];
        [eapply list_elem_of_lookup_2, Ha0 |].
      unfold Py.get. rewrite Hv. reflexivity. }
    assert (Hitem : ∀ (j : nat) (a : string) (v : Q),
               keys !! j = Some a → attributes u !! a = Some v →
               map (fun k : string => (k, Py.get (attributes u) k 0)) keys !! j
               = Some (a, v)).
    { intros j a v Hj Hv. apply lookup_map_Some. exists a.
      split; [exact Hj |]. unfold Py.get. rewrite Hv. reflexivity. }
    eexists _, i. split; [reflexivity |].
    cbn [highest_attribute highest_value ranks].
    rewrite Hbest in *. cbn [fst snd] in *.
    split; [exact Ha0 |]. split; [exact Hval |]. split; [| split].
    + intros a v Hv.
      assert (Hin : a ∈ keys) by (apply Hkeys; eauto).
      apply list_elem_of_lookup_1 in Hin as (j & Hj).
      exact (Hmax j (a, v) (Hitem j a v Hj Hv)).
    + intros j a v Hj Ha Hv.
      exact (Hfirst j (a, v) Hj (Hitem j a v Ha Hv)).
    + rewrite Hranks, map_map. cbn [fst]. apply map_id.
Qed.

Lemma insertion_order_empty : insertion_order [] ∅.
Proof.
  split; [apply NoDup_nil_2 |].
  intros k. rewrite lookup_empty. split.
  - intros H. inversion H.
  - intros [v Hv]. discriminate Hv.
Defined.

Lemma attribute_order_athlete :
  insertion_order attribute_order (attributes athlete).
Proof.
  split.
  - unfold attribute_order.
    repeat (apply NoDup_cons_2;
            [ rewrite ?elem_of_cons, elem_of_nil;
              intros H; repeat destruct H as [H | H];
              try discriminate H; exact H |]).
    apply NoDup_nil_2.
  - intros k. unfold attribute_order, athlete, DataManager.initial_attributes.
    cbn [attributes set_attributes].
    rewrite !elem_of_cons, elem_of_nil.
    rewrite <- !elem_of_dom, !dom_insert, dom_empty.
    rewrite !elem_of_union, !elem_of_singleton, elem_of_empty.
    intuition.
Defined.

End Statistics.

Lemma calculate_rank_bands_witness :
  (∃ p : Q, ProgressTracker.calculate_rank 100 = inr ("D", "C", p) ∧
            (p == (100 - 85) / 85)%Q) ∧
  (∃ p : Q, ProgressTracker.calculate_rank (-3) = inr ("E", "D", p) ∧
            (p == 0)%Q).
Proof.
  destruct calculate_rank_bands as [Hband Hneg]. split.
  - apply (Hband 100%Q 1%nat "D" "C" 85%Q 170%Q).
    + reflexivity.
    + reflexivity.
    + unfold Qle. cbn. lia.
    + unfold Qlt. cbn. lia.
  - apply (Hneg (-3)%Q). unfold Qlt. cbn. lia.
Defined.

Lemma rank_never_drops_witness :
  ∃ a b : Z,
    ProgressStats.radar_value 100 = inr a ∧
    ProgressStats.radar_value 300 = inr b ∧
    a = (1 + Z.of_nat (thresholds_reached 100))%Z ∧
    (1 <= a <= b)%Z ∧ (b <= 8)%Z.
Proof.
  apply (rank_never_drops 100%Q 300%Q). unfold Qle. cbn. lia.
Defined.


(** The statistics of the half-done store: two tasks, one completed. *)
Example task_stats_half_done :
  ProgressStats.get_task_stats (user_with_tasks half_done_store)
  = inr (ProgressStats.TaskStats (ProgressStats.Counters 2 1 1 0) 0
                                 (1 / 2)%Q).
Proof. vm_compute. reflexivity. Qed.

Lemma attribute_stats_highest_witness :
  ProgressStats.get_attribute_stats [] (set_attributes ∅ athlete)
  = inl Py.ValueError ∧
  ∃ (st : ProgressStats.attribute_stats) (i : nat),
    ProgressStats.get_attribute_stats attribute_order athlete = inr st ∧
    attribute_order !! i = Some (ProgressStats.highest_attribute st) ∧
    attributes athlete !! ProgressStats.highest_attribute st
    = Some (ProgressStats.highest_value st) ∧
    (∀ (a : string) (v : Q),
        attributes athlete !! a = Some v →
        (v <= ProgressStats.highest_value st)%Q) ∧
    (∀ (j : nat) (a : string) (v : Q),
        (j < i)%nat → attribute_order !! j = Some a →
        attributes athlete !! a = Some v →
        (v < ProgressStats.highest_value st)%Q) ∧
    map fst (ProgressStats.ranks st) = attribute_order.
Proof.
  split.
  - apply (proj1 (attribute_stats_highest [] (set_attributes ∅ athlete)
                    insertion_order_empty)).
    reflexivity.
  - apply (proj2 (attribute_stats_highest attribute_order athlete
                    attribute_order_athlete)).
    intros H. apply (f_equal (fun m : gmap string Q => m !! "Health")) in H.
    vm_compute in H. discriminate H.
Defined.

(** The athlete's statistics: Physical is highest at 600, rank SSS. *)
Example attribute_stats_athlete :
  ∃ st : ProgressStats.attribute_stats,
    ProgressStats.get_attribute_stats attribute_order athlete = inr st ∧
    ProgressStats.highest_attribute st = "Physical" ∧
    ProgressStats.highest_value st = 600%Q ∧
    Py.assoc "Physical" (ProgressStats.ranks st) = Some "SSS" ∧
    Py.assoc "Health" (ProgressStats.ranks st) = Some "E".
Proof.
  eexists. split; [vm_compute; reflexivity |].
  repeat split; vm_compute; reflexivity.
Qed.

(** A fresh state has all six attributes at 0: the first inserted, Health,
    is the one reported. *)
Example attribute_stats_fresh_state :
  ∃ st : ProgressStats.attribute_stats,
    ProgressStats.get_attribute_stats attribute_order
      (user_data (DataManager.initialize_new_state 0%Z)) = inr st ∧
    ProgressStats.highest_attribute st = "Health" ∧
    ProgressStats.highest_value st = 0%Q.
Proof.
  eexists. split; [vm_compute; reflexivity |].
  split; vm_compute; reflexivity.
Qed.

(** ** Export and import *)

Section ExportImport.
Import DataExchange.

Variable Locked History : Type.
Variable no_locks : Locked.
Variable no_history : History.

Lemma read_user_ext (h ext : heap Locked History) (r : nat) (u : UserData) :
  read_user h r = Some u → read_user (h ++ ext) r = Some u.
Proof.
  unfold read_user. destruct (h !! r) as [o |] eqn:Ho; [| discriminate].
  rewrite (lookup_app_l_Some _ _ _ _ Ho). auto.
Qed.

Lemma read_tasks_ext (h ext : heap Locked History) (r : nat) (t : TaskStore) :
  read_tasks h r = Some t → read_tasks (h ++ ext) r = Some t.
Proof.
  unfold read_tasks. destruct (h !! r) as [o |] eqn:Ho; [| discriminate].
  rewrite (lookup_app_l_Some _ _ _ _ Ho). auto.
Qed.

Lemma read_locked_ext (h ext : heap Locked History) (r : nat) (l : Locked) :
  read_locked h r = Some l → read_locked (h ++ ext) r = Some l.
Proof.
  unfold read_locked. destruct (h !! r) as [o |] eqn:Ho; [| discriminate].
  rewrite (lookup_app_l_Some _ _ _ _ Ho). auto.
Qed.

Lemma read_history_ext (h ext : heap Locked History) (r : nat) (p : History) :
  read_history h r = Some p → read_history (h ++ ext) r = Some p.
Proof.
  unfold read_history. destruct (h !! r) as [o |] eqn:Ho; [| discriminate].
  rewrite (lookup_app_l_Some _ _ _ _ Ho). auto.
Qed.

Lemma lookup_new (h : heap Locked History) (o : object Locked History) :
  (h ++ [o]) !! length h = Some o.
Proof. unfold heap in *. apply list_lookup_middle. reflexivity. Qed.

(** The object a key is exported with holds the value of the key, or the
    default when the key is missing. *)
Lemma get_or_new_locked
    (r : option nat) (h : heap Locked History) (v : option Locked) :
  dump_key read_locked h r = Some v →
  ∃ (l : nat) (ext : heap Locked History),
    get_or_new r (LockedObject Locked History no_locks) h = (l, h ++ ext) ∧
    read_locked (h ++ ext) l = Some (default no_locks v).
Proof.
  unfold dump_key, get_or_new, alloc. destruct r as [x |].
  - destruct (read_locked h x) as [w |] eqn:Hw; [| discriminate].
    intros [= <-]. exists x, []. rewrite app_nil_r. auto.
  - intros [= <-]. exists (length h), [LockedObject Locked History no_locks].
    split; [reflexivity |]. unfold read_locked. rewrite lookup_new.
    reflexivity.
Qed.

Lemma get_or_new_history
    (r : option nat) (h : heap Locked History) (v : option History) :
  dump_key read_history h r = Some v →
  ∃ (p : nat) (ext : heap Locked History),
    get_or_new r (HistoryObject Locked History no_history) h = (p, h ++ ext) ∧
    read_history (h ++ ext) p = Some (default no_history v).
Proof.
  unfold dump_key, get_or_new, alloc. destruct r as [x |].
  - destruct (read_history h x) as [w |] eqn:Hw; [| discriminate].
    intros [= <-]. exists x, []. rewrite app_nil_r. auto.
  - intros [= <-]. exists (length h), [HistoryObject Locked History no_history].
    split; [reflexivity |]. unfold read_history. rewrite lookup_new.
    reflexivity.
Qed.

(** What [export_data] returns for a session state that can be read. *)
Lemma export_data_refs
    (now : DateTime.datetime) (ss : session_state) (h : heap Locked History)
    (st : app_state Locked History) :
  view ss h = Some st →
  ∃ (l p : nat) (h1 : heap Locked History),
    export_data no_locks no_history now ss h
    = (ExportDict (Some (ss_user_data ss)) (Some (ss_tasks ss)) (Some l)
                  (Some p) (Some now) (Some "1.0"), h1) ∧
    read_user h1 (ss_user_data ss) = Some (user_data (session st)) ∧
    read_tasks h1 (ss_tasks ss) = Some (tasks (session st)) ∧
    read_locked h1 l = Some (default no_locks (locked_attributes st)) ∧
    read_history h1 p = Some (default no_history (penalty_history st)).
Proof.
  unfold view. intros Hview.
  destruct (read_user h (ss_user_data ss)) as [u |] eqn:Hu; [| discriminate].
  destruct (read_tasks h (ss_tasks ss)) as [t |] eqn:Ht; [| discriminate].
  destruct (dump_key read_locked h (ss_locked_attributes ss)) as [lv |] eqn:Hl;
    [| discriminate].
  destruct (dump_key read_history h (ss_penalty_history ss)) as [pv |] eqn:Hp;
    [| discriminate].
  injection Hview as <-. cbn [session locked_attributes penalty_history
                              user_data tasks].
  destruct (get_or_new_locked _ _ _ Hl) as (l & ext1 & Hget1 & Hread1).
  assert (Hp1 : dump_key read_history (h ++ ext1) (ss_penalty_history ss)
                = Some pv).
  { unfold dump_key in *. destruct (ss_penalty_history ss) as [x |]; [| auto].
    destruct (read_history h x) as [w |] eqn:Hw; [| discriminate].
    rewrite (read_history_ext _ ext1 _ _ Hw). exact Hp. }
  destruct (get_or_new_history _ _ _ Hp1) as (p & ext2 & Hget2 & Hread2).
  exists l, p, ((h ++ ext1) ++ ext2).
  unfold export_data. rewrite Hget1, Hget2.
  split; [reflexivity |].
  split; [do 2 apply read_user_ext; exact Hu |].
  split; [do 2 apply read_tasks_ext; exact Ht |].
  split; [apply read_locked_ext; exact Hread1 | exact Hread2].
Qed.

(** Importing a dictionary whose four objects can be read. *)
Lemma import_data_refs
    (u t l p : nat) (now : option DateTime.datetime) (version : option string)
    (ss : session_state) (h : heap Locked History)
    (uv : UserData) (tv : TaskStore) (lv : Locked) (pv : History)
    (stamp : DateTime.datetime) (ver : string) :
  now = Some stamp → version = Some ver →
  read_user h u = Some uv → read_tasks h t = Some tv →
  read_locked h l = Some lv → read_history h p = Some pv →
  import_data no_locks no_history
              (ExportDict (Some u) (Some t) (Some l) (Some p) now version) ss h
  = (true, SessionState u t (Some l) (Some p), h) ∧
  view (SessionState u t (Some l) (Some p)) h
  = Some (AppState Locked History (mkSession uv tv) (Some lv) (Some pv)).
Proof.
  intros -> -> Hu Ht Hl Hp. split; [reflexivity |].
  unfold view, dump_key. cbn [ss_user_data ss_tasks ss_locked_attributes
                              ss_penalty_history].
  rewrite Hu, Ht, Hl, Hp. reflexivity.
Qed.

Lemma read_user_insert_ne
    (h : heap Locked History) (r i : nat) (o : object Locked History) :
  i ≠ r → read_user (<[i := o]> h) r = read_user h r.
Proof.
  intros Hne. unfold read_user, heap in *.
  rewrite list_lookup_insert_ne by exact Hne.
  reflexivity.
Qed.

Lemma read_tasks_insert_ne
    (h : heap Locked History) (r i : nat) (o : object Locked History) :
  i ≠ r → read_tasks (<[i := o]> h) r = read_tasks h r.
Proof.
  intros Hne. unfold read_tasks, heap in *.
  rewrite list_lookup_insert_ne by exact Hne.
  reflexivity.
Qed.

Lemma read_locked_insert_ne
    (h : heap Locked History) (r i : nat) (o : object Locked History) :
  i ≠ r → read_locked (<[i := o]> h) r = read_locked h r.
Proof.
  intros Hne. unfold read_locked, heap in *.
  rewrite list_lookup_insert_ne by exact Hne.
  reflexivity.
Qed.

Lemma read_history_insert_ne
    (h : heap Locked History) (r i : nat) (o : object Locked History) :
  i ≠ r → read_history (<[i := o]> h) r = read_history h r.
Proof.
  intros Hne. unfold read_history, heap in *.
  rewrite list_lookup_insert_ne by exact Hne.
  reflexivity.
Qed.

(** X2: export_data puts the session's own dictionaries into the result,
    so what an export restores depends on the path it takes.  Written to
    a JSON file at the time of the export and read back later, it makes
    import_data succeed and install the state as it was at the export
    (with locked_attributes and penalty_history filled with their
    defaults where they were missing), whatever the session has become in
    the meantime.  Passed to import_data as the live dictionary, it
    installs the user data and tasks as in-place changes have left them
    since the export, not as they were.  A dictionary that lacks
    user_data, tasks, exported_at or version is rejected and changes
    nothing. *)
Theorem export_then_import_restores
    (now : DateTime.datetime) (ss : session_state) (h : heap Locked History)
    (st : app_state Locked History) :
  view ss h = Some st →
  ∃ (d : export_dict) (h1 : heap Locked History)
    (file : json_file Locked History),
    export_data no_locks no_history now ss h = (d, h1) ∧
    dumps d h1 = Some file ∧
    (∀ (ss2 : session_state) (h2 : heap Locked History),
        ∃ (ss3 : session_state) (h3 : heap Locked History),
          import_data no_locks no_history
                      (fst (loads file h2)) ss2 (snd (loads file h2))
          = (true, ss3, h3) ∧
          view ss3 h3 = Some (with_defaults no_locks no_history st)) ∧
    (∀ (u' : UserData) (t' : TaskStore),
        ∃ ss3 : session_state,
          import_data no_locks no_history d ss
            (<[ss_tasks ss := TasksObject Locked History t']>
               (<[ss_user_data ss := UserObject Locked History u']> h1))
          = (true, ss3,
             <[ss_tasks ss := TasksObject Locked History t']>
               (<[ss_user_data ss := UserObject Locked History u']> h1)) ∧
          view ss3
            (<[ss_tasks ss := TasksObject Locked History t']>
               (<[ss_user_data ss := UserObject Locked History u']> h1))
          = Some (AppState Locked History (mkSession u' t')
                    (locked_attributes
                       (with_defaults no_locks no_history st))
                    (penalty_history
                       (with_defaults no_locks no_history st)))) ∧
    (∀ (data : export_dict) (ss2 : session_state) (h2 : heap Locked History),
        d_user_data data = None ∨ d_tasks data = None ∨
        d_exported_at data = None ∨ d_version data = None →
        import_data no_locks no_history data ss2 h2 = (false, ss2, h2)).
Proof.
  intros Hview.
  destruct (export_data_refs now ss h st Hview)
    as (l & p & h1 & Hexp & Hu & Ht & Hl & Hp).
  destruct st as [[uv tv] lv pv].
  unfold with_defaults.
  cbn [session locked_attributes penalty_history user_data tasks] in *.
  eexists _, h1, _. split; [exact Hexp |].
  split.
  { unfold dumps, dump_key. cbn [d_user_data d_tasks d_locked_attributes
                                  d_penalty_history d_exported_at d_version].
    rewrite Hu, Ht, Hl, Hp. reflexivity. }
  split; [| split].
  - intros ss2 h2. unfold loads, load_key, alloc.
    cbn [x_user_data x_tasks x_locked_attributes x_penalty_history
         x_exported_at x_version fst snd].
    eexists _, _.
    eapply import_data_refs; try reflexivity.
    + do 3 apply read_user_ext. unfold read_user. rewrite lookup_new.
      reflexivity.
    + do 2 apply read_tasks_ext. unfold read_tasks. rewrite lookup_new.
      reflexivity.
    + apply read_locked_ext. unfold read_locked. rewrite lookup_new.
      reflexivity.
    + unfold read_history. rewrite lookup_new. reflexivity.
  - intros u' t'.
    assert (Hut : ss_user_data ss ≠ ss_tasks ss).
    { intros Heq. unfold read_user, read_tasks in Hu, Ht. rewrite Heq in Hu.
      destruct (h1 !! ss_tasks ss) as [[| | |] |]; discriminate. }
    assert (Hul : ss_user_data ss ≠ l).
    { intros Heq. unfold read_user, read_locked in Hu, Hl. rewrite Heq in Hu.
      destruct (h1 !! l) as [[| | |] |]; discriminate. }
    assert (Hup : ss_user_data ss ≠ p).
    { intros Heq. unfold read_user, read_history in Hu, Hp. rewrite Heq in Hu.
      destruct (h1 !! p) as [[| | |] |]; discriminate. }
    assert (Htl : ss_tasks ss ≠ l).
    { intros Heq. unfold read_tasks, read_locked in Ht, Hl. rewrite Heq in Ht.
      destruct (h1 !! l) as [[| | |] |]; discriminate. }
    assert (Htp : ss_tasks ss ≠ p).
    { intros Heq. unfold read_tasks, read_history in Ht, Hp. rewrite Heq in Ht.
      destruct (h1 !! p) as [[| | |] |]; discriminate. }
    assert (Hulen : (ss_user_data ss < length h1)%nat).
    { unfold read_user in Hu.
      destruct (h1 !! ss_user_data ss) eqn:Ho; [| discriminate].
      eapply lookup_lt_Some, Ho. }
    assert (Htlen : (ss_tasks ss < length h1)%nat).
    { unfold read_tasks in Ht.
      destruct (h1 !! ss_tasks ss) eqn:Ho; [| discriminate].
      eapply lookup_lt_Some, Ho. }
    eexists.
    eapply import_data_refs; try reflexivity.
    + rewrite read_user_insert_ne by congruence.
      unfold read_user, heap in *.
      rewrite list_lookup_insert_eq by exact Hulen. reflexivity.
    + unfold read_tasks, heap in *.
      rewrite list_lookup_insert_eq by (rewrite length_insert; exact Htlen).
      reflexivity.
    + rewrite !read_locked_insert_ne by congruence. exact Hl.
    + rewrite !read_history_insert_ne by congruence. exact Hp.
  - intros data ss2 h2 Hmissing. unfold import_data, has_required_keys.
    destruct (d_user_data data); destruct (d_tasks data);
      destruct (d_exported_at data); destruct (d_version data);
      try reflexivity.
    destruct Hmissing as [H | [H | [H | H]]]; discriminate H.
Qed.

End ExportImport.

Lemma export_then_import_restores_witness :
  ∃ (d : DataExchange.export_dict)
    (h1 : DataExchange.heap (gmap string Q) (list Z))
    (file : DataExchange.json_file (gmap string Q) (list Z)),
    DataExchange.export_data ∅ [] 10%Z saved_refs saved_heap = (d, h1) ∧
    DataExchange.dumps d h1 = Some file ∧
    (∀ (ss2 : DataExchange.session_state)
       (h2 : DataExchange.heap (gmap string Q) (list Z)),
        ∃ (ss3 : DataExchange.session_state)
          (h3 : DataExchange.heap (gmap string Q) (list Z)),
          DataExchange.import_data ∅ []
            (fst (DataExchange.loads file h2)) ss2
            (snd (DataExchange.loads file h2))
          = (true, ss3, h3) ∧
          DataExchange.view ss3 h3
          = Some (DataExchange.with_defaults ∅ [] saved_state)) ∧
    (∀ (u' : UserData) (t' : TaskStore),
        ∃ ss3 : DataExchange.session_state,
          DataExchange.import_data ∅ [] d saved_refs
            (<[DataExchange.ss_tasks saved_refs :=
                 DataExchange.TasksObject (gmap string Q) (list Z) t']>
               (<[DataExchange.ss_user_data saved_refs :=
                    DataExchange.UserObject (gmap string Q) (list Z) u']> h1))
          = (true, ss3,
             <[DataExchange.ss_tasks saved_refs :=
                 DataExchange.TasksObject (gmap string Q) (list Z) t']>
               (<[DataExchange.ss_user_data saved_refs :=
                    DataExchange.UserObject (gmap string Q) (list Z) u']> h1)) ∧
          DataExchange.view ss3
            (<[DataExchange.ss_tasks saved_refs :=
                 DataExchange.TasksObject (gmap string Q) (list Z) t']>
               (<[DataExchange.ss_user_data saved_refs :=
                    DataExchange.UserObject (gmap string Q) (list Z) u']> h1))
          = Some (DataExchange.AppState (gmap string Q) (list Z)
                    (mkSession u' t')
                    (DataExchange.locked_attributes
                       (DataExchange.with_defaults ∅ [] saved_state))
                    (DataExchange.penalty_history
                       (DataExchange.with_defaults ∅ [] saved_state)))) ∧
    (∀ (data : DataExchange.export_dict) (ss2 : DataExchange.session_state)
       (h2 : DataExchange.heap (gmap string Q) (list Z)),
        DataExchange.d_user_data data = None ∨
        DataExchange.d_tasks data = None ∨
        DataExchange.d_exported_at data = None ∨
        DataExchange.d_version data = None →
        DataExchange.import_data ∅ [] data ss2 h2 = (false, ss2, h2)).
Proof.
  apply (export_then_import_restores (gmap string Q) (list Z) ∅ [] 10%Z
           saved_refs saved_heap saved_state).
  reflexivity.
Defined.

(** The two paths at a concrete state.  After an export, the task of the
    session is completed in place (the user-data and task objects change).
    The file written at the export brings back Physical = 0 and the open
    task; the live dictionary brings back nothing: Physical stays 1. *)
Example export_file_and_live_dictionary :
  let exported := DataExchange.export_data ∅ [] 10%Z saved_refs saved_heap in
  let file := DataExchange.dumps (fst exported) (snd exported) in
  let done := snd (TaskManager.complete_task 20%Z "daily_1" run_task "daily"
                                             one_task_session) in
  let later :=
    <[1%nat := DataExchange.TasksObject (gmap string Q) (list Z) (tasks done)]>
      (<[0%nat := DataExchange.UserObject (gmap string Q) (list Z)
                    (user_data done)]> (snd exported)) in
  let physical (r : bool * DataExchange.session_state
                    * DataExchange.heap (gmap string Q) (list Z)) :=
    match DataExchange.view (snd (fst r)) (snd r) with
    | Some st =>
        attributes (user_data (DataExchange.session st)) !! "Physical"
    | None => None
    end in
  attributes (user_data done) !! "Physical" = Some (0 + 1 * 1)%Q ∧
  match file with
  | Some f =>
      physical (DataExchange.import_data ∅ []
                  (fst (DataExchange.loads f later)) saved_refs
                  (snd (DataExchange.loads f later)))
  | None => None
  end = Some 0%Q ∧
  physical (DataExchange.import_data ∅ [] (fst exported) saved_refs later)
  = Some (0 + 1 * 1)%Q.
Proof.
  cbv zeta.
  split; [vm_compute; reflexivity |].
  split; vm_compute; reflexivity.
Qed.
